(** * icebox: the storage orchestration layer ([app/box.py]) and its
      command line ([app/cli.py])

    A shallow embedding of [Box] and of the [put] and [get] commands.
    The disk of one box, the local transient files and the outside world
    (backend, GnuPG, random numbers) are explicit state; Python exceptions
    are an outcome of every computation. *)

From Stdlib Require Import String Ascii List ZArith Lia.
From Stdlib Require Import Sorting.Sorted Sorting.Permutation.
From stdpp Require Import base option list gmap sets strings pretty.

Local Open Scope string_scope.

(** ** Python values *)

(** An opaque identifier handed out by a backend (a key or a job id), or
    Python's [None]. *)
Definition pyval : Type := option string.

(** A [pathlib.Path], as its components. *)
Definition path : Type := list string.

(** [Path.name]: the final component, [''] when there is none. *)
Definition path_name (p : path) : string := List.last p "".

(** Instances of [Exception] and of the subclasses that occur: every one is
    caught by [except Exception]. [Exit] is what click's [ctx.exit] raises.
    Signals that are not [Exception]s (a keyboard interrupt) are outside
    the model. *)
Inductive exn : Type :=
| Exception (msg : string)
| TypeError (msg : string)
| AttributeError (msg : string)
| KeyError (msg : string)
| UnboundLocalError (msg : string)
| OSError (msg : string)
| Exit (code : Z).

(** [str(e)] *)
Definition str (e : exn) : string :=
  match e with
  | Exception m | TypeError m | AttributeError m | KeyError m
  | UnboundLocalError m | OSError m => m
  | Exit _ => ""
  end.

(** A local variable of a running function: Python raises
    [UnboundLocalError] when one is read before its first assignment. *)
Inductive local (A : Type) : Type :=
| Unbound
| Bound (a : A).
Arguments Unbound {A}.
Arguments Bound {A} a.

(** ** Computations

    A computation runs on a state and ends by returning, by raising, or is
    still [Pending]: the poll loop of [retrieve] has used up the rounds it
    was given and the process is asleep in [time.sleep]. The state at the
    end is always there to look at. *)
Inductive outcome (A : Type) : Type :=
| Ret (a : A)
| Raise (e : exn)
| Pending.
Arguments Ret {A} a.
Arguments Raise {A} e.
Arguments Pending {A}.

Definition M (S A : Type) : Type := S -> outcome A * S.

Definition ret {S A : Type} (a : A) : M S A := fun s => (Ret a, s).

Definition raise {S A : Type} (e : exn) : M S A := fun s => (Raise e, s).

Definition bind {S A B : Type} (m : M S A) (k : A -> M S B) : M S B :=
  fun s =>
    match m s with
    | (Ret a, s') => k a s'
    | (Raise e, s') => (Raise e, s')
    | (Pending, s') => (Pending, s')
    end.

Declare Scope py_scope.
Delimit Scope py_scope with py.
Notation "x <- m ;; k" := (bind m (fun x => k))
  (at level 100, m at next level, right associativity) : py_scope.
Notation "m ;; k" := (bind m (fun _ => k))
  (at level 100, right associativity) : py_scope.
Local Open Scope py_scope.

(** [try: body except Exception as e: handler] *)
Definition try_except {S A : Type} (body : M S A) (handler : exn -> M S A)
  : M S A :=
  fun s =>
    match body s with
    | (Raise e, s') => handler e s'
    | r => r
    end.

(** [try: body finally: final]. The [finally] block runs when the body
    has returned or raised; an exception of its own replaces the one in
    flight. *)
Definition try_finally {S A : Type} (body : M S A) (final : M S unit)
  : M S A :=
  fun s =>
    match body s with
    | (Pending, s') => (Pending, s')
    | (r, s') =>
        match final s' with
        | (Ret _, s'') => (r, s'')
        | (Raise e, s'') => (Raise e, s'')
        | (Pending, s'') => (Pending, s'')
        end
    end.

(** A computation on the world, run inside a function that also has a
    frame [F] of local variables. *)
Definition lift {F S A : Type} (m : M S A) : M (F * S) A :=
  fun fs =>
    match m (snd fs) with
    | (r, s') => (r, (fst fs, s'))
    end.

(** What a collaborator's method answers. *)
Inductive result (A : Type) : Type :=
| Ok (a : A)
| Err (e : exn).
Arguments Ok {A} a.
Arguments Err {A} e.

(** Writing a file of the box is three steps: [mkdir(parents=True,
    exist_ok=True)] on its directory, [open(file, 'w')], and
    [yaml.safe_dump] into the file, which is closed when the [with]
    statement is left. Each can raise: in [mkdir], and nothing has
    changed; in [open], and the directory is there while the file is as it
    was; or later, and then the file is there, made or emptied by
    [open]. *)
Inductive write_stage : Type := at_mkdir | at_open | at_dump.

(** Modelled from the spec: [app.util.JobStatus] is not among the sources.
    [box.py] names its members [running] and [failure]; the spec has the
    three statuses running, succeeded and failed. *)
Inductive JobStatus : Type := running | success | failure.

(** Strings are sequences of bytes: Python's strings in UTF-8, whose order
    byte by byte is Python's order of strings, code point by code point.
    (A file name that is not UTF-8 has no such string.) *)

(** What [str.lower] does to a string of ASCII characters: the letters
    [A] to [Z] become [a] to [z]. *)
Definition ascii_lower (c : ascii) : ascii :=
  let n := nat_of_ascii c in
  if (65 <=? n)%nat && (n <=? 90)%nat then ascii_of_nat (n + 32) else c.

Fixpoint lower_ascii (s : string) : string :=
  match s with
  | EmptyString => EmptyString
  | String c s' => String (ascii_lower c) (lower_ascii s')
  end.

(** A string of ASCII characters only. *)
Fixpoint ascii_only (s : string) : bool :=
  match s with
  | EmptyString => true
  | String c s' => (nat_of_ascii c <? 128)%nat && ascii_only s'
  end.

(** [list.sort(key=...)]: a stable sort, ascending in the keys, which are
    strings compared character by character. *)
Fixpoint insert_by_key {A : Type} (key : A -> string) (x : A) (l : list A)
  : list A :=
  match l with
  | [] => [x]
  | y :: l' =>
      if String.leb (key x) (key y) then x :: y :: l'
      else y :: insert_by_key key x l'
  end.

Fixpoint sort_by_key {A : Type} (key : A -> string) (l : list A) : list A :=
  match l with
  | [] => []
  | x :: l' => insert_by_key key x (sort_by_key key l')
  end.

(** The order [sort_by_key] sorts in. *)
Definition key_le {A : Type} (key : A -> string) (a b : A) : Prop :=
  String.leb (key a) (key b) = true.

(** ** The world *)

Section World.

(** [X] is the state of everything outside the box: the backend's storage
    and jobs, the GnuPG key ring, the random number generator. [Opt] is the
    type of the backend options given to [retrieve]. *)
Context {X Opt : Type}.

(** A call to a collaborator, as seen by it. *)
Inductive call : Type :=
| CBoxInit
| CStore (local_path : option path) (name : string)
| CRetrieveInit (key : pyval) (options : Opt)
| CRetrieveStatus (data_job meta_job : pyval)
| CRetrieveFinish (job : pyval)
| CDelete (key : pyval)
| CEncrypt (src : path) (key_id : string)
| CDecrypt (data meta : option path) (dst : path).

(** A call and how it ended: [None] when it returned. *)
Definition event : Type := call * option exn.

(** A method of a collaborator: it may change the outside state and the
    local files, answers or raises, and does not touch the records of the
    box. *)
Definition cap (A : Type) : Type := X -> gset path -> result A * X * gset path.

(** The interface of [app.backend] (not among the sources), as [box.py]
    uses it. *)
Record Backend : Type := {
  backend_box_init : cap unit;
  backend_store : option path -> string -> cap pyval;
  backend_retrieve_init : pyval -> Opt -> cap pyval;
  backend_retrieve_status : pyval -> pyval -> cap JobStatus;
  backend_retrieve_finish : pyval -> cap (option path);
  backend_delete : pyval -> cap unit
}.

(** The interface of [app.gpg.GPG] (not among the sources). *)
Record GPG : Type := {
  gpg_encrypt : path -> string -> cap (option path * option path);
  gpg_decrypt : option path -> option path -> path -> cap unit
}.

(** The disk of the box, the local files, the outside, and three logs that
    only the theorems read: the calls made to collaborators, the seconds
    slept, and the lines printed by [click.echo]. A record file is the pair
    of its two entries ([data-key] and [meta-key], or [data-job] and
    [meta-job]), [None] standing for an entry that [dict.get] does not
    find. [keys_dir] is [None] when the directory [retrieval-keys] does
    not exist. *)
Record world : Type := World {
  config_file : option (gmap string string);
  keys_dir : option (gmap string (pyval * pyval));
  jobs_dir : gmap string (pyval * pyval);
  files : gset path;
  ext : X;
  calls : list event;
  slept : nat;
  echoed : list string
}.

(** The record files under [retrieval-keys]; none when the directory does
    not exist. *)
Definition key_files (w : world) : gmap string (pyval * pyval) :=
  default ∅ (keys_dir w).

(** A record file that a failed write has left behind: the file is there
    and none of its two entries is. What is read back from a file that was
    cut short is not followed further: the theorems say of such a file
    that it is there, and nothing of what it holds. *)
Definition torn_record : pyval * pyval := (None, None).

(** The directory [retrieval-keys] after a write of the record of
    [source] that raised at [stage]. *)
Definition keys_left (stage : write_stage) (source : string) (w : world)
  : option (gmap string (pyval * pyval)) :=
  match stage with
  | at_mkdir => keys_dir w
  | at_open => Some (key_files w)
  | at_dump => Some (<[source := torn_record]> (key_files w))
  end.

(** The directory [retrieval-jobs], whose existence the world does not
    follow, after a write that raised at [stage]. *)
Definition jobs_left (stage : write_stage) (source : string) (w : world)
  : gmap string (pyval * pyval) :=
  match stage with
  | at_dump => <[source := torn_record]> (jobs_dir w)
  | _ => jobs_dir w
  end.

(** [config.yml] after a write that raised at [stage]: an empty file
    stands as a configuration with no entry. *)
Definition config_left (stage : write_stage) (w : world)
  : option (gmap string string) :=
  match stage with
  | at_dump => Some ∅
  | _ => config_file w
  end.

Definition set_keys_dir (d : option (gmap string (pyval * pyval))) (w : world)
  : world :=
  World (config_file w) d (jobs_dir w) (files w) (ext w) (calls w) (slept w)
        (echoed w).

Definition set_jobs_dir (j : gmap string (pyval * pyval)) (w : world) : world :=
  World (config_file w) (keys_dir w) j (files w) (ext w) (calls w) (slept w)
        (echoed w).

Definition set_config_file (c : option (gmap string string)) (w : world)
  : world :=
  World c (keys_dir w) (jobs_dir w) (files w) (ext w) (calls w) (slept w)
        (echoed w).

Definition set_files (fs : gset path) (w : world) : world :=
  World (config_file w) (keys_dir w) (jobs_dir w) fs (ext w) (calls w)
        (slept w) (echoed w).

Definition after_call (x : X) (fs : gset path) (ev : event) (w : world)
  : world :=
  World (config_file w) (keys_dir w) (jobs_dir w) fs x (calls w ++ [ev])
        (slept w) (echoed w).

Definition set_ext (x : X) (w : world) : world :=
  World (config_file w) (keys_dir w) (jobs_dir w) (files w) x (calls w)
        (slept w) (echoed w).

(** Calling a method of a collaborator. *)
Definition invoke {A : Type} (c : call) (f : cap A) : M world A :=
  fun w =>
    match f (ext w) (files w) with
    | (Ok a, x, fs) => (Ret a, after_call x fs (c, None) w)
    | (Err e, x, fs) => (Raise e, after_call x fs (c, Some e) w)
    end.

(** [time.sleep(n)] *)
Definition sleep (n : nat) : M world unit :=
  fun w =>
    (Ret tt,
     World (config_file w) (keys_dir w) (jobs_dir w) (files w) (ext w)
           (calls w) (slept w + n) (echoed w)).

(** [click.echo(line)] *)
Definition echo (line : string) : M world unit :=
  fun w =>
    (Ret tt,
     World (config_file w) (keys_dir w) (jobs_dir w) (files w) (ext w)
           (calls w) (slept w) (echoed w ++ [line])).

(** [p.exists()] and [p.unlink()] on a local file. *)
Definition path_exists (p : path) : M world bool :=
  fun w => (Ret (bool_decide (p ∈ files w)), w).

Definition unlink (p : path) : M world unit :=
  fun w =>
    if bool_decide (p ∈ files w)
    then (Ret tt, set_files (files w ∖ {[p]}) w)
    else (Raise (OSError "No such file or directory"), w).

(** The statement [if p and p.exists(): p.unlink()] of the [finally]
    blocks, for a value [p] that is a path or [None]. *)
Definition unlink_if_exists (p : option path) : M world unit :=
  match p with
  | None => ret tt
  | Some q =>
      e <- path_exists q;;
      if e then unlink q else ret tt
  end.

(** The same statement for a local variable that may not be bound yet.
    The message is CPython's up to version 3.10; the theorems that matter
    depend on the class of the exception only. *)
Definition unlink_local {F : Type} (var : string)
    (read : F -> local (option path)) : M (F * world) unit :=
  fun fw =>
    match read (fst fw) with
    | Unbound =>
        (Raise (UnboundLocalError
                  ("local variable '" +:+ var +:+
                   "' referenced before assignment")), fw)
    | Bound p => lift (unlink_if_exists p) fw
    end.

(** The events a computation added to the log of a world. *)
Definition new_calls (w w' : world) : list event :=
  drop (length (calls w)) (calls w').

(** The log of [w'] is that of [w] and then events that all satisfy
    [P]. *)
Definition extends_with (P : event -> Prop) (w w' : world) : Prop :=
  exists evs, calls w' = (calls w ++ evs)%list /\ Forall P evs.

(** A computation whose state holds a world, and which always takes that
    world to one that [R] relates to it. *)
Definition steps {S A : Type} (proj : S -> world)
    (R : world -> world -> Prop) (m : M S A) : Prop :=
  forall s, R (proj s) (proj (snd (m s))).

(** A computation that only adds events that satisfy [P] to the log. *)
Definition logs {S A : Type} (proj : S -> world) (P : event -> Prop)
    (m : M S A) : Prop :=
  steps proj (extends_with P) m.

(** An event of a retrieval that resumes the jobs [d] and [m]: no job is
    started, and the jobs polled and fetched are those two. *)
Definition resumes (d m : pyval) (ev : event) : Prop :=
  match fst ev with
  | CRetrieveInit _ _ => False
  | CRetrieveStatus d' m' => d' = d /\ m' = m
  | CRetrieveFinish j => j = d \/ j = m
  | _ => True
  end.

(** An event that starts no retrieval job. *)
Definition starts_no_job (ev : event) : Prop :=
  match fst ev with
  | CRetrieveInit _ _ => False
  | _ => True
  end.

(** Two worlds with the same records on disk. *)
Definition same_records (w w' : world) : Prop :=
  config_file w' = config_file w /\ keys_dir w' = keys_dir w /\
  jobs_dir w' = jobs_dir w.

End World.

Arguments call : clear implicits.
Arguments event : clear implicits.
Arguments cap : clear implicits.
Arguments Backend : clear implicits.
Arguments GPG : clear implicits.
Arguments world : clear implicits.

(** [Path.exists] for a path that is none of the files of the box the
    world holds: the rest of the file system, part of the outside, is
    what answers. *)
Class Elsewhere (X : Type) : Type := exists_elsewhere : string -> X -> bool.

(** The longest name a directory entry can have, in bytes. *)
Definition NAME_MAX : nat := 255.

(** Is there a separator in the string? *)
Fixpoint has_sep (s : string) : bool :=
  match s with
  | EmptyString => false
  | String c s' => Ascii.eqb c "/"%char || has_sep s'
  end.

(** The strings that lead nowhere when joined to a directory: [''] and
    ['.'] to the directory itself, ['..'] through it to its parent. *)
Definition dots (s : string) : bool :=
  bool_decide (s = "" \/ s = "." \/ s = "..").

(** A string that can name an entry of a directory: one component, not
    too long, and none of the three above. *)
Definition plain (s : string) : bool :=
  negb (has_sep s) && negb (dots s) && (String.length s <=? NAME_MAX)%nat.

(** ** [class Box] *)

Module Box.
Section Methods.

Context {X Opt : Type} `{!Elsewhere X}.

(** [app.backend.get_backend] (not among the sources): the backend for a
    kind and a configuration, or the exception it raises. *)
Variable get_backend : string -> gmap string string -> result (Backend X Opt).

(** [str(uuid.uuid4())]: a fresh name drawn from the outside. *)
Variable uuid4 : X -> string * X.

(** What the file system answers when a file is written under a
    directory of the box: [None] when the three steps go through,
    [Some (e, stage)] when the step [stage] raises [e]. *)
Variable write_error : string -> string -> X -> option (exn * write_stage).

Abbreviation world := (world X Opt).
Abbreviation Backend := (Backend X Opt).
Abbreviation GPG := (GPG X).

(** A [Box] object: its configuration, read from [config.yml] when the
    object is made, and the [_gpg] attribute, [None] until it is set. *)
Record t : Type := {
  config : gmap string string;
  _gpg : option GPG
}.

Definition DATA_SUFFIX : string := ".data".
Definition META_SUFFIX : string := ".meta".

(** [Box.exists]: is there a configuration file? *)
Definition exists_ (self : t) : M world bool :=
  fun w => (Ret (bool_decide (is_Some (config_file w))), w).

(** The property [Box.gpg]. *)
Definition gpg (self : t) : M world GPG :=
  match _gpg self with
  | Some g => ret g
  | None => raise (Exception "No GPG instance.")
  end.

(** The property [Box.key]. *)
Definition key (self : t) : M world string :=
  match config self !! "key-id" with
  | Some k => ret k
  | None => raise (Exception "No key ID.")
  end.

(** [Box.backend]: [self.config['backend']] raises [KeyError] when the
    configuration has no backend. *)
Definition backend (self : t) : M world Backend :=
  match config self !! "backend" with
  | None => raise (KeyError "'backend'")
  | Some kind =>
      match get_backend kind (config self) with
      | Ok b => ret b
      | Err e => raise e
      end
  end.

(** [_encrypted_names] *)
Definition _encrypted_names : M world (string * string) :=
  fun w =>
    let (basename, x) := uuid4 (ext w) in
    (Ret (basename +:+ DATA_SUFFIX, basename +:+ META_SUFFIX), set_ext x w).

(** [key_path.joinpath(source).exists()], for [key_path] the directory
    [retrieval-keys]. Joined with the name of one of its entries the
    directory gives that entry. Joined with [''] or ['.'] it gives itself,
    and with ['..'] its parent, which is reached through it: these exist
    when the directory does. Any other string (a path of several
    components, an absolute path, which replaces the directory, a name
    that is too long) leads out of what the world holds, and the answer
    is that of the file system. *)
Definition key_file_exists (source : string) (w : world) : bool :=
  bool_decide (is_Some (key_files w !! source)) ||
  (if plain source then false
   else if dots source then bool_decide (is_Some (keys_dir w))
   else exists_elsewhere source (ext w)).

(** [Box.contains] *)
Definition contains (self : t) (source : string) : M world bool :=
  fun w => (Ret (key_file_exists source w), w).

(** [Box._get_retrieval_keys]: the [(None, None)] of the [else] branch
    when there is no record file. *)
Definition _get_retrieval_keys (self : t) (source : string)
  : M world (pyval * pyval) :=
  fun w =>
    match key_files w !! source with
    | Some keydict => (Ret keydict, w)
    | None => (Ret (None, None), w)
    end.

(** [Box._set_retrieval_keys]: [mkdir(parents=True, exist_ok=True)], then
    the record file is opened for writing and the two entries are dumped
    into it. *)
Definition _set_retrieval_keys (self : t) (source : string)
    (data_key meta_key : pyval) : M world unit :=
  fun w =>
    match write_error "retrieval-keys" source (ext w) with
    | Some (e, stage) => (Raise e, set_keys_dir (keys_left stage source w) w)
    | None =>
        (Ret tt,
         set_keys_dir
           (Some (<[source := (data_key, meta_key)]> (key_files w))) w)
    end.

(** [Box._clear_retrieval_keys] *)
Definition _clear_retrieval_keys (self : t) (source : string) : M world unit :=
  fun w =>
    match keys_dir w with
    | Some d =>
        if bool_decide (is_Some (d !! source))
        then (Ret tt, set_keys_dir (Some (base.delete source d)) w)
        else (Ret tt, w)
    | None => (Ret tt, w)
    end.

(** [Box._has_retrieval_jobs] *)
Definition _has_retrieval_jobs (self : t) (source : string) : M world bool :=
  fun w => (Ret (bool_decide (is_Some (jobs_dir w !! source))), w).

(** [Box._get_retrieval_jobs] *)
Definition _get_retrieval_jobs (self : t) (source : string)
  : M world (pyval * pyval) :=
  fun w =>
    match jobs_dir w !! source with
    | Some jobdict => (Ret jobdict, w)
    | None => (Ret (None, None), w)
    end.

(** [Box._set_retrieval_jobs] *)
Definition _set_retrieval_jobs (self : t) (source : string)
    (data_job meta_job : pyval) : M world unit :=
  fun w =>
    match write_error "retrieval-jobs" source (ext w) with
    | Some (e, stage) => (Raise e, set_jobs_dir (jobs_left stage source w) w)
    | None =>
        (Ret tt,
         set_jobs_dir (<[source := (data_job, meta_job)]> (jobs_dir w)) w)
    end.

(** [Box._clear_retrieval_jobs] *)
Definition _clear_retrieval_jobs (self : t) (source : string) : M world unit :=
  fun w =>
    if bool_decide (is_Some (jobs_dir w !! source))
    then (Ret tt, set_jobs_dir (base.delete source (jobs_dir w)) w)
    else (Ret tt, w).

(** The [try] statement of [Box.store] (lines 83 to 96). *)
Definition store_try (self : t) (b : Backend) (source : string)
    (data_path meta_path : option path) (data_name meta_name : string)
  : M world unit :=
  try_finally
    (try_except
       (data_key <- invoke (CStore data_path data_name)
                           (backend_store b data_path data_name);;
        meta_key <- invoke (CStore meta_path meta_name)
                           (backend_store b meta_path meta_name);;
        _set_retrieval_keys self source data_key meta_key)
       (fun e =>
          raise (Exception ("Storage operation failed. (" +:+ str e +:+ ")"))))
    (unlink_if_exists data_path;;
     unlink_if_exists meta_path).

(** [Box.store] *)
Definition store (self : t) (src_path : path) : M world unit :=
  let source := path_name src_path in
  g <- gpg self;;
  k <- key self;;
  encrypted <- invoke (CEncrypt src_path k) (gpg_encrypt g src_path k);;
  let '(data_path, meta_path) := encrypted in
  names <- _encrypted_names;;
  let '(data_name, meta_name) := names in
  b <- backend self;;
  store_try self b source data_path meta_path data_name meta_name.

(** The local variables of [Box.retrieve] that its [finally] block
    reads. *)
Record frame : Type := Frame {
  data_path : local (option path);
  meta_path : local (option path)
}.

Definition set_data_path {S : Type} (p : option path) : M (frame * S) unit :=
  fun fs => (Ret tt, (Frame (Bound p) (meta_path (fst fs)), snd fs)).

Definition set_meta_path {S : Type} (p : option path) : M (frame * S) unit :=
  fun fs => (Ret tt, (Frame (data_path (fst fs)) (Bound p), snd fs)).

(** Lines 102 to 109 of [Box.retrieve]: get existing jobs or start new
    ones. *)
Definition retrieve_jobs (self : t) (b : Backend) (source : string)
    (backend_options : Opt) : M world (pyval * pyval) :=
  has <- _has_retrieval_jobs self source;;
  if (has : bool) then _get_retrieval_jobs self source
  else
    keys <- _get_retrieval_keys self source;;
    let '(data_key, meta_key) := keys in
    data_job <- invoke (CRetrieveInit data_key backend_options)
                       (backend_retrieve_init b data_key backend_options);;
    meta_job <- invoke (CRetrieveInit meta_key backend_options)
                       (backend_retrieve_init b meta_key backend_options);;
    _set_retrieval_jobs self source data_job meta_job;;
    ret (data_job, meta_job).

(** The [while] loop of lines 113 to 116, entered with the status just
    read; [rounds] bounds the number of times its body runs. *)
Fixpoint retrieve_wait (rounds : nat) (b : Backend) (data_job meta_job : pyval)
    (status : JobStatus) : M world JobStatus :=
  match status with
  | running =>
      match rounds with
      | O => fun w => (Pending, w)
      | S rounds' =>
          sleep 60;;
          status' <- invoke (CRetrieveStatus data_job meta_job)
                            (backend_retrieve_status b data_job meta_job);;
          retrieve_wait rounds' b data_job meta_job status'
      end
  | _ => ret status
  end.

(** Lines 112 to 116: wait until the jobs are done. *)
Definition retrieve_poll (rounds : nat) (b : Backend) (data_job meta_job : pyval)
  : M world JobStatus :=
  status <- invoke (CRetrieveStatus data_job meta_job)
                   (backend_retrieve_status b data_job meta_job);;
  retrieve_wait rounds b data_job meta_job status.

(** Lines 118 to 128: give up when the jobs have failed, else download
    the files and decrypt. *)
Definition retrieve_download (self : t) (b : Backend) (dst_path : path)
    (data_job meta_job : pyval) (status : JobStatus)
  : M (frame * world) unit :=
  match status with
  | failure => raise (Exception "Retrieval job failed.")
  | _ => ret tt
  end;;
  p <- lift (invoke (CRetrieveFinish data_job)
                    (backend_retrieve_finish b data_job));;
  set_data_path p;;
  q <- lift (invoke (CRetrieveFinish meta_job)
                    (backend_retrieve_finish b meta_job));;
  set_meta_path q;;
  g <- lift (gpg self);;
  lift (invoke (CDecrypt p q dst_path) (gpg_decrypt g p q dst_path)).

(** Lines 111 to 128: wait until the jobs are done, clear their record,
    and go on with the status they ended in. *)
Definition retrieve_fetch (rounds : nat) (self : t) (b : Backend)
    (source : string) (dst_path : path) (data_job meta_job : pyval)
  : M (frame * world) unit :=
  status <- lift (retrieve_poll rounds b data_job meta_job);;
  lift (_clear_retrieval_jobs self source);;
  retrieve_download self b dst_path data_job meta_job status.

(** The body of the [try] statement of [Box.retrieve]. *)
Definition retrieve_body (rounds : nat) (self : t) (b : Backend)
    (source : string) (dst_path : path) (backend_options : Opt)
  : M (frame * world) unit :=
  jobs <- lift (retrieve_jobs self b source backend_options);;
  let '(data_job, meta_job) := jobs in
  retrieve_fetch rounds self b source dst_path data_job meta_job.

(** The [try] statement of [Box.retrieve] (lines 101 to 136), run in a
    frame where neither [data_path] nor [meta_path] is bound yet. *)
Definition retrieve_try (rounds : nat) (self : t) (b : Backend)
    (source : string) (dst_path : path) (backend_options : Opt)
  : M world unit :=
  fun w =>
    match
      try_finally
        (try_except
           (retrieve_body rounds self b source dst_path backend_options)
           (fun e =>
              raise (Exception
                       ("Retrieval operation failed. (" +:+ str e +:+ ")"))))
        (unlink_local "data_path" data_path;;
         unlink_local "meta_path" meta_path)
        (Frame Unbound Unbound, w)
    with
    | (r, (_, w')) => (r, w')
    end.

(** [Box.retrieve]; the loop runs at most [rounds] times. *)
Definition retrieve (rounds : nat) (self : t) (source : string)
    (dst_path : path) (backend_options : Opt) : M world unit :=
  b <- backend self;;
  retrieve_try rounds self b source dst_path backend_options.

(** [Box.delete] *)
Definition delete (self : t) (source : string) : M world unit :=
  b <- backend self;;
  try_except
    (keys <- _get_retrieval_keys self source;;
     let '(data_key, meta_key) := keys in
     invoke (CDelete data_key) (backend_delete b data_key);;
     invoke (CDelete meta_key) (backend_delete b meta_key);;
     _clear_retrieval_keys self source)
    (fun e =>
       raise (Exception ("Delete operation failed. (" +:+ str e +:+ ")"))).

(** An entry of the list [Box.sources] returns: [{'name': ...}]. *)
Record source_info : Type := { name : string }.

(** [str.lower]. Python lower-cases by the Unicode character database,
    which is not part of this file; on a string of ASCII characters it is
    [lower_ascii]. *)
Variable str_lower : string -> string.

(** [Path.iterdir] on [retrieval-keys]: the names of the record files, in
    the order the operating system lists them. *)
Variable iterdir : gset string -> list string.

(** [Box.sources] *)
Definition sources (self : t) : M world (list source_info) :=
  fun w =>
    match keys_dir w with
    | Some d =>
        let result := map (fun child => {| name := child |}) (iterdir (dom d)) in
        (Ret (sort_by_key (fun s => str_lower (name s)) result), w)
    | None => (Ret [], w)
    end.

(** [Box(path)] and [get_box]: the configuration is loaded from
    [config.yml], [{}] when there is no such file. The world is the disk
    under [base_path/box_name]. *)
Definition get_box (base_path : path) (box_name : string) : M world t :=
  fun w => (Ret {| config := default ∅ (config_file w); _gpg := None |}, w).

(** *** Calls with an argument list

    Python matches the positional arguments of a call against the
    parameters of the method when the call is made, and raises [TypeError]
    when their numbers differ. The messages are CPython's up to version
    3.9 (later versions write [Box.store()] for [store()]). *)
Inductive value : Type :=
| VNone
| VStr (s : string)
| VPath (p : path)
| VOpts (o : Opt).

Definition value_of_path (p : option path) : value :=
  match p with
  | Some q => VPath q
  | None => VNone
  end.

(** [self.store(...)]. An argument that is no path has no [name]
    attribute. *)
Definition call_store (self : t) (args : list value) : M world unit :=
  match args with
  | [] =>
      raise (TypeError "store() missing 1 required positional argument: 'src_path'")
  | [VPath src_path] => store self src_path
  | [_] => raise (AttributeError "object has no attribute 'name'")
  | _ =>
      raise (TypeError ("store() takes 2 positional arguments but "
                        +:+ pretty (S (length args)) +:+ " were given"))
  end.

(** [self.retrieve(...)]. No caller in the sources passes three
    arguments; three arguments of other types than a name, a path and
    options are answered with a [TypeError]. *)
Definition call_retrieve (rounds : nat) (self : t) (args : list value)
  : M world unit :=
  match args with
  | [] =>
      raise (TypeError "retrieve() missing 3 required positional arguments: 'source', 'dst_path', and 'backend_options'")
  | [_] =>
      raise (TypeError "retrieve() missing 2 required positional arguments: 'dst_path' and 'backend_options'")
  | [_; _] =>
      raise (TypeError "retrieve() missing 1 required positional argument: 'backend_options'")
  | [VStr source; VPath dst_path; VOpts backend_options] =>
      retrieve rounds self source dst_path backend_options
  | [_; _; _] => raise (TypeError "unsupported argument type")
  | _ =>
      raise (TypeError ("retrieve() takes 4 positional arguments but "
                        +:+ pretty (S (length args)) +:+ " were given"))
  end.

(** [self.config[k] = v], and the setter of the property [Box.key] for a
    value that is a string (the [assert value is not None] of line 68
    holds for every string). *)
Definition set_config (k v : string) (self : t) : t :=
  {| config := <[k := v]> (config self); _gpg := _gpg self |}.

Definition set_key (value : string) (self : t) : t :=
  set_config "key-id" value self.

(** [Box._save_config]: the directory of the box is made, [config.yml] is
    opened for writing and the configuration is dumped into it. *)
Definition _save_config (self : t) : M world unit :=
  fun w =>
    match write_error "" "config.yml" (ext w) with
    | Some (e, stage) => (Raise e, set_config_file (config_left stage w) w)
    | None => (Ret tt, set_config_file (Some (config self)) w)
    end.

(** [Box.init] *)
Definition init (self : t) : M world unit :=
  ex <- exists_ self;;
  (if (ex : bool) then raise (Exception "Box already initialized.")
   else ret tt);;
  b <- backend self;;
  invoke CBoxInit (backend_box_init b);;
  _save_config self.

End Methods.
End Box.

(** ** The commands [put] and [get] of [app/cli.py] *)

Module Cli.
Section Commands.

Context {X Opt : Type} `{!Elsewhere X}.
Variable get_backend : string -> gmap string string -> result (Backend X Opt).
Variable uuid4 : X -> string * X.
Variable write_error : string -> string -> X -> option (exn * write_stage).

(** [GPG(path)], the constructor of [app.gpg.GPG] (not among the
    sources). *)
Variable new_gpg : path -> GPG X.

Abbreviation world := (world X Opt).

(** [ctx.exit(code)] *)
Definition ctx_exit {S A : Type} (code : Z) : M S A := raise (Exit code).

(** The [try] statement of [put] (lines 103 to 115): [data_path] and
    [meta_path] are [None] when it starts. *)
Definition put_try (box : @Box.t X) (gpg : GPG X) (src_path : path)
    (src_name : string) : M world unit :=
  fun w =>
    match
      try_finally
        (try_except
           (k <- lift (Box.key box);;
            encrypted <- lift (invoke (CEncrypt src_path k)
                                      (gpg_encrypt gpg src_path k));;
            let '(data_path, meta_path) := encrypted in
            Box.set_data_path data_path;;
            Box.set_meta_path meta_path;;
            lift (Box.call_store get_backend uuid4 write_error box
                    [Box.value_of_path data_path;
                     Box.value_of_path meta_path;
                     Box.VStr src_name]))
           (fun e =>
              lift (echo (str e));;
              ctx_exit 1))
        (unlink_local "data_path" Box.data_path;;
         unlink_local "meta_path" Box.meta_path)
        (Box.Frame (Bound None) (Bound None), w)
    with
    | (r, (_, w')) => (r, w')
    end.

(** The command [put]. *)
Definition put (base_path : path) (box_name : string) (source : path)
  : M world unit :=
  box <- Box.get_box base_path box_name;;
  ex <- Box.exists_ box;;
  (if (ex : bool) then ret tt
   else echo "Box not found.";; ctx_exit 1);;
  let src_path := source in
  let src_name := path_name src_path in
  c <- Box.contains box src_name;;
  (if (c : bool) then echo "Source name already exists in box.";; ctx_exit 1
   else ret tt);;
  let gpg := new_gpg (base_path ++ ["GPG"])%list in
  put_try box gpg src_path src_name.

(** The [try] statement of [get] (lines 139 to 151). [Box.retrieve] has no
    [return] statement, so were the call of line 142 to return, unpacking
    its [None] would raise and line 143 would not be reached. *)
Definition get_try (rounds : nat) (box : @Box.t X) (gpg : GPG X)
    (source : string) (destination : path) : M world unit :=
  fun w =>
    match
      try_finally
        (try_except
           (lift (Box.call_retrieve get_backend write_error rounds box
                    [Box.VStr source]);;
            raise (TypeError "cannot unpack non-iterable NoneType object"))
           (fun e =>
              lift (echo (str e));;
              ctx_exit 1))
        (unlink_local "data_path" Box.data_path;;
         unlink_local "meta_path" Box.meta_path)
        (Box.Frame (Bound None) (Bound None), w)
    with
    | (r, (_, w')) => (r, w')
    end.

(** The command [get]. *)
Definition get (rounds : nat) (base_path : path) (box_name : string)
    (source : string) (destination : path) : M world unit :=
  box <- Box.get_box base_path box_name;;
  ex <- Box.exists_ box;;
  (if (ex : bool) then ret tt
   else echo "Box not found.";; ctx_exit 1);;
  c <- Box.contains box source;;
  (if (c : bool) then ret tt
   else echo "Source name not found in box.";; ctx_exit 1);;
  let gpg := new_gpg (base_path ++ ["GPG"])%list in
  get_try rounds box gpg source destination.

(** [GPG.valid_key_id] (not among the sources), for the instance made
    from a path; its calls are not entered in the log. *)
Variable valid_key_id : path -> string -> cap X bool.

(** Calling a method of a collaborator that the log does not follow. *)
Definition consult {A : Type} (f : cap X A) : M world A :=
  fun w =>
    match f (ext w) (files w) with
    | (Ok a, x, fs) => (Ret a, set_files fs (set_ext x w))
    | (Err e, x, fs) => (Raise e, set_files fs (set_ext x w))
    end.

(** The group [init] (lines 28 to 46). It hands the box to its
    subcommand in [ctx.obj['box']]; when it leaves through [ctx.exit] the
    subcommand does not run. *)
Definition init (base_path : path) (box_name key_id : string)
  : M world (@Box.t X) :=
  box <- Box.get_box base_path box_name;;
  ex <- Box.exists_ box;;
  (if (ex : bool) then echo "Box already exists.";; ctx_exit 1
   else ret tt);;
  let gpg_path := (base_path ++ ["GPG"])%list in
  valid <- consult (valid_key_id gpg_path key_id);;
  (if (valid : bool) then ret tt
   else echo "Invalid key ID.";; ctx_exit 1);;
  ret (Box.set_key key_id box).

(** The body the two subcommands share: [box.init()] inside [try], the
    message of lines 63 and 79. *)
Definition init_box (box : @Box.t X) : M world unit :=
  try_except
    (Box.init get_backend write_error box)
    (fun e =>
       echo ("Box initialization failed. (" +:+ str e +:+ ")");;
       ctx_exit 1).

(** The configuration the subcommands build for a new box: the key id
    set by the group, then the backend and its parameter. *)
Definition new_config (key_id backend param value : string)
  : gmap string string :=
  <[param := value]> (<["backend" := backend]> (<["key-id" := key_id]> ∅)).

(** The command [init folder]. *)
Definition init_folder (base_path : path) (box_name key_id : string)
    (folder_path : string) : M world unit :=
  box <- init base_path box_name key_id;;
  let box := Box.set_config "backend" "folder" box in
  let box := Box.set_config "folder-path" folder_path box in
  init_box box.

(** The command [init glacier]. *)
Definition init_glacier (base_path : path) (box_name key_id : string)
    (vault_arn : string) : M world unit :=
  box <- init base_path box_name key_id;;
  let box := Box.set_config "backend" "glacier" box in
  let box := Box.set_config "vault-arn" vault_arn box in
  init_box box.

End Commands.
End Cli.

(** ** Ways through the code *)

Section Paths.

Context {X Opt : Type}.
Variable write_error : string -> string -> X -> option (exn * write_stage).

Abbreviation world := (world X Opt).

Local Open Scope list_scope.

(** The ways through the [try] block of [Box.store], before its [finally]
    block runs. *)
Inductive store_path (source : string) (dp mp : option path) (dn mn : string)
    (w : world) : outcome unit -> world -> Prop :=
| store_data_raised e w1 :
    calls w1 = calls w ++ [(CStore dp dn, Some e)] ->
    same_records w w1 ->
    store_path source dp mp dn mn w
      (Raise (Exception ("Storage operation failed. (" +:+ str e +:+ ")"))) w1
| store_meta_raised e w1 :
    calls w1 = calls w ++ [(CStore dp dn, None); (CStore mp mn, Some e)] ->
    same_records w w1 ->
    store_path source dp mp dn mn w
      (Raise (Exception ("Storage operation failed. (" +:+ str e +:+ ")"))) w1
| store_write_raised e stage w1 :
    calls w1 = calls w ++ [(CStore dp dn, None); (CStore mp mn, None)] ->
    config_file w1 = config_file w ->
    jobs_dir w1 = jobs_dir w ->
    write_error "retrieval-keys" source (ext w1) = Some (e, stage) ->
    keys_dir w1 = keys_left stage source w ->
    store_path source dp mp dn mn w
      (Raise (Exception ("Storage operation failed. (" +:+ str e +:+ ")"))) w1
| store_written data_key meta_key w1 :
    calls w1 = calls w ++ [(CStore dp dn, None); (CStore mp mn, None)] ->
    config_file w1 = config_file w ->
    jobs_dir w1 = jobs_dir w ->
    keys_dir w1 = Some (<[source := (data_key, meta_key)]> (key_files w)) ->
    store_path source dp mp dn mn w (Ret tt) w1.

(** The ways through [Box.delete] once it has a backend, for the keys
    [dk] and [mk] it passes on. *)
Inductive delete_path (source : string) (dk mk : pyval) (w : world)
  : outcome unit -> world -> Prop :=
| delete_data_raised e w1 :
    calls w1 = calls w ++ [(CDelete dk, Some e)] ->
    same_records w w1 ->
    delete_path source dk mk w
      (Raise (Exception ("Delete operation failed. (" +:+ str e +:+ ")"))) w1
| delete_meta_raised e w1 :
    calls w1 = calls w ++ [(CDelete dk, None); (CDelete mk, Some e)] ->
    same_records w w1 ->
    delete_path source dk mk w
      (Raise (Exception ("Delete operation failed. (" +:+ str e +:+ ")"))) w1
| delete_cleared w1 :
    calls w1 = calls w ++ [(CDelete dk, None); (CDelete mk, None)] ->
    config_file w1 = config_file w ->
    jobs_dir w1 = jobs_dir w ->
    keys_dir w1 = base.delete source <$> keys_dir w ->
    delete_path source dk mk w (Ret tt) w1.

(** The local files once [p], a path or [None], has been through
    [unlink_if_exists]. *)
Definition without (p : option path) (fs : gset path) : gset path :=
  match p with
  | Some f => fs ∖ {[f]}
  | None => fs
  end.

(** What a run of an operation on [source] may do to the records: the
    configuration and the Retrieval Key Store stay, and so do the jobs of
    every other source. *)
Definition keeps_keys (source : string) (w w' : world) : Prop :=
  config_file w' = config_file w /\ keys_dir w' = keys_dir w /\
  forall other, other <> source -> jobs_dir w' !! other = jobs_dir w !! other.

(** [Box.init] cut short on its last line: [box_init] had returned, and
    the writing of [config.yml] raised [e] after the file was opened,
    which has left the file behind. *)
Definition init_cut_short (e : exn) (w w' : world) : Prop :=
  new_calls w w' = [(CBoxInit, None)] /\
  write_error "" "config.yml" (ext w') = Some (e, at_dump) /\
  is_Some (config_file w').

End Paths.

(** ** A mock backend, for the examples

    Its state is the script of statuses the next polls will report (then
    [success]); keys and job ids are derived from the names; the names in
    [refused] cannot be stored, the keys in [locked] cannot be deleted.
    Deleting is a no-op on unknown keys. *)

Module Mock.

Definition state : Type := list JobStatus.

Definition tag (prefix : string) (v : pyval) : pyval :=
  Some (prefix +:+ default "None" v).

Definition backend (refused : list string) (locked : list pyval)
  : Backend state unit :=
  {| backend_box_init := fun x fs => (Ok tt, x, fs);
     backend_store := fun p n x fs =>
       if bool_decide (n ∈ refused)
       then (Err (OSError "upload refused"), x, fs)
       else (Ok (Some ("key-" +:+ n)), x, fs);
     backend_retrieve_init := fun k _ x fs => (Ok (tag "job-" k), x, fs);
     backend_retrieve_status := fun _ _ x fs =>
       match x with
       | [] => (Ok success, [], fs)
       | st :: x' => (Ok st, x', fs)
       end;
     backend_retrieve_finish := fun j x fs =>
       let p := ["tmp"; default "None" j] in
       (Ok (Some p), x, {[p]} ∪ fs);
     backend_delete := fun k x fs =>
       if bool_decide (k ∈ locked)
       then (Err (OSError "delete refused"), x, fs)
       else (Ok tt, x, fs) |}.

Definition get_backend (refused : list string) (locked : list pyval)
    (kind : string) (config : gmap string string)
  : result (Backend state unit) :=
  Ok (backend refused locked).

Definition uuid4 (x : state) : string * state := ("0f8f", x).

(** Beside the box the mock has one file, [/etc/hostname]. *)
#[global] Instance elsewhere : Elsewhere state :=
  fun source _ => bool_decide (source = "/etc/hostname").

Definition write_error (dir source : string) (x : state)
  : option (exn * write_stage) := None.

(** Encryption writes [<name>.data] and [<name>.meta] next to each other. *)
Definition gpg : GPG state :=
  {| gpg_encrypt := fun src k x fs =>
       let d := ["tmp"; path_name src +:+ ".data"] in
       let m := ["tmp"; path_name src +:+ ".meta"] in
       (Ok (Some d, Some m), x, {[d]} ∪ ({[m]} ∪ fs));
     gpg_decrypt := fun d m dst x fs => (Ok tt, x, {[dst]} ∪ fs) |}.

Definition new_gpg (p : path) : GPG state := gpg.

Definition config : gmap string string :=
  {[ "backend" := "folder"; "key-id" := "ABCD1234" ]}.

Definition box : Box.t := {| Box.config := config; Box._gpg := Some gpg |}.

(** An initialised box with the given records. *)
Definition disk (keys : option (gmap string (pyval * pyval)))
    (jobs : gmap string (pyval * pyval)) (script : state)
  : world state unit :=
  World (Some config) keys jobs ∅ script [] 0 [].

Definition store (refused : list string) :=
  Box.store (get_backend refused []) uuid4 write_error.
Definition retrieve := Box.retrieve (get_backend [] []) write_error.
Definition delete := Box.delete (get_backend [] []).
Definition put :=
  Cli.put (get_backend [] []) uuid4 write_error new_gpg.
Definition get :=
  Cli.get (get_backend [] []) write_error new_gpg.

(** The worlds of the examples: an empty box; a box that holds [a.txt];
    the same with a retrieval of [a.txt] under way; a box that holds three
    sources. *)
Definition a_txt : pyval * pyval := (Some "key-1.data", Some "key-1.meta").

Definition empty_box : world state unit := disk None ∅ [].

Definition box_with_a (script : state) : world state unit :=
  disk (Some {[ "a.txt" := a_txt ]}) ∅ script.

Definition box_retrieving_a (script : state) : world state unit :=
  disk (Some {[ "a.txt" := a_txt ]})
       {[ "a.txt" := (Some "job-d", Some "job-m") ]} script.

Definition box_with_three : world state unit :=
  disk (Some {[ "Banana" := a_txt; "apple" := a_txt; "Cherry" := a_txt ]})
       ∅ [].

Definition valid_key_id (p : path) (k : string) : cap state bool :=
  fun x fs => (Ok (bool_decide (k = "ABCD1234")), x, fs).

Definition init_folder :=
  Cli.init_folder (get_backend [] []) write_error valid_key_id.

(** A box that has not been initialised. *)
Definition no_box : world state unit := World None None ∅ ∅ [] [] 0 [].

(** A box whose configuration has no backend, and one with no GnuPG
    instance. *)
Definition box_no_backend : Box.t :=
  {| Box.config := {[ "key-id" := "ABCD1234" ]}; Box._gpg := Some gpg |}.

Definition box_no_gpg : Box.t (X := state) :=
  {| Box.config := config; Box._gpg := None |}.

(** A backend that is out of reach when asked for a status, if
    [status_fails], and that cannot fetch the jobs in [lost]. *)
Definition faulty (status_fails : bool) (lost : list pyval)
  : Backend state unit :=
  {| backend_box_init := backend_box_init (backend [] []);
     backend_store := backend_store (backend [] []);
     backend_retrieve_init := backend_retrieve_init (backend [] []);
     backend_retrieve_status := fun d m x fs =>
       if status_fails then (Err (OSError "timed out"), x, fs)
       else backend_retrieve_status (backend [] []) d m x fs;
     backend_retrieve_finish := fun j x fs =>
       if bool_decide (j ∈ lost) then (Err (OSError "not found"), x, fs)
       else backend_retrieve_finish (backend [] []) j x fs;
     backend_delete := backend_delete (backend [] []) |}.

Definition get_faulty (status_fails : bool) (lost : list pyval)
    (kind : string) (config : gmap string string)
  : result (Backend state unit) :=
  Ok (faulty status_fails lost).

(** A file system that refuses every write. *)
Definition read_only (dir source : string) (x : state)
  : option (exn * write_stage) :=
  Some (OSError "Read-only file system", at_mkdir).

(** A disk that is full: files are made, and nothing can be written into
    them. *)
Definition disk_full (dir source : string) (x : state)
  : option (exn * write_stage) :=
  Some (OSError "No space left on device", at_dump).

End Mock.

(** * Properties *)

Section Claims.

Context {X Opt : Type} `{!Elsewhere X}.
Variable get_backend : string -> gmap string string -> result (Backend X Opt).
Variable uuid4 : X -> string * X.
Variable write_error : string -> string -> X -> option (exn * write_stage).

Abbreviation world := (world X Opt).

Local Open Scope list_scope.

Lemma new_calls_app (w w' : world) (evs : list (event Opt)) :
  calls w' = calls w ++ evs -> new_calls w w' = evs.
Proof.
  intros H. unfold new_calls. rewrite H. apply drop_app_length.
Qed.

(** *** The [finally] blocks *)

Lemma unlink_if_exists_run (p : option path) (w : world) :
  unlink_if_exists p w =
  (Ret tt,
   match p with
   | Some q => if bool_decide (q ∈ files w)
               then set_files (files w ∖ {[q]}) w else w
   | None => w
   end).
Proof.
  destruct p as [q|]; [|reflexivity].
  unfold unlink_if_exists, bind, path_exists, unlink.
  destruct (bool_decide (q ∈ files w)) eqn:E; simpl; [|reflexivity].
  rewrite E. reflexivity.
Qed.

Lemma unlink_if_exists_files (p : option path) (w : world) :
  files (snd (unlink_if_exists p w)) =
  match p with Some q => files w ∖ {[q]} | None => files w end.
Proof.
  rewrite unlink_if_exists_run. destruct p as [q|]; simpl; [|reflexivity].
  case_bool_decide; simpl; [reflexivity|]. set_solver.
Qed.

Lemma unlink_if_exists_frame (p : option path) (w : world) :
  let w' := snd (unlink_if_exists p w) in
  same_records w w' /\ calls w' = calls w /\ ext w' = ext w /\
  echoed w' = echoed w.
Proof.
  rewrite unlink_if_exists_run. unfold same_records.
  destruct p as [q|]; simpl; [|tauto].
  case_bool_decide; simpl; tauto.
Qed.

(** After the two statements of a [finally] block neither file is there. *)
Lemma cleanup_run (dp mp : option path) (w : world) :
  exists w',
    (unlink_if_exists dp;; unlink_if_exists mp) w = (Ret tt, w') /\
    (forall q, dp = Some q \/ mp = Some q -> q ∉ files w') /\
    same_records w w' /\ calls w' = calls w /\ echoed w' = echoed w.
Proof.
  unfold bind. rewrite (unlink_if_exists_run dp).
  set (w1 := match dp with Some _ => _ | None => _ end).
  rewrite (unlink_if_exists_run mp).
  eexists; split; [reflexivity|].
  assert (F1 : files w1 = match dp with Some q => files w ∖ {[q]}
                                   | None => files w end).
  { pose proof (unlink_if_exists_files dp w) as H.
    rewrite unlink_if_exists_run in H. exact H. }
  assert (R1 : same_records w w1 /\ calls w1 = calls w /\ ext w1 = ext w /\
               echoed w1 = echoed w).
  { pose proof (unlink_if_exists_frame dp w) as H.
    rewrite unlink_if_exists_run in H. exact H. }
  pose proof (unlink_if_exists_files mp w1) as F2.
  pose proof (unlink_if_exists_frame mp w1) as R2.
  rewrite unlink_if_exists_run in F2, R2. simpl in F2, R2.
  unfold same_records in *.
  destruct R1 as [(?&?&?) (?&?&?)], R2 as [(?&?&?) (?&?&?)].
  repeat split; try congruence.
  intros q [-> | ->]; rewrite F2.
  - destruct mp; rewrite F1; set_solver.
  - set_solver.
Qed.

Lemma try_finally_run {S A : Type} (body : M S A) (final : M S unit)
    (s s1 s2 : S) (o : outcome A) :
  body s = (o, s1) -> o <> Pending -> final s1 = (Ret tt, s2) ->
  try_finally body final s = (o, s2).
Proof.
  intros Hb Ho Hf. unfold try_finally. rewrite Hb.
  destruct o; try congruence; rewrite Hf; reflexivity.
Qed.

(** *** [Box.store] *)

Lemma store_body_paths (self : Box.t) (b : Backend X Opt) (source : string)
    (dp mp : option path) (dn mn : string) (w : world) :
  exists o w1,
    try_except
      (data_key <- invoke (CStore dp dn) (backend_store b dp dn);;
       meta_key <- invoke (CStore mp mn) (backend_store b mp mn);;
       Box._set_retrieval_keys write_error self source data_key meta_key)
      (fun e =>
         raise (Exception ("Storage operation failed. (" +:+ str e +:+ ")")))
      w = (o, w1) /\
    store_path write_error source dp mp dn mn w o w1.
Proof.
  unfold try_except, bind, invoke, raise, Box._set_retrieval_keys.
  destruct (backend_store b dp dn (ext w) (files w)) as [[[dk|e] x1] fs1];
    simpl.
  2:{ eexists _, _; split; [reflexivity|].
      apply store_data_raised; [reflexivity|]. repeat split. }
  destruct (backend_store b mp mn x1 fs1) as [[[mk|e] x2] fs2]; simpl.
  2:{ eexists _, _; split; [reflexivity|].
      apply store_meta_raised; [simpl; rewrite <- app_assoc; reflexivity|].
      repeat split. }
  destruct (write_error "retrieval-keys" source x2) as [[e stage]|] eqn:W;
    simpl.
  - eexists _, _; split; [reflexivity|].
    apply (store_write_raised _ _ _ _ _ _ _ e stage); simpl;
      [rewrite <- app_assoc; reflexivity|reflexivity|reflexivity|exact W|].
    destruct stage; reflexivity.
  - eexists _, _; split; [reflexivity|].
    eapply store_written; simpl; try reflexivity.
    rewrite <- app_assoc; reflexivity.
Qed.

Lemma store_path_not_pending source dp mp dn mn (w w1 : world) o :
  store_path write_error source dp mp dn mn w o w1 -> o <> Pending.
Proof. destruct 1; discriminate. Qed.

(** The whole [try] statement: one of the four ways, then the [finally]
    block, which leaves the records and the log alone and removes both
    files. *)
Lemma store_try_paths (self : Box.t) (b : Backend X Opt) (source : string)
    (dp mp : option path) (dn mn : string) (w : world) :
  exists o w1 w',
    Box.store_try write_error self b source dp mp dn mn w = (o, w') /\
    store_path write_error source dp mp dn mn w o w1 /\
    same_records w1 w' /\ calls w' = calls w1 /\
    (forall q, dp = Some q \/ mp = Some q -> q ∉ files w').
Proof.
  destruct (store_body_paths self b source dp mp dn mn w) as (o & w1 & Hb & Hp).
  destruct (cleanup_run dp mp w1) as (w' & Hf & Hfiles & Hrec & Hcalls & _).
  exists o, w1, w'. split; [|tauto].
  unfold Box.store_try.
  eapply try_finally_run; eauto using store_path_not_pending.
Qed.

(** When the lines before the [try] statement all return, [Box.store] is
    its [try] statement, run after the encryption. *)
Lemma store_run (self : Box.t) (src : path) (w : world) (g : GPG X)
    (k kind u : string) (dp mp : option path) (x1 x2 : X) (fs1 : gset path)
    (b : Backend X Opt) :
  Box._gpg self = Some g ->
  Box.config self !! "key-id" = Some k ->
  gpg_encrypt g src k (ext w) (files w) = (Ok (dp, mp), x1, fs1) ->
  uuid4 x1 = (u, x2) ->
  Box.config self !! "backend" = Some kind ->
  get_backend kind (Box.config self) = Ok b ->
  Box.store get_backend uuid4 write_error self src w =
  Box.store_try write_error self b (path_name src) dp mp
    (u +:+ Box.DATA_SUFFIX) (u +:+ Box.META_SUFFIX)
    (set_ext x2 (after_call x1 fs1 (CEncrypt src k, None) w)).
Proof.
  intros Hg Hk He Hu Hc Hb.
  unfold Box.store, bind, Box.gpg, Box.key, Box.backend, invoke,
    Box._encrypted_names.
  rewrite Hg, Hk. simpl. rewrite He. simpl. rewrite Hu. simpl.
  rewrite Hc, Hb. reflexivity.
Qed.

(** Every way out of [Box.store]: the lines before the [try] statement
    raise, having called nothing but the encryption and written no record,
    or the [try] statement runs. *)
Lemma store_paths (self : Box.t) (src : path) (w : world) :
  let r := Box.store get_backend uuid4 write_error self src w in
  (exists e, fst r = Raise e /\ same_records w (snd r) /\
     (new_calls w (snd r) = [] \/
      exists k o, new_calls w (snd r) = [(CEncrypt src k, o)])) \/
  (exists g k dp mp x1 fs1 w0 w1,
     Box._gpg self = Some g /\
     Box.config self !! "key-id" = Some k /\
     gpg_encrypt g src k (ext w) (files w) = (Ok (dp, mp), x1, fs1) /\
     calls w0 = calls w ++ [(CEncrypt src k, None)] /\
     same_records w w0 /\
     store_path write_error (path_name src) dp mp
       (fst (uuid4 x1) +:+ Box.DATA_SUFFIX)
       (fst (uuid4 x1) +:+ Box.META_SUFFIX) w0 (fst r) w1 /\
     same_records w1 (snd r) /\ calls (snd r) = calls w1).
Proof.
  destruct (Box._gpg self) as [g|] eqn:Hg.
  2:{ left. unfold Box.store, bind, Box.gpg. rewrite Hg. simpl.
      eexists; split; [reflexivity|]. split; [repeat split|].
      left. apply new_calls_app. rewrite app_nil_r. reflexivity. }
  destruct (Box.config self !! "key-id") as [k|] eqn:Hk.
  2:{ left. unfold Box.store, bind, Box.gpg, Box.key. rewrite Hg, Hk. simpl.
      eexists; split; [reflexivity|]. split; [repeat split|].
      left. apply new_calls_app. rewrite app_nil_r. reflexivity. }
  destruct (gpg_encrypt g src k (ext w) (files w)) as [[[[dp mp]|e] x1] fs1]
    eqn:He.
  2:{ left. unfold Box.store, bind, Box.gpg, Box.key, invoke.
      rewrite Hg, Hk. simpl. rewrite He. simpl.
      eexists; split; [reflexivity|]. split; [repeat split|].
      right. eexists _, _. apply new_calls_app. reflexivity. }
  destruct (uuid4 x1) as [u x2] eqn:Hu.
  assert (Hpre : forall e,
    Box.backend get_backend self
      (set_ext x2 (after_call x1 fs1 (CEncrypt src k, None) w)) =
      (Raise e, set_ext x2 (after_call x1 fs1 (CEncrypt src k, None) w)) ->
    let r := Box.store get_backend uuid4 write_error self src w in
    fst r = Raise e /\ same_records w (snd r) /\
    (new_calls w (snd r) = [] \/
     exists k o, new_calls w (snd r) = [(CEncrypt src k, o)])).
  { intros e Hbk. unfold Box.store, bind, Box.gpg, Box.key, invoke,
      Box._encrypted_names.
    rewrite Hg, Hk. simpl. rewrite He. simpl. rewrite Hu. simpl.
    rewrite Hbk. simpl. split; [reflexivity|]. split; [repeat split|].
    right. eexists _, _. apply new_calls_app. reflexivity. }
  destruct (Box.config self !! "backend") as [kind|] eqn:Hc.
  2:{ left. eexists. apply Hpre. unfold Box.backend. rewrite Hc. reflexivity. }
  destruct (get_backend kind (Box.config self)) as [b|e] eqn:Hb.
  2:{ left. eexists. apply Hpre. unfold Box.backend. rewrite Hc, Hb.
      reflexivity. }
  right. cbv zeta.
  rewrite (store_run self src w g k kind u dp mp x1 x2 fs1 b) by assumption.
  destruct (store_try_paths self b (path_name src) dp mp
              (u +:+ Box.DATA_SUFFIX) (u +:+ Box.META_SUFFIX)
              (set_ext x2 (after_call x1 fs1 (CEncrypt src k, None) w)))
    as (o & w1 & w' & Hrun & Hpath & Hrec & Hcalls & _).
  rewrite Hrun. simpl.
  exists g, k, dp, mp, x1, fs1.
  exists (set_ext x2 (after_call x1 fs1 (CEncrypt src k, None) w)), w1.
  split; [first [reflexivity|exact Hg]|].
  split; [first [reflexivity|exact Hk]|].
  split; [first [reflexivity|exact He]|].
  split; [reflexivity|]. split; [repeat split|].
  rewrite Hu. simpl.
  split; [exact Hpath|]. split; [exact Hrec|exact Hcalls].
Qed.

Lemma backend_returns (self : Box.t) (b : Backend X Opt) (w w' : world) :
  Box.backend get_backend self w = (Ret b, w') ->
  exists kind, Box.config self !! "backend" = Some kind /\
               get_backend kind (Box.config self) = Ok b.
Proof.
  unfold Box.backend.
  destruct (Box.config self !! "backend") as [kind|]; [|discriminate].
  destruct (get_backend kind (Box.config self)) as [b'|e] eqn:Hb;
    [|discriminate].
  intros [= <- _]. eauto.
Qed.

(** What a failed write of a record leaves of the other records. *)
Lemma keys_left_other (stage : write_stage) (source other : string)
    (w : world) :
  other <> source ->
  default ∅ (keys_left stage source w) !! other = key_files w !! other.
Proof.
  intros Hne. destruct stage; simpl; try reflexivity.
  apply lookup_insert_ne. congruence.
Qed.

(** C4. No partial source. Whatever the box, the source and the world:
    when [Box.store] has changed the Retrieval Key Store in any way (a
    record written, or left behind by a write that failed), what it
    called before is the encryption of the source, then the backend store
    of the data artifact of that encryption under the data name, then
    that of its metadata artifact under the meta name, the two names
    being those of one draw of [uuid4], and all three calls have
    returned; and when a backend store call has raised [e], [Box.store]
    raises [Exception('Storage operation failed. (e)')] and the Retrieval
    Key Store is as it was. *)
Theorem store_no_partial_source (self : Box.t) (src : path) (w : world) :
  let r := Box.store get_backend uuid4 write_error self src w in
  (keys_dir (snd r) <> keys_dir w ->
   exists g k dp mp x1 fs1,
     Box._gpg self = Some g /\
     Box.config self !! "key-id" = Some k /\
     gpg_encrypt g src k (ext w) (files w) = (Ok (dp, mp), x1, fs1) /\
     new_calls w (snd r) =
     [(CEncrypt src k, None);
      (CStore dp (fst (uuid4 x1) +:+ Box.DATA_SUFFIX), None);
      (CStore mp (fst (uuid4 x1) +:+ Box.META_SUFFIX), None)]) /\
  (forall p n e,
     (CStore p n, Some e) ∈ new_calls w (snd r) ->
     fst r =
     Raise (Exception ("Storage operation failed. (" +:+ str e +:+ ")")) /\
     keys_dir (snd r) = keys_dir w).
Proof.
  pose proof (store_paths self src w) as HP. cbv zeta in HP |- *.
  set (r := Box.store get_backend uuid4 write_error self src w) in *.
  destruct HP as
    [(e & Ho & (_ & Hk & _) & Hc)
    |(g & k & dp & mp & x1 & fs1 & w0 & w1 & Hg & Hkey & He & Hc0
        & (_ & Hk0 & _) & Hp & (_ & Hk1 & _) & Hc1)].
  - split; [congruence|].
    intros p n e' Hin. exfalso.
    destruct Hc as [Hc|(k & o & Hc)]; rewrite Hc in Hin;
      [set_solver|].
    apply list_elem_of_singleton in Hin. discriminate.
  - assert (Hnew : forall evs, calls w1 = calls w0 ++ evs ->
                     new_calls w (snd r) = (CEncrypt src k, None) :: evs).
    { intros evs H. apply new_calls_app. rewrite Hc1, H, Hc0.
      rewrite <- app_assoc. reflexivity. }
    assert (Hboth :
      calls w1 =
        calls w0 ++ [(CStore dp (fst (uuid4 x1) +:+ Box.DATA_SUFFIX), None);
                     (CStore mp (fst (uuid4 x1) +:+ Box.META_SUFFIX), None)] ->
      (exists g k dp mp x1 fs1,
         Box._gpg self = Some g /\
         Box.config self !! "key-id" = Some k /\
         gpg_encrypt g src k (ext w) (files w) = (Ok (dp, mp), x1, fs1) /\
         new_calls w (snd r) =
         [(CEncrypt src k, None);
          (CStore dp (fst (uuid4 x1) +:+ Box.DATA_SUFFIX), None);
          (CStore mp (fst (uuid4 x1) +:+ Box.META_SUFFIX), None)]) /\
      (forall p n e, (CStore p n, Some e) ∈ new_calls w (snd r) -> False)).
    { intros Hc. split.
      - exists g, k, dp, mp, x1, fs1.
        split; [exact Hg|]. split; [exact Hkey|]. split; [exact He|].
        apply Hnew, Hc.
      - intros p n e' Hin. rewrite (Hnew _ Hc) in Hin.
        rewrite !elem_of_cons in Hin.
        destruct Hin as [Hin|[Hin|[Hin|Hin]]];
          [discriminate|discriminate|discriminate|set_solver]. }
    inversion Hp as [e w1' Hc Hs Ho|e w1' Hc Hs Ho
                    |e stage w1' Hc Hcf Hj Hw Hk Ho
                    |dk mk w1' Hc Hcf Hj Hk Ho];
      try destruct Hs as (_ & Hks & _).
    + split; [congruence|].
      intros p n e' Hin. rewrite (Hnew _ Hc) in Hin.
      split; [|congruence].
      rewrite !elem_of_cons in Hin.
      destruct Hin as [Hin|[Hin|Hin]]; [discriminate| |set_solver].
      injection Hin as -> -> ->. reflexivity.
    + split; [congruence|].
      intros p n e' Hin. rewrite (Hnew _ Hc) in Hin.
      split; [|congruence].
      rewrite !elem_of_cons in Hin.
      destruct Hin as [Hin|[Hin|[Hin|Hin]]];
        [discriminate|discriminate| |set_solver].
      injection Hin as -> -> ->. reflexivity.
    + destruct (Hboth Hc) as [H1 H2].
      split; [intros _; exact H1|].
      intros p n e' Hin. destruct (H2 p n e' Hin).
    + destruct (Hboth Hc) as [H1 H2].
      split; [intros _; exact H1|].
      intros p n e' Hin. destruct (H2 p n e' Hin).
Qed.

(** C7, what the code does. [Box.store] removes the two artifacts in the
    [finally] block of its [try] statement, and line 82, which makes the
    backend, stands between the encryption and that statement. So when
    the encryption has returned the artifacts [dp] and [mp]: if a backend
    is made, then however the [try] statement ends (the record written, a
    backend call raising, the writing of the record raising), neither
    artifact exists when [Box.store] is left; if making the backend
    raises [e], [Box.store] raises [e] and the local files are those the
    encryption left, the two artifacts among them. *)
Theorem store_cleanup_needs_backend (self : Box.t) (src : path)
    (w : world) (g : GPG X) (k : string) (dp mp : option path) (x1 : X)
    (fs1 : gset path) :
  Box._gpg self = Some g ->
  Box.config self !! "key-id" = Some k ->
  gpg_encrypt g src k (ext w) (files w) = (Ok (dp, mp), x1, fs1) ->
  let r := Box.store get_backend uuid4 write_error self src w in
  (forall b, Box.backend get_backend self w = (Ret b, w) ->
     forall q, dp = Some q \/ mp = Some q -> q ∉ files (snd r)) /\
  (forall e, Box.backend get_backend self w = (Raise e, w) ->
     fst r = Raise e /\ files (snd r) = fs1).
Proof.
  intros Hg Hk He. cbv zeta. split.
  - intros b Hb q Hq.
    apply backend_returns in Hb as (kind & Hc & Hb).
    destruct (uuid4 x1) as [u x2] eqn:Hu.
    rewrite (store_run self src w g k kind u dp mp x1 x2 fs1 b)
      by assumption.
    destruct (store_try_paths self b (path_name src) dp mp
                (u +:+ Box.DATA_SUFFIX) (u +:+ Box.META_SUFFIX)
                (set_ext x2 (after_call x1 fs1 (CEncrypt src k, None) w)))
      as (o & w1 & w' & Hrun & _ & _ & _ & Hfiles).
    rewrite Hrun. simpl. apply Hfiles, Hq.
  - intros e Hb.
    assert (Hb' : forall w', Box.backend get_backend self w' = (Raise e, w')).
    { intros w'. unfold Box.backend in *.
      destruct (Box.config self !! "backend") as [kind|].
      - destruct (get_backend kind (Box.config self)) as [b|e'];
          [discriminate|]. injection Hb as <-. reflexivity.
      - injection Hb as <-. reflexivity. }
    unfold Box.store, bind, Box.gpg, Box.key, invoke, Box._encrypted_names.
    rewrite Hg, Hk. simpl. rewrite He. simpl.
    destruct (uuid4 x1) as [u x2]. simpl. rewrite Hb'. simpl.
    split; reflexivity.
Qed.

(** *** [Box.delete] *)

Lemma clear_keys_cleared (self : Box.t) (source : string) (dk mk : pyval)
    (w : world) (x1 x2 : X) (fs1 fs2 : gset path) :
  let r :=
    try_except
      (Box._clear_retrieval_keys self source)
      (fun e =>
         raise (Exception ("Delete operation failed. (" +:+ str e +:+ ")")))
      (after_call x2 fs2 (CDelete mk, None)
         (after_call x1 fs1 (CDelete dk, None) w)) in
  delete_path source dk mk w (fst r) (snd r).
Proof.
  cbv zeta. unfold try_except, Box._clear_retrieval_keys. simpl.
  destruct (keys_dir w) as [d|] eqn:Hd; simpl.
  - case_bool_decide as E; simpl.
    + apply delete_cleared; simpl; try reflexivity.
      * rewrite <- app_assoc; reflexivity.
      * rewrite Hd. reflexivity.
    + apply delete_cleared; simpl; try reflexivity.
      * rewrite <- app_assoc; reflexivity.
      * rewrite Hd. simpl. apply eq_None_not_Some in E.
        rewrite delete_id by exact E. reflexivity.
  - apply delete_cleared; simpl; try reflexivity.
    + rewrite <- app_assoc; reflexivity.
    + rewrite Hd. reflexivity.
Qed.

Lemma delete_paths (self : Box.t) (source : string) (w : world)
    (b : Backend X Opt) :
  Box.backend get_backend self w = (Ret b, w) ->
  let r := Box.delete get_backend self source w in
  let keys := default ((None, None) : pyval * pyval) (key_files w !! source) in
  delete_path source (fst keys) (snd keys) w (fst r) (snd r).
Proof.
  intros Hb. cbv zeta.
  unfold Box.delete, bind. rewrite Hb.
  unfold try_except, bind, Box._get_retrieval_keys, invoke, raise,
    Box._clear_retrieval_keys.
  destruct (key_files w !! source) as [[dk mk]|] eqn:Hk; simpl.
  - destruct (backend_delete b dk (ext w) (files w)) as [[[[]|e] x1] fs1];
      simpl.
    2:{ apply delete_data_raised; [reflexivity|repeat split]. }
    destruct (backend_delete b mk x1 fs1) as [[[[]|e] x2] fs2]; simpl.
    2:{ apply delete_meta_raised;
          [simpl; rewrite <- app_assoc; reflexivity|repeat split]. }
    exact (clear_keys_cleared self source _ _ w x1 x2 fs1 fs2).
  - destruct (backend_delete b None (ext w) (files w)) as [[[[]|e] x1] fs1];
      simpl.
    2:{ apply delete_data_raised; [reflexivity|repeat split]. }
    destruct (backend_delete b None x1 fs1) as [[[[]|e] x2] fs2]; simpl.
    2:{ apply delete_meta_raised;
          [simpl; rewrite <- app_assoc; reflexivity|repeat split]. }
    exact (clear_keys_cleared self source _ _ w x1 x2 fs1 fs2).
Qed.

Lemma delete_no_backend (self : Box.t) (source : string) (w : world) :
  (forall b, Box.backend get_backend self w <> (Ret b, w)) ->
  exists e, Box.delete get_backend self source w = (Raise e, w).
Proof.
  intros Hb. unfold Box.delete, bind.
  unfold Box.backend in *.
  destruct (Box.config self !! "backend") as [kind|]; [|eauto].
  destruct (get_backend kind (Box.config self)) as [b|e]; [|eauto].
  exfalso. apply (Hb b). reflexivity.
Qed.

Lemma backend_decide (self : Box.t) (w : world) :
  (exists b, Box.backend get_backend self w = (Ret b, w)) \/
  (forall b, Box.backend get_backend self w <> (Ret b, w)).
Proof.
  unfold Box.backend.
  destruct (Box.config self !! "backend") as [kind|];
    [|right; intros b; discriminate].
  destruct (get_backend kind (Box.config self)) as [b|e];
    [left; eauto|right; intros b; discriminate].
Qed.

(** C8. Delete atomicity. Whatever the box, the source and the world: when
    [Box.delete] has changed the Retrieval Key Store it has returned, the
    source had a record, and what it called is the backend delete of the
    data key, then that of the meta key, both having returned; when a
    backend delete has raised [e] (the first, or the second after the data
    was deleted), [Box.delete] raises [Exception('Delete operation failed.
    (e)')] and the Retrieval Key Store is as it was; and when it returns,
    the source has no record. *)
Theorem delete_atomic (self : Box.t) (source : string) (w : world) :
  let r := Box.delete get_backend self source w in
  (keys_dir (snd r) <> keys_dir w ->
   fst r = Ret tt /\
   exists dk mk,
     key_files w !! source = Some (dk, mk) /\
     new_calls w (snd r) = [(CDelete dk, None); (CDelete mk, None)]) /\
  (forall k e,
     (CDelete k, Some e) ∈ new_calls w (snd r) ->
     fst r =
     Raise (Exception ("Delete operation failed. (" +:+ str e +:+ ")")) /\
     keys_dir (snd r) = keys_dir w) /\
  (fst r = Ret tt -> key_files (snd r) !! source = None).
Proof.
  cbv zeta.
  destruct (backend_decide self w) as [[b Hb]|Hb].
  2:{ destruct (delete_no_backend self source w Hb) as [e ->]. simpl.
      split; [congruence|]. split; [|discriminate].
      intros k e' Hin. exfalso. unfold new_calls in Hin.
      rewrite drop_all in Hin. set_solver. }
  pose proof (delete_paths self source w b Hb) as HP. cbv zeta in HP.
  set (r := Box.delete get_backend self source w) in *.
  set (keys := default _ (key_files w !! source)) in *.
  inversion HP as [e w1 Hc Hs Ho|e w1 Hc Hs Ho|w1 Hc Hcf Hj Hk Ho];
    try destruct Hs as (_ & Hks & _).
  - split; [congruence|]. split; [|discriminate].
    intros k e' Hin. rewrite (new_calls_app _ _ _ Hc) in Hin.
    split; [|congruence].
    apply list_elem_of_singleton in Hin. injection Hin as -> ->. reflexivity.
  - split; [congruence|]. split; [|discriminate].
    intros k e' Hin. rewrite (new_calls_app _ _ _ Hc) in Hin.
    split; [|congruence].
    rewrite !elem_of_cons in Hin.
    destruct Hin as [Hin|[Hin|Hin]]; [discriminate| |set_solver].
    injection Hin as -> ->. reflexivity.
  - split; [|split].
    + intros Hne. split; [reflexivity|].
      destruct (key_files w !! source) as [[dk mk]|] eqn:Hkf.
      * exists dk, mk. split; [reflexivity|].
        apply new_calls_app. exact Hc.
      * exfalso. apply Hne. rewrite Hk. unfold key_files in Hkf.
        destruct (keys_dir w) as [d|]; simpl in *; [|reflexivity].
        rewrite delete_id by exact Hkf. reflexivity.
    + intros k e' Hin. rewrite (new_calls_app _ _ _ Hc) in Hin. exfalso.
      rewrite !elem_of_cons in Hin.
      destruct Hin as [Hin|[Hin|Hin]]; [discriminate|discriminate|set_solver].
    + intros _. unfold key_files. rewrite Hk.
      destruct (keys_dir w) as [d|]; simpl;
        [apply lookup_delete_eq|apply lookup_empty].
Qed.

(** *** The commands *)

Lemma local_cleanup_run (dp mp : option path) (w : world) :
  exists w',
    (unlink_local "data_path" Box.data_path;;
     unlink_local "meta_path" Box.meta_path)
      (Box.Frame (Bound dp) (Bound mp), w) =
    (Ret tt, (Box.Frame (Bound dp) (Bound mp), w')) /\
    (forall q, dp = Some q \/ mp = Some q -> q ∉ files w') /\
    same_records w w' /\ calls w' = calls w /\ echoed w' = echoed w.
Proof.
  destruct (cleanup_run dp mp w) as (w' & Hrun & Hrest).
  exists w'. split; [|exact Hrest].
  unfold bind in *. unfold unlink_local at 1. simpl. unfold lift at 1. simpl.
  rewrite unlink_if_exists_run in *. simpl.
  unfold unlink_local. simpl. unfold lift. simpl.
  rewrite unlink_if_exists_run in *. simpl.
  injection Hrun as <-. reflexivity.
Qed.

(** [key_file.exists()] by cases of the string. *)
Lemma key_file_exists_record (source : string) (w : world) :
  is_Some (key_files w !! source) -> Box.key_file_exists source w = true.
Proof.
  intros H. unfold Box.key_file_exists.
  rewrite (bool_decide_eq_true_2 _ H). reflexivity.
Qed.

Lemma key_file_exists_plain (source : string) (w : world) :
  plain source = true ->
  Box.key_file_exists source w = bool_decide (is_Some (key_files w !! source)).
Proof.
  intros H. unfold Box.key_file_exists. rewrite H. apply orb_false_r.
Qed.

Lemma key_file_exists_dots (source : string) (w : world) :
  dots source = true ->
  Box.key_file_exists source w = bool_decide (is_Some (keys_dir w)).
Proof.
  intros H. unfold Box.key_file_exists, plain. rewrite H.
  rewrite andb_false_r. simpl.
  unfold key_files. destruct (keys_dir w) as [d|]; simpl.
  - destruct (bool_decide (is_Some (d !! source))); reflexivity.
  - rewrite lookup_empty. reflexivity.
Qed.

Lemma key_file_exists_single (source : string) (w : world) :
  has_sep source = false ->
  String.length source <= NAME_MAX ->
  Box.key_file_exists source w =
  if dots source then bool_decide (is_Some (keys_dir w))
  else bool_decide (is_Some (key_files w !! source)).
Proof.
  intros Hs Hl. destruct (dots source) eqn:Hd.
  - apply key_file_exists_dots, Hd.
  - apply key_file_exists_plain. unfold plain. rewrite Hs, Hd. simpl.
    apply Nat.leb_le, Hl.
Qed.

Section CommandClaims.

Variable new_gpg : path -> GPG X.

(** [put] for a name the box already has: the command stops at line 100. *)
Lemma put_existing_run (base_path : path) (box_name : string) (source : path)
    (w : world) :
  is_Some (config_file w) ->
  is_Some (key_files w !! path_name source) ->
  Cli.put get_backend uuid4 write_error new_gpg base_path box_name source w =
  (Raise (Exit 1),
   World (config_file w) (keys_dir w) (jobs_dir w) (files w) (ext w) (calls w)
         (slept w) (echoed w ++ ["Source name already exists in box."])).
Proof.
  intros Hc Hk.
  unfold Cli.put, bind, Box.get_box, Box.exists_, Box.contains, echo,
    Cli.ctx_exit, raise, ret.
  rewrite (bool_decide_eq_true_2 _ Hc), (key_file_exists_record _ _ Hk).
  reflexivity.
Qed.

(** [get] for a string at which there is nothing: the command stops at
    line 136. *)
Lemma get_absent_run (rounds : nat) (base_path : path) (box_name : string)
    (source : string) (destination : path) (w : world) :
  is_Some (config_file w) ->
  Box.key_file_exists source w = false ->
  Cli.get get_backend write_error new_gpg rounds base_path box_name source
    destination w =
  (Raise (Exit 1),
   World (config_file w) (keys_dir w) (jobs_dir w) (files w) (ext w) (calls w)
         (slept w) (echoed w ++ ["Source name not found in box."])).
Proof.
  intros Hc Hk.
  unfold Cli.get, bind, Box.get_box, Box.exists_, Box.contains, echo,
    Cli.ctx_exit, raise, ret.
  rewrite (bool_decide_eq_true_2 _ Hc), Hk.
  reflexivity.
Qed.

(** The [try] statement of [put]: the call of [box.store] with three
    arguments raises, the handler prints and leaves. *)
Lemma put_try_run (box : Box.t) (gpg : GPG X) (src : path) (name : string)
    (w : world) (k : string) (dp mp : option path) (x1 : X)
    (fs1 : gset path) :
  Box.config box !! "key-id" = Some k ->
  gpg_encrypt gpg src k (ext w) (files w) = (Ok (dp, mp), x1, fs1) ->
  exists w',
    Cli.put_try get_backend uuid4 write_error box gpg src name w =
      (Raise (Exit 1), w') /\
    echoed w' =
      echoed w ++ ["store() takes 2 positional arguments but 4 were given"] /\
    calls w' = calls w ++ [(CEncrypt src k, None)] /\
    same_records w w' /\
    (forall q, dp = Some q \/ mp = Some q -> q ∉ files w').
Proof.
  intros Hkey He.
  set (w1 := after_call x1 fs1 (CEncrypt src k, None) w).
  set (w2 := World (config_file w1) (keys_dir w1) (jobs_dir w1) (files w1)
                   (ext w1) (calls w1) (slept w1)
                   (echoed w1 ++
                    ["store() takes 2 positional arguments but 4 were given"])).
  destruct (local_cleanup_run dp mp w2)
    as (w' & Hfin & Hfiles & Hrec & Hcalls & Hecho).
  exists w'. split.
  - unfold Cli.put_try.
    rewrite (try_finally_run _ _ _ (Box.Frame (Bound dp) (Bound mp), w2)
               (Box.Frame (Bound dp) (Bound mp), w') (Raise (Exit 1)));
      [reflexivity| |discriminate|exact Hfin].
    unfold try_except, bind, lift, Box.key, Box.set_data_path,
      Box.set_meta_path, invoke, echo, Cli.ctx_exit, raise. simpl.
    rewrite Hkey. simpl. rewrite He. simpl.
    destruct (Box.value_of_path dp); reflexivity.
  - rewrite Hecho, Hcalls. destruct Hrec as (? & ? & ?).
    repeat split; assumption.
Qed.

(** [put] for a new name, up to the call of [box.store] with three
    arguments. *)
Lemma put_store_run (base_path : path) (box_name : string) (source : path)
    (w : world) (cfg : gmap string string) (k : string)
    (dp mp : option path) (x1 : X) (fs1 : gset path) :
  config_file w = Some cfg ->
  Box.key_file_exists (path_name source) w = false ->
  cfg !! "key-id" = Some k ->
  gpg_encrypt (new_gpg (base_path ++ ["GPG"])) source k (ext w) (files w) =
    (Ok (dp, mp), x1, fs1) ->
  exists w',
    Cli.put get_backend uuid4 write_error new_gpg base_path box_name source w =
      (Raise (Exit 1), w') /\
    echoed w' =
      echoed w ++ ["store() takes 2 positional arguments but 4 were given"] /\
    calls w' = calls w ++ [(CEncrypt source k, None)] /\
    same_records w w'.
Proof.
  intros Hc Hk Hkey He.
  destruct (put_try_run
              {| Box.config := default ∅ (config_file w); Box._gpg := None |}
              (new_gpg (base_path ++ ["GPG"])) source (path_name source) w k
              dp mp x1 fs1) as (w' & Hrun & Hecho & Hcalls & Hrec & _).
  { simpl. rewrite Hc. exact Hkey. }
  { exact He. }
  exists w'. split; [|tauto].
  unfold Cli.put, bind, Box.get_box, Box.exists_, Box.contains, ret.
  rewrite bool_decide_eq_true_2 by (rewrite Hc; eauto).
  rewrite Hk.
  exact Hrun.
Qed.

(** [get] for a name the box has, up to the call of [box.retrieve] with
    one argument. *)
Lemma get_retrieve_run (rounds : nat) (base_path : path) (box_name : string)
    (source : string) (destination : path) (w : world) :
  is_Some (config_file w) ->
  is_Some (key_files w !! source) ->
  Cli.get get_backend write_error new_gpg rounds base_path box_name source
    destination w =
  (Raise (Exit 1),
   World (config_file w) (keys_dir w) (jobs_dir w) (files w) (ext w) (calls w)
         (slept w)
         (echoed w ++
          ["retrieve() missing 2 required positional arguments: 'dst_path' and 'backend_options'"])).
Proof.
  intros Hc Hk.
  unfold Cli.get, bind at 1 2 3 4 5, Box.get_box, Box.exists_, Box.contains,
    ret.
  rewrite (bool_decide_eq_true_2 _ Hc), (key_file_exists_record _ _ Hk).
  reflexivity.
Qed.

(** C3. The argument mismatch of the commands. [box.store] called with
    three arguments and [box.retrieve] called with one raise [TypeError]
    without running the method. So in a world where the box exists: a
    [put] that reaches its call of [box.store] (line 98 finds nothing at
    the name in [retrieval-keys], there is a key id, the encryption
    returns) prints the message of that [TypeError] and exits with status
    1, having called the encryption and no backend; a [get] that reaches
    its call of [box.retrieve] (the name is stored) prints the message of
    its [TypeError] and exits with status 1, having called nothing.
    Neither changes a record. *)
Theorem cli_put_get_argument_mismatch (rounds : nat) (base_path : path)
    (box_name : string) (w : world) (cfg : gmap string string) :
  config_file w = Some cfg ->
  (forall (box : Box.t) (a b c : Box.value) (w1 : world),
     Box.call_store get_backend uuid4 write_error box [a; b; c] w1 =
     (Raise (TypeError "store() takes 2 positional arguments but 4 were given"),
      w1)) /\
  (forall (box : Box.t) (a : Box.value) (w1 : world),
     Box.call_retrieve get_backend write_error rounds box [a] w1 =
     (Raise (TypeError "retrieve() missing 2 required positional arguments: 'dst_path' and 'backend_options'"),
      w1)) /\
  (forall (source : path) (k : string) (dp mp : option path) (x1 : X)
          (fs1 : gset path),
     Box.key_file_exists (path_name source) w = false ->
     cfg !! "key-id" = Some k ->
     gpg_encrypt (new_gpg (base_path ++ ["GPG"])) source k (ext w) (files w) =
       (Ok (dp, mp), x1, fs1) ->
     let r := Cli.put get_backend uuid4 write_error new_gpg base_path box_name
                source w in
     fst r = Raise (Exit 1) /\
     echoed (snd r) =
       echoed w ++ ["store() takes 2 positional arguments but 4 were given"] /\
     new_calls w (snd r) = [(CEncrypt source k, None)] /\
     same_records w (snd r)) /\
  (forall (source : string) (destination : path),
     is_Some (key_files w !! source) ->
     let r := Cli.get get_backend write_error new_gpg rounds base_path box_name
                source destination w in
     fst r = Raise (Exit 1) /\
     echoed (snd r) =
       echoed w ++
       ["retrieve() missing 2 required positional arguments: 'dst_path' and 'backend_options'"] /\
     new_calls w (snd r) = [] /\
     same_records w (snd r)).
Proof.
  intros Hc. split; [|split; [|split]].
  - intros box a b c w1. simpl. destruct a; reflexivity.
  - intros box a w1. simpl. destruct a; reflexivity.
  - intros source k dp mp x1 fs1 Hk Hkey He. cbv zeta.
    destruct (put_store_run base_path box_name source w cfg k dp mp x1 fs1
                Hc Hk Hkey He) as (w' & -> & Hecho & Hcalls & Hrec).
    simpl. split; [reflexivity|]. split; [exact Hecho|].
    split; [apply new_calls_app, Hcalls|exact Hrec].
  - intros source destination Hk. cbv zeta.
    rewrite get_retrieve_run by (rewrite ?Hc; eauto). simpl.
    split; [reflexivity|]. split; [reflexivity|].
    split; [|repeat split].
    apply new_calls_app. simpl. rewrite app_nil_r. reflexivity.
Qed.

(** C5, as the code has it. The guard against a name that is already
    stored is in the command: in a world where the box exists, [put] for a
    source whose name has a Retrieval Key Record prints 'Source name
    already exists in box.' and exits with status 1, and nothing else has
    changed: no record, no file, no call of the encryption, of
    [Box.store] or of a backend. *)
Theorem put_existing_name_refused (base_path : path) (box_name : string)
    (source : path) (w : world) :
  is_Some (config_file w) ->
  is_Some (key_files w !! path_name source) ->
  let r := Cli.put get_backend uuid4 write_error new_gpg base_path box_name
             source w in
  fst r = Raise (Exit 1) /\
  echoed (snd r) = echoed w ++ ["Source name already exists in box."] /\
  keys_dir (snd r) = keys_dir w /\
  jobs_dir (snd r) = jobs_dir w /\
  files (snd r) = files w /\
  ext (snd r) = ext w /\
  calls (snd r) = calls w.
Proof.
  intros Hc Hk. cbv zeta. rewrite put_existing_run by assumption.
  simpl. repeat split.
Qed.

(** C6, as the code has it. The guard against a name that is not stored
    is in the command: in a world where the box exists, [get] for a source
    that is the name of a file (one component, not ['.'] or ['..']) and
    has no Retrieval Key Record prints 'Source name not found in box.' and
    exits with status 1, and nothing else has changed: no call of
    [Box.retrieve] or of a backend, so no retrieval job. *)
Theorem get_absent_name_refused (rounds : nat) (base_path : path)
    (box_name : string) (source : string) (destination : path) (w : world) :
  is_Some (config_file w) ->
  plain source = true ->
  key_files w !! source = None ->
  let r := Cli.get get_backend write_error new_gpg rounds base_path box_name
             source destination w in
  fst r = Raise (Exit 1) /\
  echoed (snd r) = echoed w ++ ["Source name not found in box."] /\
  keys_dir (snd r) = keys_dir w /\
  jobs_dir (snd r) = jobs_dir w /\
  files (snd r) = files w /\
  ext (snd r) = ext w /\
  calls (snd r) = calls w.
Proof.
  intros Hc Hp Hk. cbv zeta. rewrite get_absent_run; [|exact Hc|].
  - simpl. repeat split.
  - rewrite (key_file_exists_plain _ _ Hp).
    apply bool_decide_eq_false_2. rewrite Hk. apply is_Some_None.
Qed.

End CommandClaims.


(** *** [Box.sources] *)

Lemma string_compare_lt_trans (s1 s2 s3 : string) :
  String.compare s1 s2 = Lt -> String.compare s2 s3 = Lt ->
  String.compare s1 s3 = Lt.
Proof.
  revert s2 s3.
  induction s1 as [|c1 s1 IH]; intros [|c2 s2] [|c3 s3]; simpl;
    try congruence.
  destruct (Ascii.compare c1 c2) eqn:E12; try discriminate;
    destruct (Ascii.compare c2 c3) eqn:E23; try discriminate; intros H1 H2.
  - apply Ascii.compare_eq_iff in E12 as ->. rewrite E23. eauto.
  - apply Ascii.compare_eq_iff in E12 as ->. rewrite E23. reflexivity.
  - apply Ascii.compare_eq_iff in E23 as <-. rewrite E12. reflexivity.
  - unfold Ascii.compare in *.
    rewrite N.compare_lt_iff in E12, E23.
    assert (E13 : (N_of_ascii c1 ?= N_of_ascii c3)%N = Lt)
      by (apply N.compare_lt_iff; lia).
    rewrite E13. reflexivity.
Qed.

Lemma string_leb_trans (s1 s2 s3 : string) :
  String.leb s1 s2 = true -> String.leb s2 s3 = true ->
  String.leb s1 s3 = true.
Proof.
  unfold String.leb.
  destruct (String.compare s1 s2) eqn:E12; try discriminate;
    destruct (String.compare s2 s3) eqn:E23; try discriminate; intros _ _.
  - apply String.compare_eq_iff in E12 as ->. rewrite E23. reflexivity.
  - apply String.compare_eq_iff in E12 as ->. rewrite E23. reflexivity.
  - apply String.compare_eq_iff in E23 as <-. rewrite E12. reflexivity.
  - rewrite (string_compare_lt_trans s1 s2 s3 E12 E23). reflexivity.
Qed.

Section SortByKey.

Context {A : Type} (key : A -> string).

Lemma insert_by_key_perm (x : A) (l : list A) :
  Permutation (insert_by_key key x l) (x :: l).
Proof.
  induction l as [|y l IH]; simpl; [reflexivity|].
  destruct (String.leb (key x) (key y)); [reflexivity|].
  rewrite IH. apply perm_swap.
Qed.

Lemma sort_by_key_perm (l : list A) : Permutation (sort_by_key key l) l.
Proof.
  induction l as [|x l IH]; simpl; [reflexivity|].
  rewrite insert_by_key_perm, IH. reflexivity.
Qed.

Lemma insert_by_key_sorted (x : A) (l : list A) :
  StronglySorted (key_le key) l -> StronglySorted (key_le key) (insert_by_key key x l).
Proof.
  induction 1 as [|y l Hs IH Hy]; simpl.
  - constructor; constructor.
  - destruct (String.leb (key x) (key y)) eqn:E.
    + constructor; [constructor; assumption|].
      constructor; [exact E|].
      eapply Forall_impl; [exact Hy|].
      intros z Hz. unfold key_le in *.
      eapply string_leb_trans; eassumption.
    + constructor; [exact IH|].
      rewrite insert_by_key_perm. constructor; [|exact Hy].
      unfold key_le. destruct (String.leb_total (key x) (key y)); congruence.
Qed.

Lemma sort_by_key_sorted (l : list A) :
  StronglySorted (key_le key) (sort_by_key key l).
Proof.
  induction l as [|x l IH]; simpl; [constructor|].
  apply insert_by_key_sorted, IH.
Qed.

End SortByKey.

Lemma sorted_perm_unique {A : Type} (key : A -> string) (l1 l2 : list A) :
  (forall a b, In a l1 -> In b l1 -> key a = key b -> a = b) ->
  StronglySorted (key_le key) l1 -> StronglySorted (key_le key) l2 ->
  Permutation l1 l2 -> l1 = l2.
Proof.
  revert l2. induction l1 as [|a l1 IH]; intros l2 Hinj H1 H2 HP.
  { apply Permutation_nil in HP. congruence. }
  destruct l2 as [|b l2].
  { apply Permutation_sym, Permutation_nil in HP. discriminate. }
  apply StronglySorted_inv in H1 as [H1 Ha].
  apply StronglySorted_inv in H2 as [H2 Hb].
  assert (Hab : a = b).
  { assert (Hina : In a (b :: l2))
      by (eapply Permutation_in; [exact HP|left; reflexivity]).
    assert (Hinb : In b (a :: l1))
      by (eapply Permutation_in;
          [apply Permutation_sym; exact HP|left; reflexivity]).
    destruct Hina as [->|Hina]; [reflexivity|].
    destruct Hinb as [->|Hinb]; [reflexivity|].
    rewrite Forall_forall in Ha, Hb.
    apply list_elem_of_In in Hina, Hinb.
    pose proof (Ha _ Hinb) as Hle1. pose proof (Hb _ Hina) as Hle2.
    apply Hinj; [left; reflexivity|right; apply list_elem_of_In; exact Hinb|].
    apply String.leb_antisym; assumption. }
  subst b. f_equal. apply IH; try assumption.
  - intros x y Hx Hy. apply Hinj; right; assumption.
  - eapply Permutation_cons_inv. exact HP.
Qed.

(** A list sorted in one order is sorted in another that agrees with
    it on the elements of the list. *)
Lemma StronglySorted_agree {A : Type} (R R' : A -> A -> Prop) (l : list A) :
  (forall a b, In a l -> In b l -> R a b -> R' a b) ->
  StronglySorted R l -> StronglySorted R' l.
Proof.
  intros Hag Hs. induction Hs as [|a l Hs IH Ha]; constructor.
  - apply IH. intros x y Hx Hy. apply Hag; right; assumption.
  - rewrite Forall_forall in *. intros x Hx. apply list_elem_of_In in Hx.
    apply Hag; [left; reflexivity|right; exact Hx|].
    apply Ha, list_elem_of_In, Hx.
Qed.

Lemma source_info_names (l : list Box.source_info) :
  map (fun n => {| Box.name := n |}) (map Box.name l) = l.
Proof.
  induction l as [|[n] l IH]; simpl; [reflexivity|]. rewrite IH. reflexivity.
Qed.

(** C10. [Box.sources] returns without changing the world. When the
    listing of the directory gives every record file once, in whatever
    order, the list returned has one entry per stored source name, and it
    is sorted: every entry comes before all those after it in the order
    of the names lower-cased by [str.lower]. When there is no
    [retrieval-keys] directory the list is empty. When the stored names
    are ASCII, that order is the order of the names with [A] to [Z]
    replaced by [a] to [z]; and for the stored names Banana, apple and
    Cherry, however the directory lists them, the list is apple, Banana,
    Cherry. *)
Theorem sources_sorted (str_lower : string -> string)
    (iterdir : gset string -> list string) (self : Box.t) (w : world) :
  (forall s, Permutation (iterdir s) (elements s)) ->
  (forall s, ascii_only s = true -> str_lower s = lower_ascii s) ->
  exists l,
    Box.sources str_lower iterdir self w = (Ret l, w) /\
    Permutation (map Box.name l) (elements (dom (key_files w))) /\
    StronglySorted (key_le (fun s => str_lower (Box.name s))) l /\
    (keys_dir w = None -> l = []) /\
    ((forall n, is_Some (key_files w !! n) -> ascii_only n = true) ->
     StronglySorted (key_le (fun s => lower_ascii (Box.name s))) l) /\
    (dom (key_files w) = {[ "Banana"; "apple"; "Cherry" ]} ->
     map Box.name l = ["apple"; "Banana"; "Cherry"]).
Proof.
  clear get_backend uuid4 write_error.
  intros Hdir Hag.
  assert (H : exists l,
    Box.sources str_lower iterdir self w = (Ret l, w) /\
    Permutation (map Box.name l) (elements (dom (key_files w))) /\
    StronglySorted (key_le (fun s => str_lower (Box.name s))) l /\
    (keys_dir w = None -> l = [])).
  { unfold Box.sources, key_files.
    destruct (keys_dir w) as [d|]; simpl.
    - eexists; split; [reflexivity|]. split; [|split].
      + rewrite sort_by_key_perm, map_map. simpl. rewrite map_id. apply Hdir.
      + apply (sort_by_key_sorted (fun s => str_lower (Box.name s))).
      + discriminate.
    - exists []. split; [reflexivity|]. split; [|split].
      + rewrite dom_empty_L, elements_empty. reflexivity.
      + constructor.
      + reflexivity. }
  destruct H as (l & Hrun & Hperm & Hsorted & Hnone).
  assert (Hin : forall a, In a l -> is_Some (key_files w !! Box.name a)).
  { intros a Ha. apply elem_of_dom, elem_of_elements, list_elem_of_In.
    apply (Permutation_in _ Hperm). apply in_map. exact Ha. }
  exists l. split; [exact Hrun|]. split; [exact Hperm|].
  split; [exact Hsorted|]. split; [exact Hnone|]. split.
  - intros Hascii.
    apply (StronglySorted_agree
             (key_le (fun s => str_lower (Box.name s)))); [|exact Hsorted].
    intros a b Ha Hb. unfold key_le.
    rewrite !Hag by (apply Hascii, Hin; assumption). trivial.
  - intros Hdom.
    assert (Hnames : forall a, In a l ->
              Box.name a = "Banana" \/ Box.name a = "apple" \/
              Box.name a = "Cherry").
    { intros a Ha. apply Hin, elem_of_dom in Ha. rewrite Hdom in Ha.
      set_unfold. tauto. }
    assert (Hl : l = map (fun n => {| Box.name := n |})
                       ["apple"; "Banana"; "Cherry"]).
    { apply (sorted_perm_unique (fun s => str_lower (Box.name s))).
      - intros [a] [b] Ha Hb. simpl.
        destruct (Hnames _ Ha) as [Ea|[Ea|Ea]], (Hnames _ Hb) as [Eb|[Eb|Eb]];
          simpl in Ea, Eb; subst a b; try reflexivity;
          rewrite !Hag by reflexivity; discriminate.
      - exact Hsorted.
      - unfold key_le. simpl.
        repeat (constructor; simpl);
          rewrite !Hag by reflexivity; reflexivity.
      - rewrite <- (source_info_names l). apply Permutation_map.
        rewrite Hperm, Hdom. apply NoDup_Permutation.
        + apply NoDup_elements.
        + repeat (apply NoDup_cons_2;
                    [rewrite ?elem_of_cons, elem_of_nil; intuition discriminate|]).
          apply NoDup_nil_2.
        + intros x. rewrite elem_of_elements. set_unfold. naive_solver. }
    rewrite Hl. reflexivity.
Qed.

(** *** What a computation does to the world *)

Section Steps.

Context {S : Type} (proj : S -> world) (R : world -> world -> Prop).
Context `{!PreOrder R}.

Lemma bind_steps {A B : Type} (m : M S A) (k : A -> M S B) (w0 : world)
    (s : S) :
  R w0 (proj (snd (m s))) ->
  (forall a, steps proj R (k a)) ->
  R w0 (proj (snd (bind m k s))).
Proof.
  intros Hm Hk. unfold bind.
  destruct (m s) as [[a|e|] s'] eqn:E; simpl in *; try exact Hm.
  etransitivity; [exact Hm|apply Hk].
Qed.

Lemma steps_bind {A B : Type} (m : M S A) (k : A -> M S B) :
  steps proj R m -> (forall a, steps proj R (k a)) -> steps proj R (bind m k).
Proof. intros Hm Hk s. apply bind_steps; [apply Hm|exact Hk]. Qed.

Lemma steps_ret {A : Type} (a : A) : steps proj R (ret a).
Proof. intros s. reflexivity. Qed.

Lemma steps_raise {A : Type} (e : exn) : steps proj R (@raise S A e).
Proof. intros s. reflexivity. Qed.

Lemma try_except_steps {A : Type} (body : M S A) (handler : exn -> M S A)
    (w0 : world) (s : S) :
  R w0 (proj (snd (body s))) ->
  (forall e, steps proj R (handler e)) ->
  R w0 (proj (snd (try_except body handler s))).
Proof.
  intros Hb Hh. unfold try_except.
  destruct (body s) as [[a|e|] s'] eqn:E; simpl in *; try exact Hb.
  etransitivity; [exact Hb|apply Hh].
Qed.

Lemma try_finally_steps {A : Type} (body : M S A) (final : M S unit)
    (w0 : world) (s : S) :
  R w0 (proj (snd (body s))) ->
  steps proj R final ->
  R w0 (proj (snd (try_finally body final s))).
Proof.
  intros Hb Hf. unfold try_finally.
  destruct (body s) as [[a|e|] s'] eqn:E; simpl in *; try exact Hb.
  - specialize (Hf s'). destruct (final s') as [[[]|e|] s'']; simpl in *;
      (etransitivity; [exact Hb|exact Hf]).
  - specialize (Hf s'). destruct (final s') as [[[]|e'|] s'']; simpl in *;
      (etransitivity; [exact Hb|exact Hf]).
Qed.

End Steps.

Section WorldSteps.

Context (R : world -> world -> Prop) `{!PreOrder R}.

Lemma steps_lift {F A : Type} (m : M world A) :
  steps id R m -> steps (snd : F * world -> world) R (lift m).
Proof.
  intros H [f w]. unfold lift. simpl.
  specialize (H w). destruct (m w) as [r w']. exact H.
Qed.

Lemma steps_invoke {A : Type} (c : call Opt) (f : cap X A) :
  (forall w x fs r, R w (after_call x fs (c, r) w)) -> steps id R (invoke c f).
Proof.
  intros HR w. unfold invoke.
  destruct (f (ext w) (files w)) as [[[a|e] x] fs]; simpl; apply HR.
Qed.

Lemma steps_unlink_local (var : string)
    (read : Box.frame -> local (option path)) :
  (forall w fs, R w (set_files fs w)) ->
  steps (snd : Box.frame * world -> world) R (unlink_local var read).
Proof.
  intros HR [f w]. unfold unlink_local. simpl.
  destruct (read f) as [|p]; [reflexivity|].
  unfold lift. simpl. rewrite unlink_if_exists_run. simpl.
  destruct p as [q|]; [|reflexivity].
  case_bool_decide; [apply HR|reflexivity].
Qed.

(** [Box.retrieve] once the jobs have ended, for a relation that holds
    across the three calls it can make. *)
Lemma retrieve_download_steps (self : Box.t) (b : Backend X Opt) (dst : path)
    (d m : pyval) (status : JobStatus) :
  (forall w x fs r, R w (after_call x fs (CRetrieveFinish d, r) w)) ->
  (forall w x fs r, R w (after_call x fs (CRetrieveFinish m, r) w)) ->
  (forall p q w x fs r, R w (after_call x fs (CDecrypt p q dst, r) w)) ->
  steps snd R (Box.retrieve_download self b dst d m status).
Proof.
  intros Hd Hm Hdec. unfold Box.retrieve_download.
  apply steps_bind; [exact _| |].
  { destruct status; first [apply steps_ret|apply steps_raise]; exact _. }
  intros _. apply steps_bind; [exact _| |].
  { apply steps_lift, steps_invoke, Hd. }
  intros p. apply steps_bind; [exact _|intros s; reflexivity|].
  intros _. apply steps_bind; [exact _| |].
  { apply steps_lift, steps_invoke, Hm. }
  intros q. apply steps_bind; [exact _|intros s; reflexivity|].
  intros _. apply steps_bind; [exact _| |].
  { apply steps_lift. intros w. unfold Box.gpg.
    destruct (Box._gpg self); reflexivity. }
  intros g. apply steps_lift, steps_invoke, Hdec.
Qed.

(** The [try] statement of [Box.retrieve] takes the world where its body
    takes it, and then at most removes files. *)
Lemma retrieve_try_steps (rounds : nat) (self : Box.t) (b : Backend X Opt)
    (source : string) (dst : path) (opts : Opt) (w0 w : world) :
  (forall w fs, R w (set_files fs w)) ->
  R w0
    (snd (snd (Box.retrieve_body write_error rounds self b source dst opts
                 (Box.Frame Unbound Unbound, w)))) ->
  R w0 (snd (Box.retrieve_try write_error rounds self b source dst opts w)).
Proof.
  intros Hfiles Hbody. unfold Box.retrieve_try.
  match goal with
  | |- context [try_finally ?body ?final ?s] =>
      pose proof (try_finally_steps snd R body final w0 s) as H;
      destruct (try_finally body final s) as [r [f w']]
  end.
  simpl in *. apply H.
  - apply (try_except_steps snd R); [exact Hbody|].
    intros e. apply steps_raise; exact _.
  - apply steps_bind; [exact _|apply steps_unlink_local, Hfiles|].
    intros _. apply steps_unlink_local, Hfiles.
Qed.

End WorldSteps.

(** *** The log and the records *)

Lemma extends_same (P : event Opt -> Prop) (w w' : world) :
  calls w' = calls w -> extends_with P w w'.
Proof.
  intros H. exists []. rewrite H, app_nil_r. split; [reflexivity|constructor].
Qed.

Lemma extends_trans (P : event Opt -> Prop) (w1 w2 w3 : world) :
  extends_with P w1 w2 -> extends_with P w2 w3 -> extends_with P w1 w3.
Proof.
  intros (e1 & H1 & F1) (e2 & H2 & F2). exists (e1 ++ e2).
  rewrite H2, H1, app_assoc. split; [reflexivity|].
  apply Forall_app; split; assumption.
Qed.

#[local] Instance extends_with_preorder (P : event Opt -> Prop) :
  PreOrder (@extends_with X Opt P).
Proof.
  split.
  - intros w. apply extends_same. reflexivity.
  - intros w1 w2 w3. apply extends_trans.
Qed.

#[local] Instance same_records_preorder : PreOrder (@same_records X Opt).
Proof.
  split.
  - intros w. repeat split.
  - intros w1 w2 w3 (A1 & A2 & A3) (B1 & B2 & B3).
    repeat split; congruence.
Qed.

Lemma after_call_extends (P : event Opt -> Prop) (c : call Opt)
    (r : option exn) (w : world) (x : X) (fs : gset path) :
  P (c, r) -> extends_with P w (after_call x fs (c, r) w).
Proof.
  intros HP. exists [(c, r)]. split; [reflexivity|].
  constructor; [exact HP|constructor].
Qed.

Lemma logs_silent {S A : Type} (proj : S -> world) (P : event Opt -> Prop)
    (m : M S A) :
  (forall s, calls (proj (snd (m s))) = calls (proj s)) -> logs proj P m.
Proof. intros H s. apply extends_same, H. Qed.

Lemma logs_invoke {A : Type} (P : event Opt -> Prop) (c : call Opt)
    (f : cap X A) :
  (forall r, P (c, r)) -> logs id P (invoke c f).
Proof.
  intros HP. apply steps_invoke.
  intros w x fs r. apply after_call_extends, HP.
Qed.

Lemma logs_impl {S A : Type} (proj : S -> world) (P Q : event Opt -> Prop)
    (m : M S A) :
  (forall ev, P ev -> Q ev) -> logs proj P m -> logs proj Q m.
Proof.
  intros HPQ Hm s. destruct (Hm s) as (evs & Hc & HF).
  exists evs. split; [exact Hc|]. eapply Forall_impl; eassumption.
Qed.

(** *** [Box.retrieve] *)

Lemma retrieve_wait_logs (b : Backend X Opt) (d m : pyval) (rounds : nat)
    (status : JobStatus) :
  logs id (resumes d m) (Box.retrieve_wait rounds b d m status).
Proof.
  revert status. induction rounds as [|rounds IH]; intros [| |]; simpl;
    try (apply steps_ret; exact _).
  - apply logs_silent. reflexivity.
  - apply steps_bind; [exact _|apply logs_silent; reflexivity|]. intros _.
    apply steps_bind; [exact _| |exact IH].
    apply logs_invoke. intros r. split; reflexivity.
Qed.

Lemma retrieve_wait_records (b : Backend X Opt) (d m : pyval) (rounds : nat)
    (status : JobStatus) :
  steps id same_records (Box.retrieve_wait rounds b d m status).
Proof.
  revert status. induction rounds as [|rounds IH]; intros [| |]; simpl;
    try (apply steps_ret; exact _).
  - intros w. reflexivity.
  - apply steps_bind; [exact _|intros w; repeat split|]. intros _.
    apply steps_bind; [exact _| |exact IH].
    apply steps_invoke. intros w x fs r. repeat split.
Qed.

Lemma retrieve_poll_logs (b : Backend X Opt) (d m : pyval) (rounds : nat) :
  logs id (resumes d m) (Box.retrieve_poll rounds b d m).
Proof.
  apply steps_bind; [exact _| |apply retrieve_wait_logs].
  apply logs_invoke. intros r. split; reflexivity.
Qed.

Lemma retrieve_poll_records (b : Backend X Opt) (d m : pyval) (rounds : nat) :
  steps id same_records (Box.retrieve_poll rounds b d m).
Proof.
  apply steps_bind; [exact _| |apply retrieve_wait_records].
  apply steps_invoke. intros w x fs r. repeat split.
Qed.

Lemma retrieve_fetch_logs (rounds : nat) (self : Box.t) (b : Backend X Opt)
    (source : string) (dst : path) (d m : pyval) :
  logs snd (resumes d m) (Box.retrieve_fetch rounds self b source dst d m).
Proof.
  unfold Box.retrieve_fetch.
  apply steps_bind; [exact _|apply steps_lift, retrieve_poll_logs|].
  intros status. apply steps_bind; [exact _| |].
  { apply steps_lift, logs_silent. intros w.
    unfold Box._clear_retrieval_jobs. case_bool_decide; reflexivity. }
  intros _. apply retrieve_download_steps; [exact _|..].
  - intros w x fs r. apply after_call_extends. left. reflexivity.
  - intros w x fs r. apply after_call_extends. right. reflexivity.
  - intros p q w x fs r. apply after_call_extends. exact I.
Qed.

(** After the jobs are known, whether read from the record or started,
    [Box.retrieve] polls and fetches those jobs and starts no other. *)
Lemma retrieve_try_after_jobs (P : event Opt -> Prop) (rounds : nat)
    (self : Box.t) (b : Backend X Opt) (source : string) (dst : path)
    (opts : Opt) (w : world) :
  (forall d m w1,
     Box.retrieve_jobs write_error self b source opts w = (Ret (d, m), w1) ->
     forall ev, resumes d m ev -> P ev) ->
  extends_with P
    (snd (Box.retrieve_jobs write_error self b source opts w))
    (snd (Box.retrieve_try write_error rounds self b source dst opts w)).
Proof.
  intros HP. apply retrieve_try_steps; [exact _| |].
  { intros w' fs. apply extends_same. reflexivity. }
  unfold Box.retrieve_body, bind at 1, lift at 1. simpl.
  destruct (Box.retrieve_jobs write_error self b source opts w)
    as [[[d m]|e|] w1] eqn:E; simpl;
    try (apply extends_same; reflexivity).
  apply (logs_impl snd (resumes d m) P); [exact (HP d m w1 eq_refl)|].
  apply retrieve_fetch_logs.
Qed.

(** The jobs of a source that has a Retrieval Job Record are read from
    it. *)
Lemma retrieve_jobs_resumed (self : Box.t) (b : Backend X Opt)
    (source : string) (opts : Opt) (w : world) (d m : pyval) :
  jobs_dir w !! source = Some (d, m) ->
  Box.retrieve_jobs write_error self b source opts w = (Ret (d, m), w).
Proof.
  intros Hj.
  unfold Box.retrieve_jobs, bind, Box._has_retrieval_jobs,
    Box._get_retrieval_jobs.
  rewrite bool_decide_eq_true_2 by (rewrite Hj; eauto).
  rewrite Hj. reflexivity.
Qed.

(** The jobs of a source that has none are started: one call for the data
    key, and when it returns, one for the meta key. *)
Lemma retrieve_jobs_started (self : Box.t) (b : Backend X Opt)
    (source : string) (opts : Opt) (w : world) :
  jobs_dir w !! source = None ->
  let keys := default ((None, None) : pyval * pyval) (key_files w !! source) in
  let r := Box.retrieve_jobs write_error self b source opts w in
  keys_dir (snd r) = keys_dir w /\
  ((exists e,
      calls (snd r) = calls w ++ [(CRetrieveInit (fst keys) opts, Some e)]) \/
   (exists o,
      calls (snd r) =
      calls w ++ [(CRetrieveInit (fst keys) opts, None);
                  (CRetrieveInit (snd keys) opts, o)])).
Proof.
  intros Hj. cbv zeta.
  unfold Box.retrieve_jobs, bind, Box._has_retrieval_jobs,
    Box._get_retrieval_keys, Box._set_retrieval_jobs, invoke, ret.
  rewrite bool_decide_eq_false_2 by (rewrite Hj; apply is_Some_None).
  destruct (key_files w !! source) as [[dk mk]|]; simpl.
  - destruct (backend_retrieve_init b dk opts (ext w) (files w))
      as [[[dj|e] x1] fs1]; simpl; [|split; [reflexivity|left; eauto]].
    destruct (backend_retrieve_init b mk opts x1 fs1) as [[[mj|e] x2] fs2];
      simpl.
    + destruct (write_error "retrieval-jobs" source x2) as [[e' st]|]; simpl;
        (split; [reflexivity|right; eexists; rewrite <- app_assoc;
                              reflexivity]).
    + split; [reflexivity|right; eexists; rewrite <- app_assoc; reflexivity].
  - destruct (backend_retrieve_init b None opts (ext w) (files w))
      as [[[dj|e] x1] fs1]; simpl; [|split; [reflexivity|left; eauto]].
    destruct (backend_retrieve_init b None opts x1 fs1) as [[[mj|e] x2] fs2];
      simpl.
    + destruct (write_error "retrieval-jobs" source x2) as [[e' st]|]; simpl;
        (split; [reflexivity|right; eexists; rewrite <- app_assoc;
                              reflexivity]).
    + split; [reflexivity|right; eexists; rewrite <- app_assoc; reflexivity].
Qed.

Lemma resumes_starts_no_job (d m : pyval) (ev : event Opt) :
  resumes d m ev -> starts_no_job ev.
Proof. unfold resumes, starts_no_job. destruct (fst ev); tauto. Qed.

Lemma retrieve_jobs_keys (self : Box.t) (b : Backend X Opt) (source : string)
    (opts : Opt) (w : world) :
  keys_dir (snd (Box.retrieve_jobs write_error self b source opts w)) =
  keys_dir w.
Proof.
  destruct (jobs_dir w !! source) as [[d m]|] eqn:Hj.
  - rewrite (retrieve_jobs_resumed self b source opts w d m Hj). reflexivity.
  - apply (retrieve_jobs_started self b source opts w Hj).
Qed.

(** The body of the [try] statement once the poll has ended: the record of
    the jobs is cleared and the status decides what follows. *)
Lemma retrieve_body_after_poll (rounds : nat) (self : Box.t)
    (b : Backend X Opt) (source : string) (dst : path) (opts : Opt)
    (w w1 w2 : world) (d m : pyval) (status : JobStatus) (f : Box.frame) :
  Box.retrieve_jobs write_error self b source opts w = (Ret (d, m), w1) ->
  Box.retrieve_poll rounds b d m w1 = (Ret status, w2) ->
  Box.retrieve_body write_error rounds self b source dst opts (f, w) =
  Box.retrieve_download self b dst d m status
    (f, snd (Box._clear_retrieval_jobs self source w2)).
Proof.
  intros Hjobs Hpoll.
  unfold Box.retrieve_body, Box.retrieve_fetch, bind at 1 2 3, lift. simpl.
  rewrite Hjobs. simpl. rewrite Hpoll. simpl.
  unfold Box._clear_retrieval_jobs. case_bool_decide; reflexivity.
Qed.

Lemma clear_retrieval_jobs_cleared (self : Box.t) (source : string)
    (w : world) :
  let w' := snd (Box._clear_retrieval_jobs self source w) in
  jobs_dir w' !! source = None /\ keys_dir w' = keys_dir w.
Proof.
  cbv zeta. unfold Box._clear_retrieval_jobs.
  case_bool_decide as E; simpl.
  - split; [apply lookup_delete_eq|reflexivity].
  - split; [apply eq_None_not_Some; exact E|reflexivity].
Qed.

(** C2, what the code does. When the jobs of the source are known and the
    poll ends with a status, [Box.retrieve] has cleared the Retrieval Job
    Record and left the Retrieval Key Store as it was. When the status is
    [failure], the exception it raises is not [Exception('Retrieval
    operation failed. (Retrieval job failed.)')]: the [finally] block
    reads [data_path], which line 123 has not assigned yet, and its
    [UnboundLocalError] replaces the exception in flight. *)
Theorem retrieve_failed_job_unbound_local (rounds : nat) (self : Box.t)
    (source : string) (dst : path) (opts : Opt) (w w1 w2 : world)
    (b : Backend X Opt) (d m : pyval) (status : JobStatus) :
  Box.backend get_backend self w = (Ret b, w) ->
  Box.retrieve_jobs write_error self b source opts w = (Ret (d, m), w1) ->
  Box.retrieve_poll rounds b d m w1 = (Ret status, w2) ->
  let r := Box.retrieve get_backend write_error rounds self source dst opts w in
  jobs_dir (snd r) !! source = None /\
  keys_dir (snd r) = keys_dir w /\
  (status = failure ->
   fst r =
     Raise (UnboundLocalError
              "local variable 'data_path' referenced before assignment")).
Proof.
  intros Hb Hjobs Hpoll. cbv zeta.
  assert (Hk : keys_dir w2 = keys_dir w).
  { pose proof (retrieve_poll_records b d m rounds w1) as (_ & Hk2 & _).
    pose proof (retrieve_jobs_keys self b source opts w) as Hk1.
    rewrite Hpoll in Hk2. rewrite Hjobs in Hk1. simpl in *. congruence. }
  destruct (clear_retrieval_jobs_cleared self source w2) as (Hcj & Hck).
  assert (Hrec : same_records
            (snd (Box._clear_retrieval_jobs self source w2))
            (snd (Box.retrieve get_backend write_error rounds self source dst
                    opts w))).
  { unfold Box.retrieve, bind at 1. rewrite Hb.
    apply retrieve_try_steps; [exact _|intros w' fs; repeat split|].
    rewrite (retrieve_body_after_poll rounds self b source dst opts w w1 w2 d
               m status _ Hjobs Hpoll).
    apply (retrieve_download_steps same_records);
      intros; repeat split. }
  destruct Hrec as (_ & Hrk & Hrj).
  split; [rewrite Hrj; exact Hcj|].
  split; [rewrite Hrk, Hck; exact Hk|].
  intros ->.
  unfold Box.retrieve, bind at 1. rewrite Hb.
  unfold Box.retrieve_try, try_finally, try_except.
  rewrite (retrieve_body_after_poll rounds self b source dst opts w w1 w2 d
             m failure _ Hjobs Hpoll).
  reflexivity.
Qed.

(** * Further properties *)

(** *** [Box.store] and [Box.delete] together *)

Lemma backend_anywhere (self : Box.t) (b : Backend X Opt) (w w' : world) :
  Box.backend get_backend self w = (Ret b, w) ->
  Box.backend get_backend self w' = (Ret b, w').
Proof.
  intros H. apply backend_returns in H as (kind & Hc & Hb).
  unfold Box.backend. rewrite Hc, Hb. reflexivity.
Qed.

Lemma key_files_of_dir (w : world) (d : gmap string (pyval * pyval)) :
  keys_dir w = Some d -> key_files w = d.
Proof. unfold key_files. intros ->. reflexivity. Qed.

Lemma key_files_same (w w' : world) :
  keys_dir w' = keys_dir w -> key_files w' = key_files w.
Proof. unfold key_files. intros ->. reflexivity. Qed.

(** What [Box.store] has done to the records when it is left. *)
Lemma store_records (self : Box.t) (src : path) (w : world) :
  let r := Box.store get_backend uuid4 write_error self src w in
  config_file (snd r) = config_file w /\
  jobs_dir (snd r) = jobs_dir w /\
  (forall other, other <> path_name src ->
     key_files (snd r) !! other = key_files w !! other) /\
  ((exists e,
      fst r = Raise e /\
      (keys_dir (snd r) = keys_dir w \/
       exists g k dp mp x1 fs1,
         Box._gpg self = Some g /\
         Box.config self !! "key-id" = Some k /\
         gpg_encrypt g src k (ext w) (files w) = (Ok (dp, mp), x1, fs1) /\
         new_calls w (snd r) =
         [(CEncrypt src k, None);
          (CStore dp (fst (uuid4 x1) +:+ Box.DATA_SUFFIX), None);
          (CStore mp (fst (uuid4 x1) +:+ Box.META_SUFFIX), None)])) \/
   (exists dk mk,
      fst r = Ret tt /\
      keys_dir (snd r) =
      Some (<[path_name src := (dk, mk)]> (key_files w)))).
Proof.
  pose proof (store_paths self src w) as HP. cbv zeta in HP |- *.
  set (r := Box.store get_backend uuid4 write_error self src w) in *.
  destruct HP as
    [(e & Ho & (Hc & Hk & Hj) & _)
    |(g & k & dp & mp & x1 & fs1 & w0 & w1 & Hg & Hkey & He & Hc0
        & (Hcf0 & Hk0 & Hj0) & Hp & (Hcf1 & Hk1 & Hj1) & Hc1)].
  - split; [exact Hc|]. split; [exact Hj|].
    split; [intros other _; rewrite (key_files_same _ _ Hk); reflexivity|].
    left. eauto.
  - assert (Hnew : forall evs, calls w1 = calls w0 ++ evs ->
                     new_calls w (snd r) = (CEncrypt src k, None) :: evs).
    { intros evs H. apply new_calls_app. rewrite Hc1, H, Hc0.
      rewrite <- app_assoc. reflexivity. }
    inversion Hp as [e w1' _ (Hc & Hk & Hj) Ho|e w1' _ (Hc & Hk & Hj) Ho
                    |e stage w1' Hcs Hc Hj _ Hk Ho
                    |dk mk w1' _ Hc Hj Hk Ho]; subst w1'.
    + split; [congruence|]. split; [congruence|].
      assert (Hsame : keys_dir (snd r) = keys_dir w) by congruence.
      split; [intros other _; rewrite (key_files_same _ _ Hsame);
              reflexivity|].
      left. eexists. split; [reflexivity|left; exact Hsame].
    + split; [congruence|]. split; [congruence|].
      assert (Hsame : keys_dir (snd r) = keys_dir w) by congruence.
      split; [intros other _; rewrite (key_files_same _ _ Hsame);
              reflexivity|].
      left. eexists. split; [reflexivity|left; exact Hsame].
    + split; [congruence|]. split; [congruence|]. split.
      * intros other Hne. unfold key_files at 1. rewrite Hk1, Hk.
        rewrite (keys_left_other stage _ _ w0 Hne).
        rewrite (key_files_same w w0 Hk0). reflexivity.
      * left. eexists. split; [reflexivity|]. right.
        exists g, k, dp, mp, x1, fs1.
        split; [exact Hg|]. split; [exact Hkey|]. split; [exact He|].
        apply Hnew, Hcs.
    + split; [congruence|]. split; [congruence|].
      assert (Hnow : keys_dir (snd r) =
                     Some (<[path_name src := (dk, mk)]> (key_files w))).
      { rewrite Hk1, Hk. rewrite (key_files_same w w0 Hk0). reflexivity. }
      split.
      * intros other Hne. rewrite (key_files_of_dir _ _ Hnow).
        apply lookup_insert_ne. congruence.
      * right. exists dk, mk. split; [reflexivity|exact Hnow].
Qed.

(** X1. [Box.store] touches one record. However it ends, it changes
    neither the configuration, nor a Retrieval Job Record, nor the
    Retrieval Key Record of another name. When it returns, the name of
    the source has a Retrieval Key Record. When it raises, the Retrieval
    Key Store is as it was, unless the two artifacts of the encryption
    had both been uploaded: then it is the writing of the record file
    that raised, and it may have left the directory or the file
    behind. *)
Theorem store_adds_one_record (self : Box.t) (src : path) (w : world) :
  let r := Box.store get_backend uuid4 write_error self src w in
  config_file (snd r) = config_file w /\
  jobs_dir (snd r) = jobs_dir w /\
  (forall other, other <> path_name src ->
     key_files (snd r) !! other = key_files w !! other) /\
  match fst r with
  | Ret _ => is_Some (key_files (snd r) !! path_name src)
  | Raise _ =>
      keys_dir (snd r) = keys_dir w \/
      exists g k dp mp x1 fs1,
        Box._gpg self = Some g /\
        Box.config self !! "key-id" = Some k /\
        gpg_encrypt g src k (ext w) (files w) = (Ok (dp, mp), x1, fs1) /\
        new_calls w (snd r) =
        [(CEncrypt src k, None);
         (CStore dp (fst (uuid4 x1) +:+ Box.DATA_SUFFIX), None);
         (CStore mp (fst (uuid4 x1) +:+ Box.META_SUFFIX), None)]
  | Pending => False
  end.
Proof.
  pose proof (store_records self src w) as (Hc & Hj & Hother & HP).
  cbv zeta in *. split; [exact Hc|]. split; [exact Hj|].
  split; [exact Hother|].
  destruct HP as [(e & -> & Hk)|(dk & mk & -> & Hk)]; [exact Hk|].
  rewrite (key_files_of_dir _ _ Hk). rewrite lookup_insert_eq. eauto.
Qed.

(** What [Box.delete] has done to the records when it is left. *)
Lemma delete_records (self : Box.t) (source : string) (w : world) :
  let r := Box.delete get_backend self source w in
  config_file (snd r) = config_file w /\
  jobs_dir (snd r) = jobs_dir w /\
  ((exists e, fst r = Raise e /\ keys_dir (snd r) = keys_dir w) \/
   (fst r = Ret tt /\
    keys_dir (snd r) = base.delete source <$> keys_dir w /\
    new_calls w (snd r) =
    [(CDelete (fst (default ((None, None) : pyval * pyval)
                            (key_files w !! source))), None);
     (CDelete (snd (default ((None, None) : pyval * pyval)
                            (key_files w !! source))), None)])).
Proof.
  cbv zeta.
  destruct (backend_decide self w) as [[b Hb]|Hb].
  2:{ destruct (delete_no_backend self source w Hb) as [e ->]. simpl.
      split; [reflexivity|]. split; [reflexivity|]. left. eauto. }
  pose proof (delete_paths self source w b Hb) as HP. cbv zeta in HP.
  set (r := Box.delete get_backend self source w) in *.
  inversion HP as [e w1 Hc (Hcf & Hk & Hj) Ho|e w1 Hc (Hcf & Hk & Hj) Ho
                  |w1 Hc Hcf Hj Hk Ho].
  - split; [exact Hcf|]. split; [exact Hj|]. left. eauto.
  - split; [exact Hcf|]. split; [exact Hj|]. left. eauto.
  - split; [exact Hcf|]. split; [exact Hj|]. right.
    split; [reflexivity|]. split; [exact Hk|].
    apply new_calls_app. exact Hc.
Qed.

(** X2. [Box.delete] touches one record. It never changes the
    configuration, a Retrieval Job Record, or the Retrieval Key Record of
    another name than the one it is given, whatever the backend does. *)
Theorem delete_touches_one_record (self : Box.t) (source : string)
    (w : world) :
  let r := Box.delete get_backend self source w in
  config_file (snd r) = config_file w /\
  jobs_dir (snd r) = jobs_dir w /\
  forall other, other <> source ->
    key_files (snd r) !! other = key_files w !! other.
Proof.
  pose proof (delete_records self source w) as (Hc & Hj & HP).
  cbv zeta in *. split; [exact Hc|]. split; [exact Hj|].
  intros other Hne.
  destruct HP as [(e & _ & Hk)|(_ & Hk & _)].
  - rewrite (key_files_same _ _ Hk). reflexivity.
  - unfold key_files. rewrite Hk.
    destruct (keys_dir w) as [d|]; simpl; [|reflexivity].
    apply lookup_delete_ne. congruence.
Qed.

(** X3. Store, then delete. When [Box.store] of a source has returned and
    [Box.delete] of its name, run next, has returned too, the backend was
    asked to delete the two keys of the record that the store wrote, data
    key first, and the Retrieval Key Store is the one before the store,
    less that name. *)
Theorem store_then_delete (self : Box.t) (src : path) (w w1 w2 : world) :
  Box.store get_backend uuid4 write_error self src w = (Ret tt, w1) ->
  Box.delete get_backend self (path_name src) w1 = (Ret tt, w2) ->
  key_files w2 = base.delete (path_name src) (key_files w) /\
  exists dk mk,
    key_files w1 !! path_name src = Some (dk, mk) /\
    new_calls w1 w2 = [(CDelete dk, None); (CDelete mk, None)].
Proof.
  intros Hs Hd.
  pose proof (store_records self src w) as (_ & _ & _ & HS).
  pose proof (delete_records self (path_name src) w1) as (_ & _ & HD).
  cbv zeta in *. rewrite Hs in HS. rewrite Hd in HD. simpl in *.
  destruct HS as [(e & He & _)|(dk & mk & _ & Hk1)]; [discriminate|].
  destruct HD as [(e & He & _)|(_ & Hk2 & Hcalls)]; [discriminate|].
  rewrite (key_files_of_dir _ _ Hk1) in Hcalls.
  rewrite lookup_insert_eq in Hcalls. simpl in Hcalls.
  split.
  - unfold key_files at 1. rewrite Hk2, Hk1. simpl.
    apply delete_insert_eq.
  - exists dk, mk. split; [|exact Hcalls].
    rewrite (key_files_of_dir _ _ Hk1). apply lookup_insert_eq.
Qed.

(** *** The lines of [Box.store] before its [try] statement *)

(** X4. [Box.store] on a box that has no GnuPG instance, or no key id in
    its configuration, raises the exception of the property ([No GPG
    instance.], else [No key ID.]), not wrapped as a storage failure, and
    nothing has happened: nothing is encrypted, called or written. *)
Theorem store_needs_gpg_and_key (self : Box.t) (src : path) (w : world) :
  Box._gpg self = None \/ Box.config self !! "key-id" = None ->
  Box.store get_backend uuid4 write_error self src w =
  (Raise (Exception (match Box._gpg self with
                     | None => "No GPG instance."
                     | Some _ => "No key ID."
                     end)), w).
Proof.
  intros H. unfold Box.store, bind, Box.gpg, Box.key.
  destruct (Box._gpg self) as [g|]; [|reflexivity].
  destruct H as [H|H]; [discriminate|]. simpl. rewrite H. reflexivity.
Qed.

(** X5. [Box.store] makes its backend after the encryption and before the
    [try] statement. When the encryption has returned and no backend can
    be made (the configuration has no [backend] entry, or [get_backend]
    raises), [Box.store] raises that exception as it is, no record is
    written, and the local files are those the encryption left: the two
    artifacts are not removed. *)
Theorem store_without_backend_keeps_artifacts (self : Box.t) (src : path)
    (w : world) (g : GPG X) (k : string) (dp mp : option path) (x1 : X)
    (fs1 : gset path) (e : exn) :
  Box._gpg self = Some g ->
  Box.config self !! "key-id" = Some k ->
  gpg_encrypt g src k (ext w) (files w) = (Ok (dp, mp), x1, fs1) ->
  Box.backend get_backend self w = (Raise e, w) ->
  let r := Box.store get_backend uuid4 write_error self src w in
  fst r = Raise e /\
  files (snd r) = fs1 /\
  same_records w (snd r) /\
  new_calls w (snd r) = [(CEncrypt src k, None)].
Proof.
  intros Hg Hk He Hb. cbv zeta.
  assert (Hb' : forall w', Box.backend get_backend self w' = (Raise e, w')).
  { intros w'. unfold Box.backend in *.
    destruct (Box.config self !! "backend") as [kind|].
    - destruct (get_backend kind (Box.config self)) as [b|e'];
        [discriminate|]. injection Hb as <-. reflexivity.
    - injection Hb as <-. reflexivity. }
  unfold Box.store, bind, Box.gpg, Box.key, invoke, Box._encrypted_names.
  rewrite Hg, Hk. simpl. rewrite He. simpl.
  destruct (uuid4 x1) as [u x2]. simpl. rewrite Hb'. simpl.
  split; [reflexivity|]. split; [reflexivity|]. split; [repeat split|].
  apply new_calls_app. reflexivity.
Qed.

Lemma append_same_length (u u' s s' : string) :
  String.length s = String.length s' ->
  u +:+ s = u' +:+ s' -> u = u' /\ s = s'.
Proof.
  intros Hl. revert u'.
  assert (Hlen : forall a b, String.length (a +:+ b) =
                             String.length a + String.length b).
  { induction a as [|c a IH]; intros b; simpl; [reflexivity|].
    rewrite IH. reflexivity. }
  induction u as [|c u IH]; intros [|c' u'] H; simpl in H.
  - split; [reflexivity|exact H].
  - exfalso. apply (f_equal String.length) in H.
    rewrite !Hlen in H. simpl in H. lia.
  - exfalso. apply (f_equal String.length) in H.
    rewrite !Hlen in H. simpl in H. lia.
  - injection H as -> H. destruct (IH u' H) as [-> ->]. split; reflexivity.
Qed.

(** X6. The names [_encrypted_names] proposes. The data name and the meta
    name of one draw are different, a data name is never a meta name, and
    two draws give a name in common only when they drew the same random
    identifier. *)
Theorem encrypted_names_collide_only_on_uuid (w1 w2 : world) :
  exists d1 m1 d2 m2 w1' w2',
    Box._encrypted_names uuid4 w1 = (Ret (d1, m1), w1') /\
    Box._encrypted_names uuid4 w2 = (Ret (d2, m2), w2') /\
    d1 <> m1 /\ d1 <> m2 /\
    (d1 = d2 \/ m1 = m2 -> fst (uuid4 (ext w1)) = fst (uuid4 (ext w2))).
Proof.
  unfold Box._encrypted_names.
  destruct (uuid4 (ext w1)) as [u1 x1], (uuid4 (ext w2)) as [u2 x2]. simpl.
  eexists _, _, _, _, _, _. split; [reflexivity|]. split; [reflexivity|].
  split; [|split].
  - intros H. apply append_same_length in H as [_ H]; [discriminate|reflexivity].
  - intros H. apply append_same_length in H as [_ H]; [discriminate|reflexivity].
  - intros [H|H]; apply append_same_length in H as [H _];
      solve [exact H|reflexivity].
Qed.

(** *** More on [Box.retrieve] *)

#[local] Instance keeps_keys_preorder (source : string) :
  PreOrder (@keeps_keys X Opt source).
Proof.
  split.
  - intros w. repeat split.
  - intros w1 w2 w3 (A1 & A2 & A3) (B1 & B2 & B3).
    split; [congruence|]. split; [congruence|].
    intros other Hne. rewrite B3, A3 by exact Hne. reflexivity.
Qed.

Lemma same_records_keeps_keys (source : string) (w w' : world) :
  same_records w w' -> keeps_keys source w w'.
Proof.
  intros (H1 & H2 & H3). split; [exact H1|]. split; [exact H2|].
  intros other _. rewrite H3. reflexivity.
Qed.

Lemma steps_impl {S A : Type} (proj : S -> world)
    (R R' : world -> world -> Prop) (m : M S A) :
  (forall w w', R w w' -> R' w w') -> steps proj R m -> steps proj R' m.
Proof. intros HR Hm s. apply HR, Hm. Qed.

Lemma retrieve_jobs_keeps (self : Box.t) (b : Backend X Opt)
    (source : string) (opts : Opt) :
  steps id (keeps_keys source)
    (Box.retrieve_jobs write_error self b source opts).
Proof.
  intros w. unfold id.
  destruct (jobs_dir w !! source) as [[d m]|] eqn:Hj.
  { rewrite (retrieve_jobs_resumed self b source opts w d m Hj). reflexivity. }
  unfold Box.retrieve_jobs, bind, Box._has_retrieval_jobs,
    Box._get_retrieval_keys, Box._set_retrieval_jobs, invoke, ret.
  rewrite bool_decide_eq_false_2 by (rewrite Hj; apply is_Some_None).
  destruct (key_files w !! source) as [[dk mk]|]; simpl.
  - destruct (backend_retrieve_init b dk opts (ext w) (files w))
      as [[[dj|e] x1] fs1]; simpl; [|repeat split].
    destruct (backend_retrieve_init b mk opts x1 fs1) as [[[mj|e] x2] fs2];
      simpl; [|repeat split].
    destruct (write_error "retrieval-jobs" source x2) as [[e' st]|]; simpl.
    + split; [reflexivity|]. split; [reflexivity|].
      intros other Hne. destruct st; simpl; try reflexivity.
      apply lookup_insert_ne. congruence.
    + split; [reflexivity|]. split; [reflexivity|].
      intros other Hne. simpl. apply lookup_insert_ne. congruence.
  - destruct (backend_retrieve_init b None opts (ext w) (files w))
      as [[[dj|e] x1] fs1]; simpl; [|repeat split].
    destruct (backend_retrieve_init b None opts x1 fs1) as [[[mj|e] x2] fs2];
      simpl; [|repeat split].
    destruct (write_error "retrieval-jobs" source x2) as [[e' st]|]; simpl.
    + split; [reflexivity|]. split; [reflexivity|].
      intros other Hne. destruct st; simpl; try reflexivity.
      apply lookup_insert_ne. congruence.
    + split; [reflexivity|]. split; [reflexivity|].
      intros other Hne. simpl. apply lookup_insert_ne. congruence.
Qed.

Lemma clear_retrieval_jobs_keeps (self : Box.t) (source : string) :
  steps id (@keeps_keys X Opt source) (Box._clear_retrieval_jobs self source).
Proof.
  intros w. unfold id, Box._clear_retrieval_jobs.
  case_bool_decide; simpl; [|reflexivity].
  split; [reflexivity|]. split; [reflexivity|].
  intros other Hne. simpl. apply lookup_delete_ne. congruence.
Qed.

Lemma backend_world (self : Box.t) (w w0 : world)
    (o : outcome (Backend X Opt)) :
  Box.backend get_backend self w = (o, w0) -> w0 = w.
Proof.
  unfold Box.backend.
  destruct (Box.config self !! "backend") as [kind|];
    [destruct (get_backend kind (Box.config self))|];
    intros [= _ <-]; reflexivity.
Qed.

(** X7. [Box.retrieve] never changes the configuration, the Retrieval Key
    Store, or the Retrieval Job Record of another source, whatever the
    backend and GnuPG do and however the call ends, also while it is still
    waiting: the source can always be retrieved again. *)
Theorem retrieve_keeps_keys (rounds : nat) (self : Box.t) (source : string)
    (dst : path) (opts : Opt) (w : world) :
  let w' := snd (Box.retrieve get_backend write_error rounds self source dst
                   opts w) in
  config_file w' = config_file w /\
  keys_dir w' = keys_dir w /\
  forall other, other <> source ->
    jobs_dir w' !! other = jobs_dir w !! other.
Proof.
  cbv zeta. change (keeps_keys source w
    (snd (Box.retrieve get_backend write_error rounds self source dst opts
            w))).
  unfold Box.retrieve, bind at 1.
  destruct (Box.backend get_backend self w) as [o w0] eqn:Hb.
  rewrite (backend_world self w w0 o Hb).
  destruct o as [b|e|]; try reflexivity.
  apply retrieve_try_steps; [exact _|intros w' fs; repeat split|].
  assert (Hbody : steps snd (keeps_keys source)
            (Box.retrieve_body write_error rounds self b source dst opts)).
  { unfold Box.retrieve_body.
    apply steps_bind; [exact _|apply steps_lift, retrieve_jobs_keeps|].
    intros [d m]. unfold Box.retrieve_fetch.
    apply steps_bind; [exact _| |].
    { apply steps_lift.
      apply (steps_impl id same_records);
        [apply same_records_keeps_keys|apply retrieve_poll_records]. }
    intros status. apply steps_bind; [exact _| |].
    { apply steps_lift, clear_retrieval_jobs_keeps. }
    intros _. apply retrieve_download_steps; [exact _|..];
      intros; repeat split. }
  apply (Hbody (Box.Frame Unbound Unbound, w)).
Qed.

Lemma retrieve_jobs_recorded (self : Box.t) (b : Backend X Opt)
    (source : string) (opts : Opt) (w w1 : world) (d m : pyval) :
  Box.retrieve_jobs write_error self b source opts w = (Ret (d, m), w1) ->
  jobs_dir w1 !! source = Some (d, m).
Proof.
  destruct (jobs_dir w !! source) as [[d0 m0]|] eqn:Hj.
  { rewrite (retrieve_jobs_resumed self b source opts w d0 m0 Hj).
    intros [= <- <- <-]. exact Hj. }
  unfold Box.retrieve_jobs, bind, Box._has_retrieval_jobs,
    Box._get_retrieval_keys, Box._set_retrieval_jobs, invoke, ret.
  rewrite bool_decide_eq_false_2 by (rewrite Hj; apply is_Some_None).
  destruct (key_files w !! source) as [[dk mk]|]; simpl.
  - destruct (backend_retrieve_init b dk opts (ext w) (files w))
      as [[[dj|e] x1] fs1]; simpl; [|discriminate].
    destruct (backend_retrieve_init b mk opts x1 fs1) as [[[mj|e] x2] fs2];
      simpl; [|discriminate].
    destruct (write_error "retrieval-jobs" source x2) as [[e' st]|]; simpl;
      [discriminate|].
    intros [= <- <- <-]. simpl. apply lookup_insert_eq.
  - destruct (backend_retrieve_init b None opts (ext w) (files w))
      as [[[dj|e] x1] fs1]; simpl; [|discriminate].
    destruct (backend_retrieve_init b None opts x1 fs1) as [[[mj|e] x2] fs2];
      simpl; [|discriminate].
    destruct (write_error "retrieval-jobs" source x2) as [[e' st]|]; simpl;
      [discriminate|].
    intros [= <- <- <-]. simpl. apply lookup_insert_eq.
Qed.

(** A retrieval of a source that has a Retrieval Job Record starts no
    job. *)
Lemma retrieve_resumed_logs (rounds : nat) (self : Box.t) (source : string)
    (dst : path) (opts : Opt) (w : world) (b : Backend X Opt) (d m : pyval) :
  Box.backend get_backend self w = (Ret b, w) ->
  jobs_dir w !! source = Some (d, m) ->
  Forall (resumes d m)
    (new_calls w
       (snd (Box.retrieve get_backend write_error rounds self source dst opts
               w))).
Proof.
  intros Hb Hj. unfold Box.retrieve, bind. rewrite Hb.
  pose proof (retrieve_try_after_jobs (resumes d m) rounds self b source dst
                opts w) as H.
  rewrite (retrieve_jobs_resumed self b source opts w d m Hj) in H.
  simpl in H. destruct H as (evs & Hc & HF).
  { intros d' m' w1 [= <- <- _] ev Hev. exact Hev. }
  rewrite (new_calls_app _ _ _ Hc). exact HF.
Qed.

(** [Box.retrieve] when the poll does not end with a status. *)
Lemma retrieve_poll_interrupted (rounds : nat) (self : Box.t)
    (source : string) (dst : path) (opts : Opt) (w w1 w2 : world)
    (b : Backend X Opt) (d m : pyval) (o : outcome JobStatus) :
  Box.backend get_backend self w = (Ret b, w) ->
  Box.retrieve_jobs write_error self b source opts w = (Ret (d, m), w1) ->
  Box.retrieve_poll rounds b d m w1 = (o, w2) ->
  (forall st, o <> Ret st) ->
  Box.retrieve get_backend write_error rounds self source dst opts w =
  (match o with
   | Pending => Pending
   | _ => Raise (UnboundLocalError
                   "local variable 'data_path' referenced before assignment")
   end, w2).
Proof.
  intros Hb Hjobs Hpoll Ho.
  unfold Box.retrieve, bind at 1. rewrite Hb.
  unfold Box.retrieve_try, try_finally, try_except, Box.retrieve_body,
    Box.retrieve_fetch, bind, lift. simpl.
  rewrite Hjobs. simpl. rewrite Hpoll. simpl.
  destruct o as [st|e|]; [destruct (Ho st eq_refl)|reflexivity|reflexivity].
Qed.

(** X8. A retrieval that is still waiting can be resumed. When the jobs of
    the source are known and the poll has used up its rounds with the jobs
    still running, [Box.retrieve] is left waiting with the Retrieval Job
    Record of the source holding those two jobs; and a later
    [Box.retrieve] of the source from that world, whatever its number of
    rounds, starts no job and polls and fetches those two. *)
Theorem retrieve_pending_resumes (rounds rounds' : nat) (self : Box.t)
    (source : string) (dst : path) (opts : Opt) (w w1 w2 : world)
    (b : Backend X Opt) (d m : pyval) :
  Box.backend get_backend self w = (Ret b, w) ->
  Box.retrieve_jobs write_error self b source opts w = (Ret (d, m), w1) ->
  Box.retrieve_poll rounds b d m w1 = (Pending, w2) ->
  Box.retrieve get_backend write_error rounds self source dst opts w =
    (Pending, w2) /\
  jobs_dir w2 !! source = Some (d, m) /\
  Forall (resumes d m)
    (new_calls w2
       (snd (Box.retrieve get_backend write_error rounds' self source dst
               opts w2))).
Proof.
  intros Hb Hjobs Hpoll.
  assert (Hj : jobs_dir w2 !! source = Some (d, m)).
  { pose proof (retrieve_poll_records b d m rounds w1) as (_ & _ & Hj2).
    rewrite Hpoll in Hj2. simpl in Hj2. unfold id in Hj2. rewrite Hj2.
    eapply retrieve_jobs_recorded, Hjobs. }
  split; [|split; [exact Hj|]].
  - rewrite (retrieve_poll_interrupted rounds self source dst opts w w1 w2 b
               d m Pending Hb Hjobs Hpoll); [reflexivity|discriminate].
  - apply (retrieve_resumed_logs rounds' self source dst opts w2 b d m);
      [eapply backend_anywhere, Hb|exact Hj].
Qed.

(** X9. A backend error while polling keeps the jobs. When the jobs of the
    source are known and a call of [retrieve_status] raises, the
    Retrieval Job Record of the source still holds those two jobs when
    [Box.retrieve] is left (line 117 is not reached), and the exception
    that leaves it is the [UnboundLocalError] of the [finally] block. *)
Theorem retrieve_poll_error_keeps_jobs (rounds : nat) (self : Box.t)
    (source : string) (dst : path) (opts : Opt) (w w1 w2 : world)
    (b : Backend X Opt) (d m : pyval) (e : exn) :
  Box.backend get_backend self w = (Ret b, w) ->
  Box.retrieve_jobs write_error self b source opts w = (Ret (d, m), w1) ->
  Box.retrieve_poll rounds b d m w1 = (Raise e, w2) ->
  Box.retrieve get_backend write_error rounds self source dst opts w =
    (Raise (UnboundLocalError
              "local variable 'data_path' referenced before assignment"),
     w2) /\
  jobs_dir w2 !! source = Some (d, m).
Proof.
  intros Hb Hjobs Hpoll. split.
  - rewrite (retrieve_poll_interrupted rounds self source dst opts w w1 w2 b
               d m (Raise e) Hb Hjobs Hpoll); [reflexivity|discriminate].
  - pose proof (retrieve_poll_records b d m rounds w1) as (_ & _ & Hj2).
    rewrite Hpoll in Hj2. simpl in Hj2. unfold id in Hj2. rewrite Hj2.
    eapply retrieve_jobs_recorded, Hjobs.
Qed.

Lemma unlink_if_exists_world (p : option path) (w : world) :
  exists w',
    unlink_if_exists p w = (Ret tt, w') /\
    files w' = without p (files w) /\
    same_records w w' /\ calls w' = calls w.
Proof.
  eexists. split; [apply unlink_if_exists_run|].
  pose proof (unlink_if_exists_files p w) as Hf.
  pose proof (unlink_if_exists_frame p w) as (Hr & Hc & _).
  rewrite unlink_if_exists_run in Hf, Hr, Hc. simpl in *.
  split; [|split; assumption].
  rewrite Hf. destruct p; reflexivity.
Qed.

(** The [finally] block of [Box.retrieve] when both variables are bound,
    and when only [data_path] is. *)
Lemma retrieve_finally_bound (p q : option path) (w : world) :
  exists w',
    (unlink_local "data_path" Box.data_path;;
     unlink_local "meta_path" Box.meta_path)
      (Box.Frame (Bound p) (Bound q), w) =
    (Ret tt, (Box.Frame (Bound p) (Bound q), w')) /\
    files w' = without q (without p (files w)) /\
    same_records w w' /\ calls w' = calls w.
Proof.
  destruct (unlink_if_exists_world p w) as (w1 & H1 & F1 & R1 & C1).
  destruct (unlink_if_exists_world q w1) as (w2 & H2 & F2 & R2 & C2).
  exists w2. split.
  - unfold bind, unlink_local, lift. simpl. rewrite H1. simpl.
    rewrite H2. reflexivity.
  - split; [rewrite F2, F1; reflexivity|].
    split; [etransitivity; eassumption|congruence].
Qed.

Lemma retrieve_finally_half_bound (p : option path) (w : world) :
  exists w',
    (unlink_local "data_path" Box.data_path;;
     unlink_local "meta_path" Box.meta_path)
      (Box.Frame (Bound p) Unbound, w) =
    (Raise (UnboundLocalError
              "local variable 'meta_path' referenced before assignment"),
     (Box.Frame (Bound p) Unbound, w')) /\
    files w' = without p (files w) /\
    same_records w w' /\ calls w' = calls w.
Proof.
  destruct (unlink_if_exists_world p w) as (w1 & H1 & F1 & R1 & C1).
  exists w1. split; [|tauto].
  unfold bind, unlink_local, lift. simpl. rewrite H1. reflexivity.
Qed.

Lemma clear_retrieval_jobs_outside (self : Box.t) (source : string)
    (w : world) :
  let w' := snd (Box._clear_retrieval_jobs self source w) in
  ext w' = ext w /\ files w' = files w /\ calls w' = calls w.
Proof.
  cbv zeta. unfold Box._clear_retrieval_jobs.
  case_bool_decide; simpl; repeat split.
Qed.

(** X10. The end of a retrieval whose jobs succeeded. When the jobs of
    the source are known, the poll has ended with [success], both
    downloads have returned the artifacts [p] and [q] and there is a
    GnuPG instance: [Box.retrieve] returns when the decryption returns,
    and raises [Exception('Retrieval operation failed. (e)')] when the
    decryption raises [e]. Either way the Retrieval Job Record is
    cleared, what was called after the poll is the download of the data
    job, that of the meta job and the decryption of [p] and [q] into the
    destination, and the local files are those the decryption left less
    the two artifacts. *)
Theorem retrieve_downloads_and_decrypts (rounds : nat) (self : Box.t)
    (source : string) (dst : path) (opts : Opt) (w w1 w2 : world)
    (b : Backend X Opt) (d m : pyval) (g : GPG X) (p q : option path)
    (x4 x5 x6 : X) (fs4 fs5 fs6 : gset path) (res : result unit) :
  Box.backend get_backend self w = (Ret b, w) ->
  Box.retrieve_jobs write_error self b source opts w = (Ret (d, m), w1) ->
  Box.retrieve_poll rounds b d m w1 = (Ret success, w2) ->
  backend_retrieve_finish b d (ext w2) (files w2) = (Ok p, x4, fs4) ->
  backend_retrieve_finish b m x4 fs4 = (Ok q, x5, fs5) ->
  Box._gpg self = Some g ->
  gpg_decrypt g p q dst x5 fs5 = (res, x6, fs6) ->
  let r := Box.retrieve get_backend write_error rounds self source dst opts w in
  fst r =
    match res with
    | Ok _ => Ret tt
    | Err e =>
        Raise (Exception ("Retrieval operation failed. (" +:+ str e +:+ ")"))
    end /\
  jobs_dir (snd r) !! source = None /\
  new_calls w2 (snd r) =
    [(CRetrieveFinish d, None); (CRetrieveFinish m, None);
     (CDecrypt p q dst, match res with Ok _ => None | Err e => Some e end)] /\
  files (snd r) = without q (without p fs6).
Proof.
  intros Hb Hjobs Hpoll Hd Hm Hg Hdec. cbv zeta.
  destruct (clear_retrieval_jobs_cleared self source w2) as (Hcj & _).
  destruct (clear_retrieval_jobs_outside self source w2) as (Hx & Hf & Hc).
  remember (snd (Box._clear_retrieval_jobs self source w2)) as w3 eqn:E3.
  set (ev := (CDecrypt p q dst,
              match res with Ok _ => None | Err e => Some e end)).
  set (w6 := after_call x6 fs6 ev
               (after_call x5 fs5 (CRetrieveFinish m, None)
                  (after_call x4 fs4 (CRetrieveFinish d, None) w3))).
  set (o := match res with
            | Ok _ => Ret tt
            | Err e =>
                Raise (Exception
                         ("Retrieval operation failed. (" +:+ str e +:+ ")"))
            end).
  destruct (retrieve_finally_bound p q w6) as (w' & Hfin & Hfiles & Hrec & Hcalls).
  assert (Hrun :
    Box.retrieve get_backend write_error rounds self source dst opts w =
    (o, w')).
  { unfold Box.retrieve, bind at 1. rewrite Hb. unfold Box.retrieve_try.
    rewrite (try_finally_run _ _ _ (Box.Frame (Bound p) (Bound q), w6)
               (Box.Frame (Bound p) (Bound q), w') o);
      [reflexivity| |subst o; destruct res; discriminate|exact Hfin].
    unfold try_except.
    rewrite (retrieve_body_after_poll rounds self b source dst opts w w1 w2 d
               m success _ Hjobs Hpoll).
    rewrite <- E3.
    unfold Box.retrieve_download, bind, lift, invoke, Box.set_data_path,
      Box.set_meta_path, Box.gpg, raise, ret. simpl.
    rewrite Hx, Hf, Hd. simpl. rewrite Hm. simpl. rewrite Hg. simpl.
    rewrite Hdec. subst o w6 ev. destruct res as [[]|e]; reflexivity. }
  rewrite Hrun. simpl.
  split; [reflexivity|]. destruct Hrec as (_ & _ & Hj).
  split; [rewrite Hj; exact Hcj|].
  split; [|rewrite Hfiles; reflexivity].
  apply new_calls_app. rewrite Hcalls. subst w6. simpl. rewrite Hc.
  rewrite <- !app_assoc. reflexivity.
Qed.

(** X11. The data artifact does not outlive a failed second download.
    When the jobs of the source are known, the poll has ended with
    [success], the download of the data job has returned [p] and that of
    the meta job raises: [Box.retrieve] has removed [p] from the local
    files, the Retrieval Job Record is cleared, and the exception that
    leaves it is the [UnboundLocalError] for [meta_path] of the [finally]
    block. *)
Theorem retrieve_second_download_fails (rounds : nat) (self : Box.t)
    (source : string) (dst : path) (opts : Opt) (w w1 w2 : world)
    (b : Backend X Opt) (d m : pyval) (p : option path)
    (x4 x5 : X) (fs4 fs5 : gset path) (e : exn) :
  Box.backend get_backend self w = (Ret b, w) ->
  Box.retrieve_jobs write_error self b source opts w = (Ret (d, m), w1) ->
  Box.retrieve_poll rounds b d m w1 = (Ret success, w2) ->
  backend_retrieve_finish b d (ext w2) (files w2) = (Ok p, x4, fs4) ->
  backend_retrieve_finish b m x4 fs4 = (Err e, x5, fs5) ->
  let r := Box.retrieve get_backend write_error rounds self source dst opts w in
  fst r =
    Raise (UnboundLocalError
             "local variable 'meta_path' referenced before assignment") /\
  jobs_dir (snd r) !! source = None /\
  files (snd r) = without p fs5.
Proof.
  intros Hb Hjobs Hpoll Hd Hm. cbv zeta.
  destruct (clear_retrieval_jobs_cleared self source w2) as (Hcj & _).
  destruct (clear_retrieval_jobs_outside self source w2) as (Hx & Hf & Hc).
  remember (snd (Box._clear_retrieval_jobs self source w2)) as w3 eqn:E3.
  set (w5 := after_call x5 fs5 (CRetrieveFinish m, Some e)
               (after_call x4 fs4 (CRetrieveFinish d, None) w3)).
  destruct (retrieve_finally_half_bound p w5)
    as (w' & Hfin & Hfiles & Hrec & Hcalls).
  assert (Hrun :
    Box.retrieve get_backend write_error rounds self source dst opts w =
    (Raise (UnboundLocalError
              "local variable 'meta_path' referenced before assignment"),
     w')).
  { unfold Box.retrieve, bind at 1. rewrite Hb.
    unfold Box.retrieve_try, try_finally, try_except.
    rewrite (retrieve_body_after_poll rounds self b source dst opts w w1 w2 d
               m success _ Hjobs Hpoll).
    rewrite <- E3.
    unfold Box.retrieve_download, bind at 1 2 3 4, lift, invoke,
      Box.set_data_path, raise, ret. simpl.
    rewrite Hx, Hf, Hd. simpl. rewrite Hm. simpl.
    fold w5. rewrite Hfin. reflexivity. }
  rewrite Hrun. simpl. split; [reflexivity|].
  destruct Hrec as (_ & _ & Hj).
  split; [rewrite Hj; exact Hcj|rewrite Hfiles; reflexivity].
Qed.

(** *** The poll loop *)

Lemma retrieve_wait_rounds (b : Backend X Opt) (d m : pyval) (rounds : nat)
    (status : JobStatus) (w : world) :
  let r := Box.retrieve_wait rounds b d m status w in
  exists n,
    n <= rounds /\
    slept (snd r) = slept w + 60 * n /\
    length (calls (snd r)) = length (calls w) + n /\
    (fst r = Pending -> n = rounds) /\
    (forall st, fst r = Ret st -> st <> running).
Proof.
  revert status w. induction rounds as [|rounds IH]; intros status w.
  - exists 0. destruct status; simpl;
      (split; [lia|]; split; [lia|]; split; [lia|]; split;
       [try discriminate; reflexivity|]; intros st [= <-]; discriminate).
  - destruct status; simpl.
    2,3: (exists 0; split; [lia|]; split; [lia|]; split; [lia|]; split;
          [discriminate|]; intros st [= <-]; discriminate).
    unfold bind, sleep, invoke. simpl.
    destruct (backend_retrieve_status b d m (ext w) (files w))
      as [[[st|e] x1] fs1]; simpl.
    + match goal with
      | |- context [Box.retrieve_wait rounds b d m st ?w1] =>
          destruct (IH st w1) as (n & Hn & Hs & Hc & Hp & Hr)
      end.
      exists (S n). simpl in Hs, Hc.
      split; [lia|]. split; [rewrite Hs; lia|].
      split; [rewrite Hc, length_app; simpl; lia|].
      split; [intros H; rewrite (Hp H); reflexivity|exact Hr].
    + exists 1. split; [lia|]. split; [lia|].
      split; [rewrite length_app; simpl; lia|].
      split; discriminate.
Qed.

Lemma retrieve_poll_status_calls (b : Backend X Opt) (d m : pyval)
    (rounds : nat) :
  logs id (fun ev => fst ev = CRetrieveStatus d m)
    (Box.retrieve_poll rounds b d m).
Proof.
  assert (Hw : forall status,
    logs id (fun ev : event Opt => fst ev = CRetrieveStatus d m)
      (Box.retrieve_wait rounds b d m status)).
  { induction rounds as [|rounds IH]; intros [| |]; simpl;
      try (apply steps_ret; exact _).
    - apply logs_silent. reflexivity.
    - apply steps_bind; [exact _|apply logs_silent; reflexivity|]. intros _.
      apply steps_bind; [exact _| |exact IH].
      apply logs_invoke. reflexivity. }
  apply steps_bind; [exact _| |exact Hw].
  apply logs_invoke. reflexivity.
Qed.

(** X12. The poll of lines 112 to 116. The status is asked once, and
    once more after each sleep of 60 seconds, each time for the same two
    jobs: a poll that has slept [n] times has slept [60 * n] seconds and
    made [n + 1] calls, all of them [retrieve_status] on the two jobs.
    The loop is left with a status only when that status is not
    [running], and it is still waiting only when all its rounds are
    used. *)
Theorem retrieve_poll_sleeps (b : Backend X Opt) (d m : pyval) (rounds : nat)
    (w : world) :
  let r := Box.retrieve_poll rounds b d m w in
  exists n,
    n <= rounds /\
    slept (snd r) = slept w + 60 * n /\
    length (new_calls w (snd r)) = S n /\
    Forall (fun ev => fst ev = CRetrieveStatus d m) (new_calls w (snd r)) /\
    (fst r = Pending -> n = rounds) /\
    (forall st, fst r = Ret st -> st <> running).
Proof.
  cbv zeta.
  assert (HF : Forall (fun ev : event Opt => fst ev = CRetrieveStatus d m)
                 (new_calls w (snd (Box.retrieve_poll rounds b d m w)))).
  { destruct (retrieve_poll_status_calls b d m rounds w) as (evs & Hc & HF).
    unfold id in Hc. rewrite (new_calls_app _ _ _ Hc). exact HF. }
  revert HF. unfold new_calls. rewrite length_drop.
  unfold Box.retrieve_poll, bind, invoke.
  destruct (backend_retrieve_status b d m (ext w) (files w))
    as [[[st|e] x1] fs1]; simpl; intros HF.
  - match goal with
    | |- context [Box.retrieve_wait rounds b d m st ?w1] =>
        destruct (retrieve_wait_rounds b d m rounds st w1)
          as (n & Hn & Hs & Hc & Hp & Hr)
    end.
    exists n. simpl in Hs, Hc. split; [exact Hn|]. split; [exact Hs|].
    split; [rewrite Hc, length_app; simpl; lia|].
    split; [exact HF|]. split; assumption.
  - exists 0. split; [lia|]. split; [lia|].
    split; [rewrite length_app; simpl; lia|].
    split; [exact HF|]. split; discriminate.
Qed.

(** *** The calls of a retrieval *)

Lemma retrieve_wait_returned (b : Backend X Opt) (d m : pyval) (rounds : nat)
    (status st : JobStatus) (w w2 : world) :
  Box.retrieve_wait rounds b d m status w = (Ret st, w2) ->
  exists n, calls w2 = calls w ++ repeat (CRetrieveStatus d m, None) n.
Proof.
  revert status w. induction rounds as [|rounds IH]; intros status w.
  - destruct status; simpl; intros [= _ <-];
      exists 0; simpl; rewrite app_nil_r; reflexivity.
  - destruct status; simpl;
      try (intros [= _ <-]; exists 0; simpl; rewrite app_nil_r; reflexivity).
    unfold bind, sleep, invoke. simpl.
    destruct (backend_retrieve_status b d m (ext w) (files w))
      as [[[st'|e] x1] fs1]; simpl; [|discriminate].
    intros Hw. apply IH in Hw as (n & Hn). simpl in Hn.
    exists (S n). rewrite Hn, <- app_assoc. reflexivity.
Qed.

Lemma retrieve_poll_returned (b : Backend X Opt) (d m : pyval) (rounds : nat)
    (st : JobStatus) (w w2 : world) :
  Box.retrieve_poll rounds b d m w = (Ret st, w2) ->
  exists n, calls w2 = calls w ++ repeat (CRetrieveStatus d m, None) (S n).
Proof.
  unfold Box.retrieve_poll, bind, invoke.
  destruct (backend_retrieve_status b d m (ext w) (files w))
    as [[[st'|e] x1] fs1]; simpl; [|discriminate].
  intros Hw. apply retrieve_wait_returned in Hw as (n & Hn). simpl in Hn.
  exists n. rewrite Hn, <- app_assoc. reflexivity.
Qed.

(** The first call of the poll is a status call, on the two jobs. *)
Lemma retrieve_poll_first (b : Backend X Opt) (d m : pyval) (rounds : nat)
    (w : world) :
  exists o evs,
    calls (snd (Box.retrieve_poll rounds b d m w)) =
      calls w ++ (CRetrieveStatus d m, o) :: evs /\
    Forall (resumes d m) evs.
Proof.
  unfold Box.retrieve_poll, bind, invoke.
  destruct (backend_retrieve_status b d m (ext w) (files w))
    as [[[st|e] x1] fs1]; simpl.
  - destruct (retrieve_wait_logs b d m rounds st
                (after_call x1 fs1 (CRetrieveStatus d m, None) w))
      as (evs & Hc & HF).
    unfold id in Hc. simpl in Hc.
    exists None, evs. split; [|exact HF].
    destruct (Box.retrieve_wait rounds b d m st _) as [[?|?|] w2];
      simpl in *; rewrite Hc, <- app_assoc; reflexivity.
  - exists (Some e), []. split; [reflexivity|constructor].
Qed.

(** What [Box.retrieve] calls once the poll has ended with a status. *)
Lemma retrieve_after_poll_logs (rounds : nat) (self : Box.t)
    (source : string) (dst : path) (opts : Opt) (w w1 w2 : world)
    (b : Backend X Opt) (d m : pyval) (st : JobStatus) :
  Box.backend get_backend self w = (Ret b, w) ->
  Box.retrieve_jobs write_error self b source opts w = (Ret (d, m), w1) ->
  Box.retrieve_poll rounds b d m w1 = (Ret st, w2) ->
  extends_with (resumes d m) w2
    (snd (Box.retrieve get_backend write_error rounds self source dst opts
            w)).
Proof.
  intros Hb Hjobs Hpoll. unfold Box.retrieve, bind at 1. rewrite Hb.
  apply retrieve_try_steps; [exact _| |].
  { intros w' fs. apply extends_same. reflexivity. }
  rewrite (retrieve_body_after_poll rounds self b source dst opts w w1 w2 d
             m st _ Hjobs Hpoll).
  etransitivity.
  2:{ apply (retrieve_download_steps (extends_with (resumes d m))).
      - intros w0 x fs r. apply after_call_extends. left. reflexivity.
      - intros w0 x fs r. apply after_call_extends. right. reflexivity.
      - intros p q w0 x fs r. apply after_call_extends. exact I. }
  simpl. apply extends_same.
  apply (clear_retrieval_jobs_outside self source w2).
Qed.

(** A retrieval that returns has fetched the data of the first job, then
    that of the second, and decrypted the two files. *)
Lemma retrieve_returned_calls (rounds : nat) (self : Box.t)
    (source : string) (dst : path) (opts : Opt) (w w1 w2 w' : world)
    (b : Backend X Opt) (d m : pyval) (st : JobStatus) :
  Box.backend get_backend self w = (Ret b, w) ->
  Box.retrieve_jobs write_error self b source opts w = (Ret (d, m), w1) ->
  Box.retrieve_poll rounds b d m w1 = (Ret st, w2) ->
  Box.retrieve get_backend write_error rounds self source dst opts w =
    (Ret tt, w') ->
  exists p q,
    calls w' =
    calls w2 ++ [(CRetrieveFinish d, None); (CRetrieveFinish m, None);
                 (CDecrypt p q dst, None)].
Proof.
  intros Hb Hjobs Hpoll Hrun.
  destruct (clear_retrieval_jobs_outside self source w2) as (Hx & Hf & Hc).
  unfold Box.retrieve, bind at 1 in Hrun. rewrite Hb in Hrun.
  unfold Box.retrieve_try, try_finally, try_except in Hrun.
  rewrite (retrieve_body_after_poll rounds self b source dst opts w w1 w2 d
             m st _ Hjobs Hpoll) in Hrun.
  remember (snd (Box._clear_retrieval_jobs self source w2)) as w3 eqn:E3.
  unfold Box.retrieve_download, bind, lift, invoke, Box.set_data_path,
    Box.set_meta_path, Box.gpg, raise, ret, unlink_local in Hrun.
  destruct st; simpl in Hrun.
  3:{ discriminate. }
  all: destruct (backend_retrieve_finish b d (ext w3) (files w3))
         as [[[p|e] x4] fs4]; simpl in Hrun; [|discriminate].
  all: destruct (backend_retrieve_finish b m x4 fs4)
         as [[[q|e] x5] fs5]; simpl in Hrun.
  all: try (unfold lift in Hrun; simpl in Hrun;
            rewrite unlink_if_exists_run in Hrun; simpl in Hrun;
            discriminate).
  all: destruct (Box._gpg self) as [g|]; simpl in Hrun.
  all: try (unfold lift in Hrun; simpl in Hrun;
            repeat (rewrite unlink_if_exists_run in Hrun; simpl in Hrun);
            discriminate).
  all: destruct (gpg_decrypt g p q dst x5 fs5) as [[[[]|e] x6] fs6];
         simpl in Hrun.
  all: unfold lift in Hrun; simpl in Hrun;
       repeat (rewrite unlink_if_exists_run in Hrun; simpl in Hrun);
       try discriminate.
  all: injection Hrun as <-; exists p, q.
  all: destruct p as [p|], q as [q|]; simpl; repeat case_bool_decide; simpl;
       rewrite Hc, <- !app_assoc; reflexivity.
Qed.

(** C1. Resumability. For a box that has a backend, whatever the number
    of polls. When the source has a Retrieval Job Record [(d, m)], the
    first thing [Box.retrieve] calls is [retrieve_status] on [d] and [m];
    it never calls [retrieve_init], and every status it asks for and
    every file it fetches after that is that of [d] and [m]; and when it
    returns, what it has called is [retrieve_status] on [d] and [m], once
    or more, then [retrieve_finish] on [d], [retrieve_finish] on [m] and
    the decryption. When the source has no Retrieval Job Record,
    [retrieve_init] is called once for the data key and, when that call
    returns, once for the meta key, and never again. *)
Theorem retrieve_resumes_jobs (rounds : nat) (self : Box.t) (source : string)
    (dst : path) (opts : Opt) (w : world) (b : Backend X Opt) :
  Box.backend get_backend self w = (Ret b, w) ->
  let r := Box.retrieve get_backend write_error rounds self source dst opts
             w in
  match jobs_dir w !! source with
  | Some (d, m) =>
      (exists o rest,
         new_calls w (snd r) = (CRetrieveStatus d m, o) :: rest /\
         Forall (resumes d m) rest) /\
      (fst r = Ret tt ->
       exists n p q,
         new_calls w (snd r) =
         repeat (CRetrieveStatus d m, None) (S n) ++
         [(CRetrieveFinish d, None); (CRetrieveFinish m, None);
          (CDecrypt p q dst, None)])
  | None =>
      let keys :=
        default ((None, None) : pyval * pyval) (key_files w !! source) in
      exists rest,
        Forall starts_no_job rest /\
        ((exists e,
            new_calls w (snd r) =
            (CRetrieveInit (fst keys) opts, Some e) :: rest) \/
         (exists o,
            new_calls w (snd r) =
            (CRetrieveInit (fst keys) opts, None)
              :: (CRetrieveInit (snd keys) opts, o) :: rest))
  end.
Proof.
  intros Hb. cbv zeta.
  destruct (jobs_dir w !! source) as [[d m]|] eqn:Hj.
  - pose proof (retrieve_jobs_resumed self b source opts w d m Hj) as Hjobs.
    destruct (retrieve_poll_first b d m rounds w)
      as (o1 & evs & Hfirst & HFevs).
    destruct (Box.retrieve_poll rounds b d m w) as [o w2] eqn:Hpoll.
    simpl in Hfirst.
    destruct o as [st|e|].
    + destruct (retrieve_after_poll_logs rounds self source dst opts w w w2
                  b d m st Hb Hjobs Hpoll) as (tail & Hc & HFt).
      split.
      * exists o1, (evs ++ tail). split.
        -- apply new_calls_app. rewrite Hc, Hfirst, <- app_assoc.
           reflexivity.
        -- apply Forall_app. split; assumption.
      * destruct (Box.retrieve get_backend write_error rounds self source dst
                    opts w) as [o' w'] eqn:Hrun.
        simpl. intros ->.
        destruct (retrieve_poll_returned b d m rounds st w w2 Hpoll)
          as (n & Hn).
        destruct (retrieve_returned_calls rounds self source dst opts w w w2
                    w' b d m st Hb Hjobs Hpoll Hrun) as (p & q & Hcalls).
        exists n, p, q. apply new_calls_app.
        rewrite Hcalls, Hn, <- app_assoc. reflexivity.
    + rewrite (retrieve_poll_interrupted rounds self source dst opts w w w2 b
                 d m (Raise e) Hb Hjobs Hpoll) by discriminate.
      simpl. split; [|discriminate].
      exists o1, evs. split; [apply new_calls_app, Hfirst|exact HFevs].
    + rewrite (retrieve_poll_interrupted rounds self source dst opts w w w2 b
                 d m Pending Hb Hjobs Hpoll) by discriminate.
      simpl. split; [|discriminate].
      exists o1, evs. split; [apply new_calls_app, Hfirst|exact HFevs].
  - unfold Box.retrieve, bind. rewrite Hb.
    pose proof (retrieve_try_after_jobs starts_no_job rounds self b source dst
                  opts w) as H.
    destruct H as (rest & Hc & HF).
    { intros d m w1 _ ev. apply resumes_starts_no_job. }
    exists rest. split; [exact HF|].
    destruct (retrieve_jobs_started self b source opts w Hj)
      as (_ & [(e & Hi)|(o & Hi)]).
    + left. exists e. apply new_calls_app. rewrite Hc, Hi.
      rewrite <- app_assoc. reflexivity.
    + right. exists o. apply new_calls_app. rewrite Hc, Hi.
      rewrite <- app_assoc. reflexivity.
Qed.

(** *** [Box.init] *)

(** What [Box.init] does, by cases. *)
Lemma init_cases (self : Box.t) (w : world) :
  let r := Box.init get_backend write_error self w in
  keys_dir (snd r) = keys_dir w /\
  jobs_dir (snd r) = jobs_dir w /\
  ((exists e,
      fst r = Raise e /\
      (config_file (snd r) = config_file w \/
       init_cut_short write_error e w (snd r))) \/
   (fst r = Ret tt /\ config_file w = None /\
    config_file (snd r) = Some (Box.config self) /\
    new_calls w (snd r) = [(CBoxInit, None)])).
Proof.
  cbv zeta. unfold Box.init, bind, Box.exists_, invoke, Box._save_config,
    raise, ret.
  destruct (config_file w) as [cfg|] eqn:Hc.
  { rewrite bool_decide_eq_true_2 by eauto. simpl.
    split; [reflexivity|]. split; [reflexivity|]. left. eauto. }
  rewrite bool_decide_eq_false_2 by apply is_Some_None. simpl.
  destruct (Box.backend get_backend self w) as [[b|e|] w0] eqn:Hb;
    pose proof (backend_world self w w0 _ Hb) as ->; simpl.
  2:{ split; [reflexivity|]. split; [reflexivity|]. left. eauto. }
  2:{ exfalso. clear -Hb. unfold Box.backend in Hb.
      destruct (Box.config self !! "backend") as [kind|];
        [destruct (get_backend kind (Box.config self))|]; discriminate. }
  destruct (backend_box_init b (ext w) (files w)) as [[[[]|e] x1] fs1]; simpl.
  2:{ split; [reflexivity|]. split; [reflexivity|]. left. eauto. }
  destruct (write_error "" "config.yml" x1) as [[e stage]|] eqn:W; simpl.
  { split; [reflexivity|]. split; [reflexivity|]. left.
    exists e. split; [reflexivity|].
    destruct stage; simpl; [left; congruence|left; congruence|].
    right. split; [apply new_calls_app; reflexivity|].
    split; [exact W|eauto]. }
  split; [reflexivity|]. split; [reflexivity|]. right.
  split; [reflexivity|]. split; [reflexivity|]. split; [reflexivity|].
  apply new_calls_app. reflexivity.
Qed.

(** X14. [Box.init] writes the configuration last. It changes no
    Retrieval Key or Job Record. When it returns there was no
    configuration file, the one written is the configuration of the box,
    and the one call made is [box_init], which returned. When it raises
    [e], the configuration file is as it was (a box that exists, no
    backend, [box_init] raising, the file refused), unless [box_init] had
    returned and the writing of [config.yml] raised [e] after the file
    was opened: then the file is there. *)
Theorem init_writes_config_last (self : Box.t) (w : world) :
  let r := Box.init get_backend write_error self w in
  keys_dir (snd r) = keys_dir w /\
  jobs_dir (snd r) = jobs_dir w /\
  match fst r with
  | Ret _ =>
      config_file w = None /\
      config_file (snd r) = Some (Box.config self) /\
      new_calls w (snd r) = [(CBoxInit, None)]
  | Raise e =>
      config_file (snd r) = config_file w \/
      (new_calls w (snd r) = [(CBoxInit, None)] /\
       write_error "" "config.yml" (ext (snd r)) = Some (e, at_dump) /\
       is_Some (config_file (snd r)))
  | Pending => False
  end.
Proof.
  pose proof (init_cases self w) as (Hk & Hj & H). cbv zeta in *.
  split; [exact Hk|]. split; [exact Hj|].
  destruct H as [(e & -> & Hc)|(-> & H)]; assumption.
Qed.

(** X15. A box is initialised once, and its configuration is read back.
    When [Box.init] has returned, a [Box] object made afterwards for that
    path holds the configuration that was written, [Box.exists] answers
    [True] for it, and [Box.init] of any box object on that world raises
    [Exception('Box already initialized.')] without calling a backend or
    writing anything. *)
Theorem init_once (self self' : Box.t) (base_path : path) (box_name : string)
    (w w1 : world) :
  Box.init get_backend write_error self w = (Ret tt, w1) ->
  Box.get_box base_path box_name w1 =
    (Ret {| Box.config := Box.config self; Box._gpg := None |}, w1) /\
  Box.exists_ self' w1 = (Ret true, w1) /\
  Box.init get_backend write_error self' w1 =
    (Raise (Exception "Box already initialized."), w1).
Proof.
  intros Hi. pose proof (init_cases self w) as (_ & _ & H).
  cbv zeta in H. rewrite Hi in H. simpl in H.
  destruct H as [(e & He & _)|(_ & _ & Hc & _)]; [discriminate|].
  unfold Box.get_box, Box.init, bind, Box.exists_. rewrite Hc. simpl.
  repeat split.
Qed.

(** *** The commands [init folder] and [init glacier] *)

Section InitCommands.

Variable valid_key_id : path -> string -> cap X bool.

(** The [try] statement of the subcommands, by cases of [Box.init]. *)
Lemma init_box_cases (box : Box.t) (w : world) :
  let r := Cli.init_box get_backend write_error box w in
  keys_dir (snd r) = keys_dir w /\
  jobs_dir (snd r) = jobs_dir w /\
  ((exists e w1,
      Box.init get_backend write_error box w = (Raise e, w1) /\
      fst r = Raise (Exit 1) /\
      (config_file (snd r) = config_file w \/
       init_cut_short write_error e w (snd r)) /\
      echoed (snd r) =
        echoed w1 ++ ["Box initialization failed. (" +:+ str e +:+ ")"]) \/
   (fst r = Ret tt /\ config_file w = None /\
    config_file (snd r) = Some (Box.config box) /\
    new_calls w (snd r) = [(CBoxInit, None)] /\
    echoed (snd r) = echoed w)).
Proof.
  pose proof (init_cases box w) as (Hk & Hj & H). cbv zeta in *.
  unfold Cli.init_box, try_except.
  destruct (Box.init get_backend write_error box w) as [o w1] eqn:Hi.
  simpl in *.
  destruct H as [(e & -> & Hc)|(-> & Hn & Hc & Hcalls)].
  - simpl. split; [exact Hk|]. split; [exact Hj|]. left.
    exists e, w1. split; [reflexivity|]. split; [reflexivity|].
    split; [exact Hc|reflexivity].
  - split; [exact Hk|]. split; [exact Hj|]. right.
    split; [reflexivity|]. split; [exact Hn|]. split; [exact Hc|].
    split; [exact Hcalls|].
    clear -Hi. unfold Box.init, bind, Box.exists_, invoke, Box._save_config,
      raise, ret in Hi.
    destruct (bool_decide (is_Some (config_file w))); [discriminate|].
    destruct (Box.backend get_backend box w) as [[b|e|] w0] eqn:Hb;
      try discriminate.
    pose proof (backend_world box w w0 _ Hb) as ->.
    destruct (backend_box_init b (ext w) (files w)) as [[[[]|e] x1] fs1];
      simpl in Hi; [|discriminate].
    destruct (write_error "" "config.yml" x1) as [[e' st]|]; simpl in Hi;
      [discriminate|].
    injection Hi as <-. reflexivity.
Qed.

(** The group [init], by cases. *)
Lemma init_group_cases (base_path : path) (box_name key_id : string)
    (w : world) :
  let r := Cli.init valid_key_id base_path box_name key_id w in
  same_records w (snd r) /\ calls (snd r) = calls w /\
  match fst r with
  | Ret box =>
      config_file w = None /\
      box = {| Box.config := <["key-id" := key_id]> ∅; Box._gpg := None |} /\
      echoed (snd r) = echoed w
  | Raise _ => True
  | Pending => False
  end.
Proof.
  cbv zeta. unfold Cli.init, bind, Box.get_box, Box.exists_, Cli.consult,
    echo, Cli.ctx_exit, raise, ret.
  destruct (config_file w) as [cfg|] eqn:Hc.
  { rewrite bool_decide_eq_true_2 by eauto. unfold same_records. simpl.
    rewrite ?Hc. repeat split. }
  rewrite bool_decide_eq_false_2 by apply is_Some_None. simpl.
  destruct (valid_key_id (base_path ++ ["GPG"]) key_id (ext w) (files w))
    as [[[[|]|e] x1] fs1]; unfold same_records; simpl; rewrite ?Hc;
    repeat split.
Qed.

(** The log that a computation adds to is read from any world with the
    same log. *)
Lemma new_calls_from (w0 w w' : world) :
  calls w0 = calls w -> new_calls w0 w' = new_calls w w'.
Proof. unfold new_calls. intros ->. reflexivity. Qed.

(** X16. What [init folder] and [init glacier] write. For every world
    and every argument the Retrieval Key and Job Records are as they
    were. When the command returns, there was no configuration file
    before and the one written holds the key id, the backend kind and its
    parameter, and nothing else. When it leaves otherwise, the
    configuration file is as it was, unless [box_init] had returned and
    the writing of [config.yml] raised after the file was opened: then
    the file is there. *)
Theorem cli_init_writes_config (base_path : path)
    (box_name key_id param : string) (w : world) :
  (let r := Cli.init_folder get_backend write_error valid_key_id base_path
              box_name key_id param w in
   keys_dir (snd r) = keys_dir w /\ jobs_dir (snd r) = jobs_dir w /\
   match fst r with
   | Ret _ =>
       config_file w = None /\
       config_file (snd r) =
         Some (Cli.new_config key_id "folder" "folder-path" param)
   | Raise _ =>
       config_file (snd r) = config_file w \/
       exists e, init_cut_short write_error e w (snd r)
   | Pending => False
   end) /\
  (let r := Cli.init_glacier get_backend write_error valid_key_id base_path
              box_name key_id param w in
   keys_dir (snd r) = keys_dir w /\ jobs_dir (snd r) = jobs_dir w /\
   match fst r with
   | Ret _ =>
       config_file w = None /\
       config_file (snd r) =
         Some (Cli.new_config key_id "glacier" "vault-arn" param)
   | Raise _ =>
       config_file (snd r) = config_file w \/
       exists e, init_cut_short write_error e w (snd r)
   | Pending => False
   end).
Proof.
  assert (H : forall kind pname,
    let r :=
      (box <- Cli.init valid_key_id base_path box_name key_id;;
       Cli.init_box get_backend write_error
         (Box.set_config pname param (Box.set_config "backend" kind box))) w
    in
    keys_dir (snd r) = keys_dir w /\ jobs_dir (snd r) = jobs_dir w /\
    match fst r with
    | Ret _ =>
        config_file w = None /\
        config_file (snd r) = Some (Cli.new_config key_id kind pname param)
    | Raise _ =>
        config_file (snd r) = config_file w \/
        exists e, init_cut_short write_error e w (snd r)
    | Pending => False
    end).
  { intros kind pname. cbv zeta. unfold bind.
    pose proof (init_group_cases base_path box_name key_id w)
      as ((Hc & Hk & Hj) & Hcalls & H).
    cbv zeta in *.
    destruct (Cli.init valid_key_id base_path box_name key_id w)
      as [[box|e|] w1]; simpl in *; [|tauto|tauto].
    destruct H as (Hn & -> & _).
    pose proof (init_box_cases
                  (Box.set_config pname param
                     (Box.set_config "backend" kind
                        {| Box.config := <["key-id" := key_id]> ∅;
                           Box._gpg := None |})) w1) as (Hk' & Hj' & H).
    cbv zeta in H, Hk', Hj'.
    split; [congruence|]. split; [congruence|].
    destruct H as [(e & w2 & _ & -> & [Hc'|Hcut] & _)|(-> & _ & Hc' & _)].
    - left. congruence.
    - right. exists e. destruct Hcut as (Hn' & Hw & Hs).
      split; [|split; assumption].
      rewrite <- Hn'. apply new_calls_from. symmetry. exact Hcalls.
    - split; [exact Hn|]. rewrite Hc'. reflexivity. }
  split; [apply (H "folder" "folder-path")|apply (H "glacier" "vault-arn")].
Qed.

(** X17. [init] of a box that exists. Both subcommands print 'Box already
    exists.' and exit with status 1; the key id is not checked, no
    backend is called, nothing is written. *)
Theorem cli_init_existing_box (base_path : path)
    (box_name key_id param : string) (w : world) :
  is_Some (config_file w) ->
  let w' := World (config_file w) (keys_dir w) (jobs_dir w) (files w) (ext w)
                  (calls w) (slept w) (echoed w ++ ["Box already exists."]) in
  Cli.init_folder get_backend write_error valid_key_id base_path box_name
    key_id param w = (Raise (Exit 1), w') /\
  Cli.init_glacier get_backend write_error valid_key_id base_path box_name
    key_id param w = (Raise (Exit 1), w').
Proof.
  intros Hc. cbv zeta.
  unfold Cli.init_folder, Cli.init_glacier, Cli.init, bind, Box.get_box,
    Box.exists_, echo, Cli.ctx_exit, raise, ret.
  rewrite (bool_decide_eq_true_2 _ Hc). split; reflexivity.
Qed.

(** X18. [init] with a key id that GnuPG does not know. For a box that
    does not exist yet, both subcommands print 'Invalid key ID.' and exit
    with status 1; no backend is called and no configuration is
    written. *)
Theorem cli_init_invalid_key (base_path : path)
    (box_name key_id param : string) (w : world) (x1 : X) (fs1 : gset path) :
  config_file w = None ->
  valid_key_id (base_path ++ ["GPG"]) key_id (ext w) (files w) =
    (Ok false, x1, fs1) ->
  let w' := World None (keys_dir w) (jobs_dir w) fs1 x1 (calls w) (slept w)
                  (echoed w ++ ["Invalid key ID."]) in
  Cli.init_folder get_backend write_error valid_key_id base_path box_name
    key_id param w = (Raise (Exit 1), w') /\
  Cli.init_glacier get_backend write_error valid_key_id base_path box_name
    key_id param w = (Raise (Exit 1), w').
Proof.
  intros Hc Hv. cbv zeta.
  unfold Cli.init_folder, Cli.init_glacier, Cli.init, bind, Box.get_box,
    Box.exists_, Cli.consult, echo, Cli.ctx_exit, raise, ret.
  rewrite bool_decide_eq_false_2 by (rewrite Hc; apply is_Some_None).
  rewrite Hv. simpl. rewrite Hc. split; reflexivity.
Qed.

(** The subcommands once the group has let them through. *)
Lemma init_commands_run (base_path : path) (box_name key_id param : string)
    (w : world) (x1 : X) (fs1 : gset path) :
  config_file w = None ->
  valid_key_id (base_path ++ ["GPG"]) key_id (ext w) (files w) =
    (Ok true, x1, fs1) ->
  Cli.init_folder get_backend write_error valid_key_id base_path box_name
    key_id param w =
  Cli.init_box get_backend write_error
    {| Box.config := Cli.new_config key_id "folder" "folder-path" param;
       Box._gpg := None |}
    (set_files fs1 (set_ext x1 w)) /\
  Cli.init_glacier get_backend write_error valid_key_id base_path box_name
    key_id param w =
  Cli.init_box get_backend write_error
    {| Box.config := Cli.new_config key_id "glacier" "vault-arn" param;
       Box._gpg := None |}
    (set_files fs1 (set_ext x1 w)).
Proof.
  intros Hc Hv.
  unfold Cli.init_folder, Cli.init_glacier, Cli.init, bind, Box.get_box,
    Box.exists_, Cli.consult, echo, Cli.ctx_exit, raise, ret.
  rewrite bool_decide_eq_false_2 by (rewrite Hc; apply is_Some_None).
  rewrite Hv. simpl. rewrite Hc. split; reflexivity.
Qed.

(** X19. A failed initialisation is reported. When the box does not
    exist yet, the key id is valid and [Box.init] of the new box raises
    [e], [init folder] prints 'Box initialization failed. (e)' and exits
    with status 1. There is then still no configuration file (no backend
    for the kind, [box_init] raising, the file refused), unless
    [box_init] had returned and the writing of [config.yml] raised after
    the file was opened: then the file is there. *)
Theorem cli_init_failure_reported (base_path : path)
    (box_name key_id param : string) (w w2 : world) (x1 : X)
    (fs1 : gset path) (e : exn) :
  config_file w = None ->
  valid_key_id (base_path ++ ["GPG"]) key_id (ext w) (files w) =
    (Ok true, x1, fs1) ->
  Box.init get_backend write_error
    {| Box.config := Cli.new_config key_id "folder" "folder-path" param;
       Box._gpg := None |}
    (set_files fs1 (set_ext x1 w)) = (Raise e, w2) ->
  let r := Cli.init_folder get_backend write_error valid_key_id base_path
             box_name key_id param w in
  fst r = Raise (Exit 1) /\
  echoed (snd r) =
    echoed w2 ++ ["Box initialization failed. (" +:+ str e +:+ ")"] /\
  (config_file (snd r) = None \/
   (new_calls w (snd r) = [(CBoxInit, None)] /\
    write_error "" "config.yml" (ext (snd r)) = Some (e, at_dump) /\
    is_Some (config_file (snd r)))).
Proof.
  intros Hc Hv Hi. cbv zeta.
  destruct (init_commands_run base_path box_name key_id param w x1 fs1 Hc Hv)
    as [-> _].
  pose proof (init_box_cases
                {| Box.config :=
                     Cli.new_config key_id "folder" "folder-path" param;
                   Box._gpg := None |} (set_files fs1 (set_ext x1 w)))
    as (_ & _ & H).
  cbv zeta in H.
  destruct H as [(e' & w2' & Hi' & Ho & Hcf & He)|(Ho & _ & Hcf & _)].
  - rewrite Hi in Hi'. injection Hi' as <- <-.
    split; [exact Ho|]. split; [exact He|].
    destruct Hcf as [Hcf|(Hn & Hw & Hs)].
    + left. rewrite Hcf. exact Hc.
    + right. split; [|split; assumption].
      rewrite <- Hn. apply new_calls_from. reflexivity.
  - exfalso. clear -Ho Hi. unfold Cli.init_box, try_except in Ho.
    rewrite Hi in Ho. discriminate.
Qed.

(** X20. A box that has been initialised is found again. When the box
    does not exist yet, the key id is valid and [Box.init] of the new box
    returns, [init folder] returns without printing; a [Box] object made
    afterwards holds the configuration that was written, its key is the
    key id given on the command line, its backend kind is [folder] and
    its folder path the one given. *)
Theorem cli_init_folder_then_get_box (base_path : path)
    (box_name key_id param : string) (w w2 : world) (x1 : X)
    (fs1 : gset path) :
  config_file w = None ->
  valid_key_id (base_path ++ ["GPG"]) key_id (ext w) (files w) =
    (Ok true, x1, fs1) ->
  Box.init get_backend write_error
    {| Box.config := Cli.new_config key_id "folder" "folder-path" param;
       Box._gpg := None |}
    (set_files fs1 (set_ext x1 w)) = (Ret tt, w2) ->
  Cli.init_folder get_backend write_error valid_key_id base_path box_name
    key_id param w = (Ret tt, w2) /\
  echoed w2 = echoed w /\
  exists box,
    Box.get_box base_path box_name w2 = (Ret box, w2) /\
    Box.key box w2 = (Ret key_id, w2) /\
    Box.config box !! "backend" = Some "folder" /\
    Box.config box !! "folder-path" = Some param.
Proof.
  intros Hc Hv Hi.
  destruct (init_commands_run base_path box_name key_id param w x1 fs1 Hc Hv)
    as [-> _].
  pose proof (init_box_cases
                {| Box.config :=
                     Cli.new_config key_id "folder" "folder-path" param;
                   Box._gpg := None |} (set_files fs1 (set_ext x1 w)))
    as (_ & _ & H).
  cbv zeta in H.
  assert (Hrun : Cli.init_box get_backend write_error
            {| Box.config :=
                 Cli.new_config key_id "folder" "folder-path" param;
               Box._gpg := None |} (set_files fs1 (set_ext x1 w)) =
          (Ret tt, w2)).
  { unfold Cli.init_box, try_except. rewrite Hi. reflexivity. }
  rewrite Hrun in H. simpl in H.
  destruct H as [(e' & w2' & _ & Ho & _)|(_ & _ & Hcf & _ & He)];
    [discriminate|].
  split; [exact Hrun|]. split; [exact He|].
  eexists. split; [unfold Box.get_box; rewrite Hcf; reflexivity|].
  unfold Box.key, Cli.new_config. simpl.
  rewrite !lookup_insert_eq.
  repeat (rewrite lookup_insert_ne by discriminate).
  rewrite !lookup_insert_eq. repeat split.
Qed.

End InitCommands.

(** *** Every run of [put] and [get] *)

Section PutGet.

Variable new_gpg : path -> GPG X.

(** The [try] statement of [put], however it goes. *)
Lemma put_try_cases (box : Box.t) (gpg : GPG X) (src : path) (name : string)
    (w : world) :
  let r := Cli.put_try get_backend uuid4 write_error box gpg src name w in
  fst r = Raise (Exit 1) /\
  same_records w (snd r) /\
  (exists line, echoed (snd r) = echoed w ++ [line]) /\
  (new_calls w (snd r) = [] \/
   exists k o, new_calls w (snd r) = [(CEncrypt src k, o)]).
Proof.
  cbv zeta.
  destruct (Box.config box !! "key-id") as [k|] eqn:Hk.
  2:{ unfold Cli.put_try, try_finally, try_except, bind, lift, Box.key,
        echo, Cli.ctx_exit, raise, unlink_local. simpl. rewrite Hk. simpl.
      split; [reflexivity|]. split; [repeat split|].
      split; [eauto|]. left. apply new_calls_app. simpl.
      rewrite app_nil_r. reflexivity. }
  destruct (gpg_encrypt gpg src k (ext w) (files w)) as [[[[dp mp]|e] x1] fs1]
    eqn:He.
  - destruct (put_try_run box gpg src name w k dp mp x1 fs1 Hk He)
      as (w' & -> & Hecho & Hcalls & Hrec & _).
    simpl. split; [reflexivity|]. split; [exact Hrec|].
    split; [eauto|]. right. eexists _, _. apply new_calls_app. exact Hcalls.
  - unfold Cli.put_try, try_finally, try_except, bind, lift, Box.key, invoke,
      echo, Cli.ctx_exit, raise, unlink_local. simpl. rewrite Hk. simpl.
    rewrite He. simpl.
    split; [reflexivity|]. split; [repeat split|].
    split; [eauto|]. right. eexists _, _. apply new_calls_app. reflexivity.
Qed.

(** X21. [put] never stores anything. Whatever the world and its
    arguments, the command prints one line and exits with status 1; it
    calls no backend (at most the encryption), and no record of the box
    has changed. For a box that does not exist the line is 'Box not
    found.' and nothing is called. *)
Theorem put_always_exits (base_path : path) (box_name : string)
    (source : path) (w : world) :
  let r := Cli.put get_backend uuid4 write_error new_gpg base_path box_name
             source w in
  fst r = Raise (Exit 1) /\
  same_records w (snd r) /\
  (exists line, echoed (snd r) = echoed w ++ [line]) /\
  (new_calls w (snd r) = [] \/
   exists k o, new_calls w (snd r) = [(CEncrypt source k, o)]) /\
  (config_file w = None ->
   echoed (snd r) = echoed w ++ ["Box not found."] /\
   new_calls w (snd r) = []).
Proof.
  cbv zeta.
  unfold Cli.put, bind, Box.get_box, Box.exists_, Box.contains, echo,
    Cli.ctx_exit, raise, ret.
  destruct (config_file w) as [cfg|] eqn:Hc.
  2:{ rewrite bool_decide_eq_false_2 by apply is_Some_None. simpl.
      unfold same_records. simpl. rewrite ?Hc.
      split; [reflexivity|]. split; [repeat split|].
      split; [eauto|].
      assert (Hnil : forall w' : world, calls w' = calls w ->
                new_calls w w' = []).
      { intros w' H. apply new_calls_app. rewrite H, app_nil_r. reflexivity. }
      split; [left; apply Hnil; reflexivity|].
      intros _. split; [reflexivity|apply Hnil; reflexivity]. }
  rewrite bool_decide_eq_true_2 by eauto. simpl.
  destruct (Box.key_file_exists (path_name source) w) eqn:Hk; simpl.
  { unfold same_records. simpl. rewrite ?Hc.
    split; [reflexivity|]. split; [repeat split|].
    split; [eauto|]. split; [|discriminate].
    left. apply new_calls_app. simpl. rewrite app_nil_r. reflexivity. }
  pose proof (put_try_cases {| Box.config := cfg; Box._gpg := None |}
                (new_gpg (base_path ++ ["GPG"])) source (path_name source) w)
    as (H1 & H2 & H3 & H4).
  cbv zeta in *.
  split; [exact H1|]. split; [exact H2|]. split; [exact H3|].
  split; [exact H4|]. discriminate.
Qed.

(** X22. [get] never retrieves anything. Whatever the world, for a
    source of one component or none (no separator, not too long) the
    command prints one line and exits with status 1, and nothing else has
    happened: no collaborator is called, no record or file has changed.
    The line is 'Box not found.' for a box that does not exist. For a box
    that exists it is the message of the [TypeError] of line 142 when
    line 134 finds something at the source: a Retrieval Key Record of
    that name, or, for the sources [''], ['.'] and ['..'], the directory
    [retrieval-keys]; and 'Source name not found in box.' otherwise. *)
Theorem get_always_exits (rounds : nat) (base_path : path)
    (box_name source : string) (destination : path) (w : world) :
  has_sep source = false ->
  String.length source <= NAME_MAX ->
  exists msg,
    (forall (box : Box.t) (w1 : world),
       Box.call_retrieve get_backend write_error rounds box
         [Box.VStr source] w1 = (Raise (TypeError msg), w1)) /\
    Cli.get get_backend write_error new_gpg rounds base_path box_name source
      destination w =
    (Raise (Exit 1),
     World (config_file w) (keys_dir w) (jobs_dir w) (files w) (ext w)
           (calls w) (slept w)
           (echoed w ++
            [if bool_decide (is_Some (config_file w))
             then if (if dots source
                      then bool_decide (is_Some (keys_dir w))
                      else bool_decide (is_Some (key_files w !! source)))
                  then msg
                  else "Source name not found in box."
             else "Box not found."])).
Proof.
  intros Hs Hl. eexists. split; [intros box w1; reflexivity|].
  rewrite <- (key_file_exists_single source w Hs Hl).
  unfold Cli.get, bind, Box.get_box, Box.exists_, Box.contains, echo,
    Cli.ctx_exit, raise, ret.
  case_bool_decide as Hc; simpl; [|reflexivity].
  destruct (Box.key_file_exists source w); simpl; reflexivity.
Qed.

End PutGet.

(** *** [Box.contains] and [Box.sources] *)

(** X23. [Box.contains] and [Box.sources] agree on names. When the
    listing of the directory gives every record file once, a string that
    can name a file (one component, not ['.'] or ['..']) is contained in
    the box exactly when the list of sources has an entry for it. *)
Theorem contains_iff_listed (str_lower : string -> string)
    (iterdir : gset string -> list string) (self : Box.t) (source : string)
    (w : world) :
  (forall s, Permutation (iterdir s) (elements s)) ->
  plain source = true ->
  exists l,
    Box.sources str_lower iterdir self w = (Ret l, w) /\
    (Box.contains self source w = (Ret true, w) <->
     In {| Box.name := source |} l).
Proof.
  intros Hdir Hp. unfold Box.contains.
  rewrite (key_file_exists_plain _ _ Hp).
  unfold Box.sources, key_files.
  destruct (keys_dir w) as [d|]; simpl.
  - eexists. split; [reflexivity|].
    split.
    + intros [= Hb]. apply bool_decide_eq_true_1 in Hb.
      apply (Permutation_in _ (Permutation_sym (sort_by_key_perm _ _))).
      apply in_map_iff. exists source. split; [reflexivity|].
      apply (Permutation_in _ (Permutation_sym (Hdir (dom d)))).
      apply list_elem_of_In, elem_of_elements, elem_of_dom. exact Hb.
    + intros Hin.
      apply (Permutation_in _ (sort_by_key_perm _ _)) in Hin.
      apply in_map_iff in Hin as (n & [= ->] & Hin).
      apply (Permutation_in _ (Hdir (dom d))) in Hin.
      apply list_elem_of_In, elem_of_elements, elem_of_dom in Hin.
      rewrite (bool_decide_eq_true_2 _ Hin). reflexivity.
  - exists []. split; [reflexivity|]. split.
    + intros H. rewrite ?lookup_empty in H.
      rewrite ?bool_decide_eq_false_2 in H by apply is_Some_None.
      discriminate.
    + intros [].
Qed.

(** X24. The list of sources does not depend on the order of the
    directory. When no two stored names are lower-cased by [str.lower]
    to the same string, any two listings of the directory that give
    every record file once lead [Box.sources] to the same list. *)
Theorem sources_order_independent (str_lower : string -> string)
    (iterdir1 iterdir2 : gset string -> list string)
    (self : Box.t) (w : world) :
  (forall s, Permutation (iterdir1 s) (elements s)) ->
  (forall s, Permutation (iterdir2 s) (elements s)) ->
  (forall a b, is_Some (key_files w !! a) -> is_Some (key_files w !! b) ->
     str_lower a = str_lower b -> a = b) ->
  Box.sources str_lower iterdir1 self w =
  Box.sources str_lower iterdir2 self w.
Proof.
  intros H1 H2 Hinj. unfold Box.sources, key_files in *.
  destruct (keys_dir w) as [d|]; simpl in *; [|reflexivity].
  f_equal. f_equal.
  apply (sorted_perm_unique (fun s => str_lower (Box.name s))).
  - intros [a] [b] Ha Hb Hl. simpl in Hl. f_equal.
    apply (Permutation_in _ (sort_by_key_perm _ _)) in Ha, Hb.
    apply in_map_iff in Ha as (a' & [= ->] & Ha).
    apply in_map_iff in Hb as (b' & [= ->] & Hb).
    apply (Permutation_in _ (H1 (dom d))) in Ha, Hb.
    apply list_elem_of_In, elem_of_elements, elem_of_dom in Ha, Hb.
    apply Hinj; assumption.
  - apply sort_by_key_sorted.
  - apply sort_by_key_sorted.
  - rewrite !sort_by_key_perm. apply Permutation_map.
    rewrite H1, H2. reflexivity.
Qed.

End Claims.

(** * The theorems at work, on the mock *)

(** A retrieval of [a.txt] that finds its Retrieval Job Record: it polls
    the two jobs of the record, fetches them and decrypts, and starts
    none. *)
Lemma retrieve_resumes_jobs_witness :
  let w := Mock.box_retrieving_a [running; success] in
  let r := Mock.retrieve 2 Mock.box "a.txt" ["out"] tt w in
  Box.backend (Mock.get_backend [] []) Mock.box w =
    (Ret (Mock.backend [] []), w) /\
  fst r = Ret tt /\
  (exists o rest,
     new_calls w (snd r) =
       (CRetrieveStatus (Some "job-d") (Some "job-m"), o) :: rest /\
     Forall (resumes (Some "job-d") (Some "job-m")) rest) /\
  (fst r = Ret tt ->
   exists n p q,
     new_calls w (snd r) =
     (repeat (CRetrieveStatus (Some "job-d") (Some "job-m"), None) (S n) ++
      [(CRetrieveFinish (Some "job-d"), None);
       (CRetrieveFinish (Some "job-m"), None);
       (CDecrypt p q ["out"], None)])%list).
Proof.
  cbv zeta. split; [reflexivity|]. split; [vm_compute; reflexivity|].
  exact (retrieve_resumes_jobs (Mock.get_backend [] []) Mock.write_error 2
           Mock.box "a.txt" ["out"] tt
           (Mock.box_retrieving_a [running; success]) (Mock.backend [] [])
           eq_refl).
Defined.

(** A retrieval of [a.txt] whose jobs fail at the second poll. *)
Lemma retrieve_failed_job_unbound_local_witness :
  Box.backend (Mock.get_backend [] []) Mock.box
    (Mock.box_with_a [running; failure]) =
  (Ret (Mock.backend [] []), Mock.box_with_a [running; failure]) /\
  let r := Mock.retrieve 3 Mock.box "a.txt" ["out"] tt
             (Mock.box_with_a [running; failure]) in
  jobs_dir (snd r) !! "a.txt" = None /\
  keys_dir (snd r) = keys_dir (Mock.box_with_a [running; failure]) /\
  fst r =
    Raise (UnboundLocalError
             "local variable 'data_path' referenced before assignment").
Proof.
  split; [reflexivity|].
  edestruct (retrieve_failed_job_unbound_local (Mock.get_backend [] [])
               Mock.write_error 3 Mock.box "a.txt" ["out"] tt
               (Mock.box_with_a [running; failure]))
    as (H1 & H2 & H3);
    [reflexivity|vm_compute; reflexivity|vm_compute; reflexivity|].
  split; [exact H1|]. split; [exact H2|]. apply H3. reflexivity.
Defined.

(** [put] of a new file and [get] of a stored one, in a box that exists. *)
Lemma cli_put_get_argument_mismatch_witness :
  config_file (Mock.box_with_a []) = Some Mock.config /\
  (let r := Mock.put ["base"] "box" ["home"; "b.txt"] (Mock.box_with_a []) in
   fst r = Raise (Exit 1) /\
   echoed (snd r) =
     ["store() takes 2 positional arguments but 4 were given"] /\
   new_calls (Mock.box_with_a []) (snd r) =
     [(CEncrypt ["home"; "b.txt"] "ABCD1234", None)]) /\
  (let r := Mock.get 1 ["base"] "box" "a.txt" ["out"] (Mock.box_with_a []) in
   fst r = Raise (Exit 1) /\
   new_calls (Mock.box_with_a []) (snd r) = []).
Proof.
  split; [reflexivity|].
  destruct (cli_put_get_argument_mismatch (Mock.get_backend [] []) Mock.uuid4
              Mock.write_error Mock.new_gpg 1 ["base"] "box"
              (Mock.box_with_a []) Mock.config eq_refl)
    as (_ & _ & Hput & Hget).
  split.
  - destruct (Hput ["home"; "b.txt"] "ABCD1234"
                (Some ["tmp"; "b.txt.data"]) (Some ["tmp"; "b.txt.meta"])
                [] ({[ ["tmp"; "b.txt.data"] ]} ∪ ({[ ["tmp"; "b.txt.meta"] ]} ∪ ∅))
                eq_refl eq_refl eq_refl) as (H1 & H2 & H3 & _).
    repeat split; assumption.
  - destruct (Hget "a.txt" ["out"]) as (H1 & _ & H3 & _).
    + vm_compute. eauto.
    + split; assumption.
Defined.

(** Storing [a.txt] with a box whose configuration has a key id and no
    backend: the call raises and both artifacts are still there. *)
Lemma store_cleanup_needs_backend_witness :
  Box._gpg Mock.box_no_backend = Some Mock.gpg /\
  Box.config Mock.box_no_backend !! "key-id" = Some "ABCD1234" /\
  Box.backend (Mock.get_backend [] []) Mock.box_no_backend Mock.empty_box =
    (Raise (KeyError "'backend'"), Mock.empty_box) /\
  let r := Mock.store [] Mock.box_no_backend ["home"; "a.txt"]
             Mock.empty_box in
  fst r = Raise (KeyError "'backend'") /\
  ["tmp"; "a.txt.data"] ∈ files (snd r) /\
  ["tmp"; "a.txt.meta"] ∈ files (snd r).
Proof.
  split; [reflexivity|]. split; [reflexivity|]. split; [reflexivity|].
  destruct (store_cleanup_needs_backend (Mock.get_backend [] []) Mock.uuid4
              Mock.write_error Mock.box_no_backend ["home"; "a.txt"]
              Mock.empty_box Mock.gpg "ABCD1234"
              (Some ["tmp"; "a.txt.data"]) (Some ["tmp"; "a.txt.meta"])
              [] _ eq_refl eq_refl eq_refl) as [_ H].
  destruct (H (KeyError "'backend'") eq_refl) as [H1 H2].
  cbv zeta. unfold Mock.store. rewrite H2.
  split; [exact H1|]. split; set_solver.
Defined.

(** [Box.store] for a name that is stored, with a backend that refuses
    nothing: it returns, and the record of [a.txt] is no longer the first
    one. *)
Lemma store_existing_name_overwrites :
  let w := Mock.box_with_a [] in
  let r := Mock.store [] Mock.box ["home"; "a.txt"] w in
  key_files w !! "a.txt" = Some Mock.a_txt /\
  fst r = Ret tt /\
  key_files (snd r) !! "a.txt" =
    Some (Some "key-0f8f.data", Some "key-0f8f.meta") /\
  key_files (snd r) !! "a.txt" <> key_files w !! "a.txt".
Proof.
  vm_compute. repeat split; discriminate.
Qed.

(** [put] of a file whose name is stored. *)
Lemma put_existing_name_refused_witness :
  is_Some (config_file (Mock.box_with_a [])) /\
  is_Some (key_files (Mock.box_with_a []) !! path_name ["home"; "a.txt"]) /\
  let r := Mock.put ["base"] "box" ["home"; "a.txt"] (Mock.box_with_a []) in
  fst r = Raise (Exit 1) /\
  echoed (snd r) = ["Source name already exists in box."] /\
  keys_dir (snd r) = keys_dir (Mock.box_with_a []) /\
  calls (snd r) = [].
Proof.
  assert (H1 : is_Some (config_file (Mock.box_with_a []))) by (vm_compute; eauto).
  assert (H2 : is_Some (key_files (Mock.box_with_a []) !!
                          path_name ["home"; "a.txt"]))
    by (vm_compute; eauto).
  split; [exact H1|]. split; [exact H2|].
  destruct (put_existing_name_refused (Mock.get_backend [] []) Mock.uuid4
              Mock.write_error Mock.new_gpg ["base"] "box" ["home"; "a.txt"]
              (Mock.box_with_a []) H1 H2) as (R1 & R2 & R3 & _ & _ & _ & R7).
  repeat split; assumption.
Defined.

(** [Box.retrieve] for a name that has no record, with a backend that
    answers every key: two retrieval jobs are started for the key [None],
    and the call returns. *)
Lemma retrieve_absent_starts_jobs :
  let w := Mock.empty_box in
  let r := Mock.retrieve 0 Mock.box "ghost" ["out"] tt w in
  key_files w !! "ghost" = None /\
  jobs_dir w !! "ghost" = None /\
  fst r = Ret tt /\
  firstn 2 (new_calls w (snd r)) =
    [(CRetrieveInit None tt, None); (CRetrieveInit None tt, None)].
Proof.
  vm_compute. repeat split.
Qed.

(** [get] of a name that is not stored. *)
Lemma get_absent_name_refused_witness :
  is_Some (config_file (Mock.box_with_a [])) /\
  plain "ghost" = true /\
  key_files (Mock.box_with_a []) !! "ghost" = None /\
  let r := Mock.get 1 ["base"] "box" "ghost" ["out"] (Mock.box_with_a []) in
  fst r = Raise (Exit 1) /\
  echoed (snd r) = ["Source name not found in box."] /\
  jobs_dir (snd r) = jobs_dir (Mock.box_with_a []) /\
  calls (snd r) = [].
Proof.
  assert (H1 : is_Some (config_file (Mock.box_with_a []))) by (vm_compute; eauto).
  split; [exact H1|]. split; [reflexivity|]. split; [reflexivity|].
  destruct (get_absent_name_refused (Mock.get_backend [] [])
              Mock.write_error Mock.new_gpg 1 ["base"] "box" "ghost" ["out"]
              (Mock.box_with_a []) H1 eq_refl eq_refl)
    as (R1 & R2 & _ & R4 & _ & _ & R7).
  repeat split; assumption.
Defined.



(** The sources of a box that holds Banana, apple and Cherry, the
    directory being listed as the set of names enumerates, and the names
    being lower-cased as ASCII strings are. *)
Lemma sources_sorted_witness :
  (forall s : gset string, Permutation (elements s) (elements s)) /\
  (forall s, ascii_only s = true -> lower_ascii s = lower_ascii s) /\
  exists l,
    Box.sources lower_ascii elements Mock.box Mock.box_with_three =
      (Ret l, Mock.box_with_three) /\
    StronglySorted (key_le (fun s => lower_ascii (Box.name s))) l /\
    map Box.name l = ["apple"; "Banana"; "Cherry"].
Proof.
  split; [intros s; reflexivity|]. split; [intros s _; reflexivity|].
  destruct (sources_sorted lower_ascii elements Mock.box Mock.box_with_three
              (fun s => Permutation_refl (elements s))
              (fun s _ => eq_refl))
    as (l & Hrun & _ & Hsorted & _ & _ & Hex).
  exists l. split; [exact Hrun|]. split; [exact Hsorted|].
  apply Hex. unfold key_files, Mock.box_with_three, Mock.disk. simpl.
  rewrite !dom_insert_L, dom_singleton_L. set_solver.
Defined.

(** The order of the example of the specification. *)
Example sources_example :
  map Box.name
    (sort_by_key (fun s => lower_ascii (Box.name s))
       (map (fun n => {| Box.name := n |}) ["Banana"; "apple"; "Cherry"])) =
  ["apple"; "Banana"; "Cherry"].
Proof. reflexivity. Qed.

(** * The further properties at work, on the mock *)

(** Storing [a.txt] in an empty box on a disk that is full: both uploads
    return, the writing of the record raises, and a file of that name is
    left in [retrieval-keys]. *)
Example store_on_full_disk :
  let r := Box.store (Mock.get_backend [] []) Mock.uuid4 Mock.disk_full
             Mock.box ["home"; "a.txt"] Mock.empty_box in
  fst r =
    Raise (Exception "Storage operation failed. (No space left on device)") /\
  keys_dir Mock.empty_box = None /\
  is_Some (key_files (snd r) !! "a.txt").
Proof. vm_compute. repeat split. eauto. Qed.

(** Storing [a.txt] in an empty box, then deleting it. *)
Lemma store_then_delete_witness :
  let w1 := snd (Mock.store [] Mock.box ["home"; "a.txt"] Mock.empty_box) in
  let w2 := snd (Mock.delete Mock.box "a.txt" w1) in
  Mock.store [] Mock.box ["home"; "a.txt"] Mock.empty_box = (Ret tt, w1) /\
  Mock.delete Mock.box "a.txt" w1 = (Ret tt, w2) /\
  key_files w2 = base.delete "a.txt" (key_files Mock.empty_box).
Proof.
  cbv zeta.
  assert (H1 : Mock.store [] Mock.box ["home"; "a.txt"] Mock.empty_box =
               (Ret tt,
                snd (Mock.store [] Mock.box ["home"; "a.txt"]
                       Mock.empty_box)))
    by (vm_compute; reflexivity).
  assert (H2 : Mock.delete Mock.box "a.txt"
                 (snd (Mock.store [] Mock.box ["home"; "a.txt"]
                         Mock.empty_box)) =
               (Ret tt,
                snd (Mock.delete Mock.box "a.txt"
                       (snd (Mock.store [] Mock.box ["home"; "a.txt"]
                               Mock.empty_box)))))
    by (vm_compute; reflexivity).
  split; [exact H1|]. split; [exact H2|].
  apply (store_then_delete (Mock.get_backend [] []) Mock.uuid4
           Mock.write_error Mock.box ["home"; "a.txt"] Mock.empty_box _ _
           H1 H2).
Defined.

(** Storing with a box object that has no GnuPG instance. *)
Lemma store_needs_gpg_and_key_witness :
  (Box._gpg Mock.box_no_gpg = None \/
   Box.config Mock.box_no_gpg !! "key-id" = None) /\
  Mock.store [] Mock.box_no_gpg ["home"; "a.txt"] Mock.empty_box =
  (Raise (Exception "No GPG instance."), Mock.empty_box).
Proof.
  split; [left; reflexivity|].
  apply (store_needs_gpg_and_key (Mock.get_backend [] []) Mock.uuid4
           Mock.write_error Mock.box_no_gpg ["home"; "a.txt"] Mock.empty_box).
  left. reflexivity.
Defined.

(** Storing with a box whose configuration has no backend: the two
    artifacts stay. *)
Lemma store_without_backend_keeps_artifacts_witness :
  Box.backend (Mock.get_backend [] []) Mock.box_no_backend Mock.empty_box =
    (Raise (KeyError "'backend'"), Mock.empty_box) /\
  let r := Mock.store [] Mock.box_no_backend ["home"; "a.txt"]
             Mock.empty_box in
  fst r = Raise (KeyError "'backend'") /\
  files (snd r) =
    {[ ["tmp"; "a.txt.data"] ]} ∪ ({[ ["tmp"; "a.txt.meta"] ]} ∪ ∅).
Proof.
  split; [reflexivity|].
  destruct (store_without_backend_keeps_artifacts (Mock.get_backend [] [])
              Mock.uuid4 Mock.write_error Mock.box_no_backend
              ["home"; "a.txt"] Mock.empty_box Mock.gpg "ABCD1234"
              (Some ["tmp"; "a.txt.data"]) (Some ["tmp"; "a.txt.meta"])
              [] _ (KeyError "'backend'")
              eq_refl eq_refl eq_refl eq_refl) as (H1 & H2 & _).
  split; [exact H1|exact H2].
Defined.

(** A retrieval of [a.txt] given one round while the jobs keep running,
    and the retrieval that follows it. *)
Lemma retrieve_pending_resumes_witness :
  Box.backend (Mock.get_backend [] []) Mock.box
    (Mock.box_with_a [running; running; success]) =
  (Ret (Mock.backend [] []), Mock.box_with_a [running; running; success]) /\
  let r := Mock.retrieve 1 Mock.box "a.txt" ["out"] tt
             (Mock.box_with_a [running; running; success]) in
  fst r = Pending /\
  jobs_dir (snd r) !! "a.txt" =
    Some (Some "job-key-1.data", Some "job-key-1.meta") /\
  Forall (resumes (Some "job-key-1.data") (Some "job-key-1.meta"))
    (new_calls (snd r) (snd (Mock.retrieve 5 Mock.box "a.txt" ["out"] tt
                               (snd r)))).
Proof.
  split; [reflexivity|].
  edestruct (retrieve_pending_resumes (Mock.get_backend [] [])
               Mock.write_error 1 5 Mock.box "a.txt" ["out"] tt
               (Mock.box_with_a [running; running; success]))
    as (H1 & H2 & H3);
    [reflexivity|vm_compute; reflexivity|vm_compute; reflexivity|].
  cbv zeta. unfold Mock.retrieve. rewrite H1. simpl.
  split; [reflexivity|]. split; [exact H2|exact H3].
Defined.

(** A retrieval of [a.txt] with a backend that cannot be reached for the
    status. *)
Lemma retrieve_poll_error_keeps_jobs_witness :
  Box.backend (Mock.get_faulty true []) Mock.box (Mock.box_with_a []) =
  (Ret (Mock.faulty true []), Mock.box_with_a []) /\
  let r := Box.retrieve (Mock.get_faulty true []) Mock.write_error 3 Mock.box
             "a.txt" ["out"] tt (Mock.box_with_a []) in
  fst r =
    Raise (UnboundLocalError
             "local variable 'data_path' referenced before assignment") /\
  jobs_dir (snd r) !! "a.txt" =
    Some (Some "job-key-1.data", Some "job-key-1.meta").
Proof.
  split; [reflexivity|].
  edestruct (retrieve_poll_error_keeps_jobs (Mock.get_faulty true [])
               Mock.write_error 3 Mock.box "a.txt" ["out"] tt
               (Mock.box_with_a []))
    as (H1 & H2);
    [reflexivity|vm_compute; reflexivity|vm_compute; reflexivity|].
  cbv zeta. rewrite H1. simpl. split; [reflexivity|exact H2].
Defined.

(** A retrieval of [a.txt] that goes through. *)
Lemma retrieve_downloads_and_decrypts_witness :
  Box.backend (Mock.get_backend [] []) Mock.box (Mock.box_with_a [running]) =
  (Ret (Mock.backend [] []), Mock.box_with_a [running]) /\
  Box._gpg Mock.box = Some Mock.gpg /\
  let r := Mock.retrieve 2 Mock.box "a.txt" ["out"] tt
             (Mock.box_with_a [running]) in
  fst r = Ret tt /\
  jobs_dir (snd r) !! "a.txt" = None /\
  files (snd r) =
    without (Some ["tmp"; "job-key-1.meta"])
      (without (Some ["tmp"; "job-key-1.data"])
         ({[ ["out"] ]} ∪ ({[ ["tmp"; "job-key-1.meta"] ]} ∪
                           ({[ ["tmp"; "job-key-1.data"] ]} ∪ ∅)))).
Proof.
  split; [reflexivity|]. split; [reflexivity|].
  edestruct (retrieve_downloads_and_decrypts (Mock.get_backend [] [])
               Mock.write_error 2 Mock.box "a.txt" ["out"] tt
               (Mock.box_with_a [running]))
    as (H1 & H2 & _ & H4);
    [reflexivity|vm_compute; reflexivity|vm_compute; reflexivity
    |reflexivity|reflexivity|reflexivity|reflexivity|].
  cbv zeta. split; [exact H1|]. split; [exact H2|exact H4].
Defined.

(** A retrieval of [a.txt] whose metadata cannot be fetched. *)
Lemma retrieve_second_download_fails_witness :
  Box.backend (Mock.get_faulty false [Some "job-key-1.meta"]) Mock.box
    (Mock.box_with_a []) =
  (Ret (Mock.faulty false [Some "job-key-1.meta"]), Mock.box_with_a []) /\
  let r := Box.retrieve (Mock.get_faulty false [Some "job-key-1.meta"])
             Mock.write_error 2 Mock.box "a.txt" ["out"] tt
             (Mock.box_with_a []) in
  fst r =
    Raise (UnboundLocalError
             "local variable 'meta_path' referenced before assignment") /\
  jobs_dir (snd r) !! "a.txt" = None /\
  files (snd r) =
    without (Some ["tmp"; "job-key-1.data"])
      ({[ ["tmp"; "job-key-1.data"] ]} ∪ ∅).
Proof.
  split; [reflexivity|].
  edestruct (retrieve_second_download_fails
               (Mock.get_faulty false [Some "job-key-1.meta"])
               Mock.write_error 2 Mock.box "a.txt" ["out"] tt
               (Mock.box_with_a []))
    as (H1 & H2 & H3);
    [reflexivity|vm_compute; reflexivity|vm_compute; reflexivity
    |reflexivity|reflexivity|].
  cbv zeta. split; [exact H1|]. split; [exact H2|exact H3].
Defined.

(** Initialising the mock box where there is none, then once more. *)
Lemma init_once_witness :
  let w1 := snd (Box.init (Mock.get_backend [] []) Mock.write_error Mock.box
                   Mock.no_box) in
  Box.init (Mock.get_backend [] []) Mock.write_error Mock.box Mock.no_box =
    (Ret tt, w1) /\
  Box.get_box ["base"] "box" w1 =
    (Ret {| Box.config := Mock.config; Box._gpg := None |}, w1) /\
  Box.exists_ Mock.box_no_gpg w1 = (Ret true, w1) /\
  Box.init (Mock.get_backend [] []) Mock.write_error Mock.box_no_gpg w1 =
    (Raise (Exception "Box already initialized."), w1).
Proof.
  cbv zeta.
  assert (H : Box.init (Mock.get_backend [] []) Mock.write_error Mock.box
                Mock.no_box =
              (Ret tt,
               snd (Box.init (Mock.get_backend [] []) Mock.write_error
                      Mock.box Mock.no_box)))
    by (vm_compute; reflexivity).
  split; [exact H|].
  exact (init_once (Mock.get_backend [] []) Mock.write_error Mock.box
           Mock.box_no_gpg ["base"] "box" Mock.no_box _ H).
Defined.

(** [init folder] and [init glacier] of a box that exists. *)
Lemma cli_init_existing_box_witness :
  is_Some (config_file (Mock.box_with_a [])) /\
  let r := Mock.init_folder ["base"] "box" "ABCD1234" "/mnt/backup"
             (Mock.box_with_a []) in
  fst r = Raise (Exit 1) /\
  echoed (snd r) = ["Box already exists."] /\
  config_file (snd r) = Some Mock.config.
Proof.
  assert (H : is_Some (config_file (Mock.box_with_a [])))
    by (vm_compute; eauto).
  split; [exact H|].
  destruct (cli_init_existing_box (Mock.get_backend [] []) Mock.write_error
              Mock.valid_key_id ["base"] "box" "ABCD1234" "/mnt/backup"
              (Mock.box_with_a []) H) as [H1 _].
  cbv zeta. unfold Mock.init_folder. rewrite H1. repeat split.
Defined.

(** [init folder] with a key id that the mock GnuPG does not know. *)
Lemma cli_init_invalid_key_witness :
  config_file Mock.no_box = None /\
  Mock.valid_key_id (["base"] ++ ["GPG"])%list "WRONG" (ext Mock.no_box)
    (files Mock.no_box) = (Ok false, [], ∅) /\
  let r := Mock.init_folder ["base"] "box" "WRONG" "/mnt/backup"
             Mock.no_box in
  fst r = Raise (Exit 1) /\
  echoed (snd r) = ["Invalid key ID."] /\
  config_file (snd r) = None /\
  calls (snd r) = [].
Proof.
  split; [reflexivity|]. split; [reflexivity|].
  destruct (cli_init_invalid_key (Mock.get_backend [] []) Mock.write_error
              Mock.valid_key_id ["base"] "box" "WRONG" "/mnt/backup"
              Mock.no_box [] ∅ eq_refl eq_refl) as [H1 _].
  cbv zeta. unfold Mock.init_folder. rewrite H1. repeat split.
Defined.

(** [init folder] on a disk that is full: the command reports the
    failure, and [config.yml] is there. *)
Lemma cli_init_failure_reported_witness :
  let cfg := Cli.new_config "ABCD1234" "folder" "folder-path"
               "/mnt/backup" in
  let w2 := snd (Box.init (Mock.get_backend [] []) Mock.disk_full
                   {| Box.config := cfg; Box._gpg := None |} Mock.no_box) in
  config_file Mock.no_box = None /\
  Box.init (Mock.get_backend [] []) Mock.disk_full
    {| Box.config := cfg; Box._gpg := None |} Mock.no_box =
    (Raise (OSError "No space left on device"), w2) /\
  let r := Cli.init_folder (Mock.get_backend [] []) Mock.disk_full
             Mock.valid_key_id ["base"] "box" "ABCD1234" "/mnt/backup"
             Mock.no_box in
  fst r = Raise (Exit 1) /\
  echoed (snd r) = ["Box initialization failed. (No space left on device)"] /\
  is_Some (config_file (snd r)).
Proof.
  cbv zeta.
  assert (H : Box.init (Mock.get_backend [] []) Mock.disk_full
                {| Box.config :=
                     Cli.new_config "ABCD1234" "folder" "folder-path"
                       "/mnt/backup";
                   Box._gpg := None |}
                (set_files ∅ (set_ext [] Mock.no_box)) =
              (Raise (OSError "No space left on device"),
               snd (Box.init (Mock.get_backend [] []) Mock.disk_full
                      {| Box.config :=
                           Cli.new_config "ABCD1234" "folder" "folder-path"
                             "/mnt/backup";
                         Box._gpg := None |} Mock.no_box)))
    by (vm_compute; reflexivity).
  split; [reflexivity|]. split; [exact H|].
  destruct (cli_init_failure_reported (Mock.get_backend [] [])
              Mock.disk_full Mock.valid_key_id ["base"] "box" "ABCD1234"
              "/mnt/backup" Mock.no_box _ [] ∅ _ eq_refl eq_refl H)
    as (H1 & H2 & H3).
  split; [exact H1|]. split; [exact H2|].
  destruct H3 as [H3|(_ & _ & H3)]; [vm_compute in H3; discriminate|exact H3].
Defined.

(** [init folder] where there is no box, then a [Box] object for it. *)
Lemma cli_init_folder_then_get_box_witness :
  config_file Mock.no_box = None /\
  let r := Mock.init_folder ["base"] "box" "ABCD1234" "/mnt/backup"
             Mock.no_box in
  fst r = Ret tt /\
  echoed (snd r) = [] /\
  exists box,
    Box.get_box ["base"] "box" (snd r) = (Ret box, snd r) /\
    Box.key box (snd r) = (Ret "ABCD1234", snd r) /\
    Box.config box !! "backend" = Some "folder" /\
    Box.config box !! "folder-path" = Some "/mnt/backup".
Proof.
  split; [reflexivity|].
  edestruct (cli_init_folder_then_get_box (Mock.get_backend [] [])
               Mock.write_error Mock.valid_key_id ["base"] "box" "ABCD1234"
               "/mnt/backup" Mock.no_box)
    as (H1 & H2 & H3);
    [reflexivity|reflexivity|vm_compute; reflexivity|].
  cbv zeta. unfold Mock.init_folder. rewrite H1.
  split; [reflexivity|]. split; [exact H2|exact H3].
Defined.

(** [put] where there is no box. *)
Lemma put_always_exits_witness :
  config_file Mock.no_box = None /\
  let r := Mock.put ["base"] "box" ["home"; "a.txt"] Mock.no_box in
  fst r = Raise (Exit 1) /\
  echoed (snd r) = ["Box not found."] /\
  new_calls Mock.no_box (snd r) = [].
Proof.
  split; [reflexivity|].
  destruct (put_always_exits (Mock.get_backend [] []) Mock.uuid4
              Mock.write_error Mock.new_gpg ["base"] "box" ["home"; "a.txt"]
              Mock.no_box) as (H1 & _ & _ & _ & H5).
  destruct (H5 eq_refl) as [H6 H7].
  cbv zeta. split; [exact H1|]. split; [exact H6|exact H7].
Defined.

(** [get] of the source [''] in a box that holds [a.txt]: line 134 finds
    the directory [retrieval-keys], and the command goes on to its call
    of [box.retrieve]. *)
Lemma get_always_exits_witness :
  has_sep "" = false /\
  String.length "" <= NAME_MAX /\
  key_files (Mock.box_with_a []) !! "" = None /\
  let r := Mock.get 1 ["base"] "box" "" ["out"] (Mock.box_with_a []) in
  fst r = Raise (Exit 1) /\
  echoed (snd r) =
    ["retrieve() missing 2 required positional arguments: 'dst_path' and 'backend_options'"].
Proof.
  assert (H1 : has_sep "" = false) by reflexivity.
  assert (H2 : String.length "" <= NAME_MAX) by (unfold NAME_MAX; simpl; lia).
  split; [exact H1|]. split; [exact H2|]. split; [reflexivity|].
  destruct (get_always_exits (Mock.get_backend [] []) Mock.write_error
              Mock.new_gpg 1 ["base"] "box" "" ["out"] (Mock.box_with_a [])
              H1 H2) as (msg & Hmsg & Hget).
  specialize (Hmsg Mock.box Mock.empty_box). simpl in Hmsg.
  injection Hmsg as <-.
  cbv zeta. unfold Mock.get. rewrite Hget. split; reflexivity.
Defined.

(** [apple] is contained in the box of three sources and listed. *)
Lemma contains_iff_listed_witness :
  (forall s : gset string, Permutation (elements s) (elements s)) /\
  plain "apple" = true /\
  exists l,
    Box.sources lower_ascii elements Mock.box Mock.box_with_three =
      (Ret l, Mock.box_with_three) /\
    (Box.contains Mock.box "apple" Mock.box_with_three =
       (Ret true, Mock.box_with_three) <->
     In {| Box.name := "apple" |} l).
Proof.
  assert (H : forall s : gset string, Permutation (elements s) (elements s))
    by (intros s; apply Permutation_refl).
  split; [exact H|]. split; [reflexivity|].
  exact (contains_iff_listed lower_ascii elements Mock.box "apple"
           Mock.box_with_three H eq_refl).
Defined.

(** The directory of the box that holds Banana, apple and Cherry, read
    forwards and backwards: two listings that differ, and one list of
    sources. *)
Lemma sources_order_independent_witness :
  let names := dom (key_files Mock.box_with_three) in
  (forall s : gset string, Permutation (elements s) (elements s)) /\
  (forall s : gset string, Permutation (rev (elements s)) (elements s)) /\
  (forall a b, is_Some (key_files Mock.box_with_three !! a) ->
     is_Some (key_files Mock.box_with_three !! b) ->
     lower_ascii a = lower_ascii b -> a = b) /\
  elements names <> rev (elements names) /\
  Box.sources lower_ascii elements Mock.box Mock.box_with_three =
  Box.sources lower_ascii (fun s => rev (elements s)) Mock.box
    Mock.box_with_three.
Proof.
  cbv zeta.
  assert (H1 : forall s : gset string,
            Permutation (elements s) (elements s))
    by (intros s; apply Permutation_refl).
  assert (H2 : forall s : gset string,
            Permutation (rev (elements s)) (elements s))
    by (intros s; apply Permutation_sym, Permutation_rev).
  assert (H3 : forall a b, is_Some (key_files Mock.box_with_three !! a) ->
            is_Some (key_files Mock.box_with_three !! b) ->
            lower_ascii a = lower_ascii b -> a = b).
  { intros a b Ha Hb Hl. apply elem_of_dom in Ha, Hb.
    unfold key_files, Mock.box_with_three, Mock.disk in Ha, Hb.
    simpl in Ha, Hb. rewrite !dom_insert_L, dom_singleton_L in Ha, Hb.
    set_unfold.
    destruct Ha as [->|[->| ->]], Hb as [->|[->| ->]];
      try reflexivity; vm_compute in Hl; discriminate. }
  split; [exact H1|]. split; [exact H2|]. split; [exact H3|].
  split; [vm_compute; discriminate|].
  exact (sources_order_independent lower_ascii elements
           (fun s => rev (elements s)) Mock.box Mock.box_with_three
           H1 H2 H3).
Defined.
